(** * ChromaDB bootstrap scripts of Forest: a shallow embedding

    The repository holds four Python scripts:
    - [___stage1/start-chromadb-server.py]  (module [StartServer]),
    - [___stage1/chromadb-simple-server.py] (module [SimpleServer]),
    - [start-local-chromadb-server.py]      (module [LocalServer]),
    - [test-chromadb-simple.py]             (module [Diagnostic]).

    Every script is glue around external code (chromadb, uvicorn, FastAPI,
    pip, pathlib, argparse).  The scripts are embedded as programs of a
    small exception-and-state monad; what the external code answers is read
    from a [World], over which every theorem quantifies.

    What the world can answer bounds what the theorems say.  An import
    binds its names or raises [ImportError]; an external call returns or
    raises any exception of [exn]; [print] and the logger write their line
    and return; attributes the scripts read ([chromadb.__version__]) are
    there.  A theorem below is about the runs in which the outside behaves
    within these bounds. *)

From Stdlib Require Import ZArith String Ascii List Bool Lia.
From stdpp Require Import gmap strings list pretty.

Open Scope string_scope.
Open Scope Z_scope.
Open Scope list_scope.

(** ** Strings as Python uses them here *)

Definition nl : string := String "010"%char EmptyString.

(** [needle in hay] *)
Fixpoint contains (needle hay : string) : bool :=
  String.prefix needle hay ||
  match hay with
  | EmptyString => false
  | String _ rest => contains needle rest
  end.

(** [s.startswith(p)] *)
Definition startswith (p s : string) : bool := String.prefix p s.

Definition upper_char (c : ascii) : ascii :=
  let n := nat_of_ascii c in
  if ((97 <=? n) && (n <=? 122))%nat then ascii_of_nat (n - 32) else c.

Definition lower_char (c : ascii) : ascii :=
  let n := nat_of_ascii c in
  if ((65 <=? n) && (n <=? 90))%nat then ascii_of_nat (n + 32) else c.

Fixpoint map_string (f : ascii -> ascii) (s : string) : string :=
  match s with
  | EmptyString => EmptyString
  | String c r => String (f c) (map_string f r)
  end.

(** [s.upper()] and [s.lower()] on ASCII text *)
Definition upper : string -> string := map_string upper_char.
Definition lower : string -> string := map_string lower_char.

(** [s * n] *)
Fixpoint str_repeat (s : string) (n : nat) : string :=
  match n with
  | O => ""
  | S k => s +:+ str_repeat s k
  end.

(** Truth value of an optional string: [None] and [""] are falsy. *)
Definition truthy (o : option string) : bool :=
  match o with
  | None => false
  | Some s => negb (String.eqb s "")
  end.

(** The string behind a truthy optional string. *)
Definition the (o : option string) : string := default "" o.

(** [o or d] *)
Definition or_else (o : option string) (d : string) : string :=
  if truthy o then the o else d.

(** [s.endswith(p)] *)
Definition endswith (p s : string) : bool :=
  String.eqb (String.substring (String.length s - String.length p) (String.length p) s) p
  && (String.length p <=? String.length s)%nat.

(** [os.path.join(a, b)] for a relative [b] *)
Definition path_join (a b : string) : string :=
  if String.eqb a "" || endswith "/" a then a +:+ b else a +:+ "/" +:+ b.

(** ** Exceptions *)

(** The part of Python's exception hierarchy the scripts can tell apart.
    [Error] stands for every class below [Exception] that no [except]
    clause of the scripts names.  [KeyboardInterrupt] and [SystemExit]
    derive from [BaseException] only, and so does whatever
    [OtherBaseException] stands for ([GeneratorExit],
    [asyncio.CancelledError], [BaseExceptionGroup], a class of the
    library's own). *)
Inductive exn : Type :=
| ImportError (msg : string)
| CalledProcessError (msg : string)
| OSError (msg : string)
| Error (msg : string)
| KeyboardInterrupt
| SystemExit (code : Z)
| OtherBaseException (msg : string).

Definition is_ImportError (e : exn) : bool :=
  match e with ImportError _ => true | _ => false end.

Definition is_CalledProcessError (e : exn) : bool :=
  match e with CalledProcessError _ => true | _ => false end.

Definition is_KeyboardInterrupt (e : exn) : bool :=
  match e with KeyboardInterrupt => true | _ => false end.

(** [isinstance(e, Exception)] *)
Definition is_Exception (e : exn) : bool :=
  match e with
  | KeyboardInterrupt | SystemExit _ | OtherBaseException _ => false
  | _ => true
  end.

(** The [OSError]s of [os.mkdir], by their errno text.  The first is
    [FileNotFoundError], the one pathlib singles out. *)
Definition ENOENT : string := "[Errno 2] No such file or directory".
Definition EEXIST : string := "[Errno 17] File exists".
Definition ENOTDIR : string := "[Errno 20] Not a directory".

(** [str(e)] *)
Definition str_exn (e : exn) : string :=
  match e with
  | ImportError m | CalledProcessError m | OSError m | Error m => m
  | OtherBaseException m => m
  | KeyboardInterrupt => ""
  | SystemExit c => pretty c
  end.

(** ** The file system, as far as [Path.mkdir] sees it *)

Inductive node : Type := Dir | File.

(** A path is the list of its parts below the anchor (the root, or the
    working directory for a relative path), innermost part first:
    [a/b/c] is ["c"; "b"; "a"], its parent is the tail, and the anchor
    itself is []. *)
Definition path : Type := list string.

Definition parent (p : path) : path := tail p.

(** What is at [p]; the anchor is always a directory. *)
Definition node_at (fs : gmap (list string) node) (p : path) : option node :=
  match p with
  | [] => Some Dir
  | _ => fs !! p
  end.

Definition is_dir (fs : gmap (list string) node) (p : path) : bool :=
  match node_at fs p with Some Dir => true | _ => false end.

(** [os.mkdir(p)]: the error, or the file system with the new directory.
    Of the errors of the system call those are modelled that depend on
    [p] and its parent; permissions are not. *)
Definition os_mkdir (p : path) (fs : gmap (list string) node)
  : string + gmap (list string) node :=
  match node_at fs p with
  | Some _ => inl EEXIST
  | None =>
      match node_at fs (parent p) with
      | None => inl ENOENT
      | Some File => inl ENOTDIR
      | Some Dir => inr (<[p := Dir]> fs)
      end
  end.

(** [Path.mkdir(parents, exist_ok)], after pathlib:
<<
    try: os.mkdir(self)
    except FileNotFoundError:
        if not parents or self.parent == self: raise
        self.parent.mkdir(parents=True, exist_ok=True)
        self.mkdir(parents=False, exist_ok=exist_ok)
    except OSError:
        if not exist_ok or not self.is_dir(): raise
>> *)
Definition mkdir_once (exist_ok : bool) (p : path) (fs : gmap (list string) node)
  : string + gmap (list string) node :=
  match os_mkdir p fs with
  | inr fs' => inr fs'
  | inl err =>
      if String.eqb err ENOENT then inl err
      else if negb exist_ok || negb (is_dir fs p) then inl err
      else inr fs
  end.

Fixpoint mkdir_parents (exist_ok : bool) (p : path) (fs : gmap (list string) node)
  : string + gmap (list string) node :=
  match os_mkdir p fs with
  | inr fs' => inr fs'
  | inl err =>
      if String.eqb err ENOENT then
        match p with
        | [] => inl err
        | _ :: up =>
            match mkdir_parents true up fs with
            | inl err' => inl err'
            | inr fs1 => mkdir_once exist_ok p fs1
            end
        end
      else if negb exist_ok || negb (is_dir fs p) then inl err
      else inr fs
  end.

Definition path_mkdir (parents exist_ok : bool) (p : path)
    (fs : gmap (list string) node) : string + gmap (list string) node :=
  if parents then mkdir_parents exist_ok p fs else mkdir_once exist_ok p fs.

(** ** External code *)

(** JSON-like Python values that travel through the HTTP handlers. *)
#[warnings="-register-all"] Inductive json : Type :=
| JNull
| JBool (b : bool)
| JInt (n : Z)
| JStr (s : string)
| JList (items : list json)
| JObj (fields : list (string * json)).

(** A collection handle of the chromadb client: the script reads [.name]
    and [.id] only. *)
Record collection : Type := { col_name : string; col_id : string }.

(** What [uvicorn.run] is given to serve. *)
Inductive app_ref : Type :=
| chromadb_app                      (* chromadb.server.fastapi.app *)
| app_import_string (s : string)    (* "module:attr" *)
| simple_app.                       (* the FastAPI object built by the simple server *)

(** The calls into external code, with the arguments the scripts pass. *)
Inductive call : Type :=
| chromadb_run_server (host : string) (port : Z) (settings : list (string * string))
| uvicorn_run (app : app_ref) (host : string) (port : Z) (log_level : string)
              (reload : option bool)
| subprocess_check_call (argv : list string)
| Settings_new (kw : list (string * json))
| chromadb_Client (with_settings : bool)
| chromadb_PersistentClient (path : string)
| FastAPI_new (title : string)
| app_add_middleware
| app_route (method path : string)
| client_list_collections
| client_create_collection (name metadata : json)
| client_get_collection (name : string).

(** Everything the scripts ask of their environment.  [importable b m]
    answers the import statement [m] ([None]: the names are bound,
    [Some msg]: [ImportError(msg)] is raised); [import m] is named ["m"]
    and [from m import n] is named ["m:n"], and [b] tells whether pip has
    installed packages since the process started.  [raises c] says whether
    the external call [c] raises, and what.  Module code that raises
    something else than [ImportError] while it is imported is not
    modelled. *)
Record World : Type := {
  importable : bool -> string -> option string;
  raises : call -> option exn;
  chromadb_version : string;
  has_run_server : bool;                      (* hasattr(chromadb, 'run_server') *)
  dir_chromadb : list string;                 (* dir(chromadb) *)
  listed : list collection;                   (* client.list_collections() *)
  created : json -> json -> collection;       (* client.create_collection(...) *)
  got : string -> collection;                 (* client.get_collection(...) *)
  time_ns : Z;                                (* int(time.time() * 1e9) *)
  Path : string -> path;                      (* pathlib.Path(s) *)
  path_str : path -> string;                  (* str(p) *)
  expanduser : string -> string;              (* os.path.expanduser(s) *)
  sys_executable : string;
  py_int : string -> option Z;                (* int(s), None for ValueError *)
  py_repr : string -> string                  (* repr(s) *)
}.

(** ** Observable behaviour *)

Inductive level : Type := LInfo | LError.

Inductive event : Type :=
| Print (line : string)                  (* print(line) *)
| Log (lvl : level) (msg : string)       (* logger.info / logger.error *)
| Setenv (key value : string)            (* os.environ[key] = value *)
| Call (c : call)                        (* an external call was entered *)
| Argparse (text : string)               (* argparse writes its help or a usage error *)
| Traceback (e : exn).                   (* the interpreter reports an uncaught exception *)

(** The state of a run.  [fs] is the file system as the scripts' own
    [mkdir] calls see and change it; what the served library writes into
    its directories is not the scripts' doing and is not followed.
    [pip_done] tells whether pip has installed packages in this run. *)
Record state : Type := {
  trace : list event;                    (* newest first *)
  environ : gmap string string;          (* os.environ *)
  fs : gmap (list string) node;
  pip_done : bool
}.

Definition emit (ev : event) (s : state) : state :=
  {| trace := ev :: trace s; environ := environ s; fs := fs s;
     pip_done := pip_done s |}.

(** ** The monad of script fragments *)

(** A fragment returns, raises, or takes the run out of what is modelled
    here ([Unfollowed]); the last happens in one place only, [parse_args]
    below, and nothing catches it. *)
Inductive res (A : Type) : Type :=
| Ret (a : A)
| Raise (e : exn)
| Unfollowed.
Arguments Ret {A} a.
Arguments Raise {A} e.
Arguments Unfollowed {A}.

Definition M (A : Type) : Type := state -> res A * state.

Definition ret {A} (a : A) : M A := fun s => (Ret a, s).

Definition raise {A} (e : exn) : M A := fun s => (Raise e, s).

Definition bind {A B} (m : M A) (k : A -> M B) : M B :=
  fun s =>
    match m s with
    | (Ret a, s') => k a s'
    | (Raise e, s') => (Raise e, s')
    | (Unfollowed, s') => (Unfollowed, s')
    end.

Declare Scope py_scope.
Delimit Scope py_scope with py.
Notation "x <- m ;; k" := (bind m (fun x => k))
  (at level 100, m at next level, right associativity) : py_scope.
Notation "m ;; k" := (bind m (fun _ => k))
  (at level 100, right associativity) : py_scope.
Open Scope py_scope.

(** [try: body  except C1 as e: h1 e  except C2 as e: h2 e ...]: the first
    clause whose class test accepts the exception handles it; an exception
    raised by a handler is not looked at again. *)
Fixpoint select_handler {A} (hs : list ((exn -> bool) * (exn -> M A))) (e : exn)
  : option (M A) :=
  match hs with
  | [] => None
  | (cls, h) :: rest => if cls e then Some (h e) else select_handler rest e
  end.

Definition try_except {A} (body : M A) (hs : list ((exn -> bool) * (exn -> M A)))
  : M A :=
  fun s =>
    match body s with
    | (Ret a, s') => (Ret a, s')
    | (Raise e, s') =>
        match select_handler hs e with
        | Some h => h s'
        | None => (Raise e, s')
        end
    | (Unfollowed, s') => (Unfollowed, s')
    end.

Definition when (b : bool) (m : M unit) : M unit := if b then m else ret tt.

Fixpoint for_each {A} (l : list A) (body : A -> M unit) : M unit :=
  match l with
  | [] => ret tt
  | x :: r => body x ;; for_each r body
  end.

Section Primitives.
Variable w : World.

(** [print(line)]; the write to the terminal is taken to succeed. *)
Definition print (line : string) : M unit := fun s => (Ret tt, emit (Print line) s).

Definition logger_info (msg : string) : M unit :=
  fun s => (Ret tt, emit (Log LInfo msg) s).

Definition logger_error (msg : string) : M unit :=
  fun s => (Ret tt, emit (Log LError msg) s).

Definition setenv (k v : string) : M unit :=
  fun s => (Ret tt,
            {| trace := Setenv k v :: trace s; environ := <[k := v]> (environ s);
               fs := fs s; pip_done := pip_done s |}).

Definition sys_exit {A} (code : Z) : M A := raise (SystemExit code).

Definition py_import (m : string) : M unit :=
  fun s =>
    match importable w (pip_done s) m with
    | None => (Ret tt, s)
    | Some msg => (Raise (ImportError msg), s)
    end.

(** An external call: it is entered, then returns or raises. *)
Definition ext (c : call) : M unit :=
  fun s =>
    match raises w c with
    | None => (Ret tt, emit (Call c) s)
    | Some e => (Raise e, emit (Call c) s)
    end.

(** An external call whose result [v] the script goes on to use. *)
Definition ext_val {A} (c : call) (v : A) : M A :=
  fun s =>
    match raises w c with
    | None => (Ret v, emit (Call c) s)
    | Some e => (Raise e, emit (Call c) s)
    end.

(** [subprocess.check_call([sys.executable, "-m", "pip", "install", pkg])];
    a run that returns has changed the installed packages. *)
Definition pip_install (pkg : string) : M unit :=
  fun s =>
    let c := subprocess_check_call [sys_executable w; "-m"; "pip"; "install"; pkg] in
    match raises w c with
    | None => (Ret tt,
               {| trace := Call c :: trace s; environ := environ s; fs := fs s;
                  pip_done := true |})
    | Some e => (Raise e, emit (Call c) s)
    end.

(** [p.mkdir(parents=.., exist_ok=..)] *)
Definition Path_mkdir (parents exist_ok : bool) (p : path) : M unit :=
  fun s =>
    match path_mkdir parents exist_ok p (fs s) with
    | inr fs' => (Ret tt,
                  {| trace := trace s; environ := environ s; fs := fs';
                     pip_done := pip_done s |})
    | inl err => (Raise (OSError (err +:+ ": '" +:+ path_str w p +:+ "'")), s)
    end.
End Primitives.

(** ** The process around a script *)

Inductive status : Type :=
| Exited (code : Z)
| Interrupted           (* death by SIGINT after an uncaught KeyboardInterrupt *)
| NotFollowed.          (* the run left what is modelled here *)

(** [if __name__ == '__main__': main()]: a normal return ends the process
    with status 0, [SystemExit(c)] with [c], and any other exception that
    reaches the top is reported and ends it with status 1. *)
Definition run_process {A} (main : M A) (s : state) : status * state :=
  match main s with
  | (Ret _, s') => (Exited 0, s')
  | (Raise (SystemExit c), s') => (Exited c, s')
  | (Raise KeyboardInterrupt, s') => (Interrupted, emit (Traceback KeyboardInterrupt) s')
  | (Raise e, s') => (Exited 1, emit (Traceback e) s')
  | (Unfollowed, s') => (NotFollowed, s')
  end.

(** ** argparse

    [ArgumentParser.parse_args] as of Python 3.11, for parsers like the
    ones of the scripts: every argument is a long option that stores one
    value, and argparse adds [-h]/[--help].  Modelled: exact option
    strings, [--opt=value], unique-prefix abbreviations, the classification
    of every token before any is consumed, values that look like negative
    numbers or hold a space, the letters that may follow [-h], [--] (no
    option takes it as its value, and a parser without positional
    arguments has no place for it or for what follows it), and the empty
    list that the explicit argument [--] leaves in the namespace.  The
    digits of the negative numbers are the ASCII digits. *)

Definition is_digit (c : ascii) : bool :=
  let n := nat_of_ascii c in ((48 <=? n) && (n <=? 57))%nat.

Fixpoint all_digits (s : string) : bool :=
  match s with
  | EmptyString => true
  | String c r => is_digit c && all_digits r
  end.

(** [\d+$]: [$] also matches before a newline that ends the string. *)
Fixpoint digits_to_end (s : string) : bool :=
  match s with
  | EmptyString => false
  | String c r =>
      is_digit c && (String.eqb r "" || String.eqb r nl || digits_to_end r)
  end.

(** Splits at the first occurrence of [c]. *)
Fixpoint split_at (c : ascii) (s : string) : option (string * string) :=
  match s with
  | EmptyString => None
  | String d r =>
      if Ascii.eqb c d then Some (EmptyString, r)
      else match split_at c r with
           | Some (a, b) => Some (String d a, b)
           | None => None
           end
  end.

(** argparse's [^-\d+$|^-\d*\.\d+$] *)
Definition negative_number_like (t : string) : bool :=
  match t with
  | String "-" r =>
      digits_to_end r
      || match split_at "." r with
         | None => false
         | Some (a, b) => all_digits a && digits_to_end b
         end
  | _ => false
  end.

Definition str_in (s : string) (l : list string) : bool :=
  existsb (String.eqb s) l.

(** How [_parse_known_args] sees a token: ['A'], ['-'] (the first [--]),
    ['O'] with the option string it stands for and the argument it carries,
    ['O'] that no option answers to, or an abbreviation of several. *)
Inductive tok_class : Type :=
| TPositional
| TSeparator
| TOption (opt : string) (explicit : option string)
| TUnknown
| TAmbiguous (matches : list string).

(** [_get_option_tuples]: the option strings a token may abbreviate. *)
Definition option_tuples (opts : list string) (t : string)
  : list (string * option string) :=
  if startswith "--" t then
    let '(pre, explicit) :=
      match split_at "=" t with
      | Some (a, b) => (a, Some b)
      | None => (t, None)
      end in
    map (fun o => (o, explicit)) (List.filter (startswith pre) opts)
  else
    let short := String.substring 0 2 t in
    let rest := String.substring 2 (String.length t - 2) t in
    flat_map (fun o => if String.eqb o short then [(o, Some rest)]
                       else if startswith t o then [(o, None)] else []) opts.

(** [_parse_optional] *)
Definition classify (opts : list string) (t : string) : tok_class :=
  if negb (startswith "-" t) then TPositional
  else if str_in t opts then TOption t None
  else if String.eqb t "-" then TPositional
  else
    match (match split_at "=" t with
           | Some (a, b) => if str_in a opts then Some (a, b) else None
           | None => None
           end) with
    | Some (a, b) => TOption a (Some b)
    | None =>
        match option_tuples opts t with
        | [(o, explicit)] => TOption o explicit
        | (_ :: _ :: _) as tuples => TAmbiguous (map fst tuples)
        | [] =>
            if negative_number_like t then TPositional
            else if contains " " t then TPositional
            else TUnknown
        end
    end.

(** After the first [--] every token is an argument. *)
Fixpoint classify_all (opts : list string) (argv : list string)
  : list (string * tok_class) :=
  match argv with
  | [] => []
  | t :: rest =>
      if String.eqb t "--"
      then (t, TSeparator) :: map (fun a => (a, TPositional)) rest
      else (t, classify opts t) :: classify_all opts rest
  end.

(** What [parse_args] comes to: a namespace, a usage error, the help
    text, or a namespace in which the attributes of [opts] hold the empty
    list.  The last is what the explicit argument [--] does
    ([--port=--]): [_get_values] strips it and stores what is left,
    unconverted and unchecked.  The records of this model have no place
    for such a value. *)
Inductive parse_result (C : Type) : Type :=
| Parsed (ns : C)
| UsageError (msg : string)
| HelpShown
| EmptyListStored (opts : list string).
Arguments Parsed {C} ns.
Arguments UsageError {C} msg.
Arguments HelpShown {C}.
Arguments EmptyListStored {C} opts.

(** The letters [h] at the front of what follows [-h]. *)
Fixpoint after_h (v : string) : string :=
  match v with
  | String "h" r => after_h r
  | _ => v
  end.

Definition without (o : string) (l : list string) : list string :=
  List.filter (fun x => negb (String.eqb x o)) l.

Section Argparse.
Context {C : Type}.

(** [add_argument(flag, type=.., choices=..)]: [store v ns] converts and
    checks the value and sets the attribute, or gives the error. *)
Record argument : Type := { flag : string; store : string -> C -> string + C }.

(** [repr] is Python's, for the messages. *)
Record parser : Type := {
  defaults : C;
  arguments : list argument;
  repr : string -> string
}.

Definition option_strings (p : parser) : list string :=
  "-h" :: "--help" :: map flag (arguments p).

Definition is_help (o : string) : bool := String.eqb o "-h" || String.eqb o "--help".

Definition find_argument (p : parser) (o : string) : option argument :=
  List.find (fun a => String.eqb (flag a) o) (arguments p).

Definition store_value (p : parser) (o v : string) (ns : C) : string + C :=
  match find_argument p o with
  | Some a => store a v ns
  | None => inl ("unknown option " +:+ o)
  end.

(** The help option with an explicit argument.  After [-h] more
    single-dash options may follow in the same token, and [-h] is the only
    one there is; [--help] takes no argument at all. *)
Definition help_explicit (p : parser) (o v : string) : parse_result C :=
  let ignored x :=
    UsageError ("argument -h/--help: ignored explicit argument " +:+ repr p x) in
  if String.eqb o "-h" && negb (String.eqb v "") then
    match after_h v with
    | EmptyString => HelpShown
    | rest => ignored rest
    end
  else ignored v.

(** The loop of [_parse_known_args]: options act in the order of the
    command line; what no option takes is left over, and reported at the
    end.  [empties] are the options whose attribute holds the empty list
    at the moment. *)
Fixpoint consume (p : parser) (toks : list (string * tok_class)) (ns : C)
    (empties extras : list string) : parse_result C :=
  match toks with
  | [] =>
      match extras with
      | [] =>
          match empties with
          | [] => Parsed ns
          | _ => EmptyListStored empties
          end
      | _ => UsageError ("unrecognized arguments: " +:+ String.concat " " extras)
      end
  | (t, TPositional) :: rest => consume p rest ns empties (extras ++ [t])
  | (t, TSeparator) :: rest => consume p rest ns empties (extras ++ [t])
  | (t, TUnknown) :: rest => consume p rest ns empties (extras ++ [t])
  | (t, TAmbiguous ms) :: _ =>
      UsageError ("ambiguous option: " +:+ t +:+ " could match "
                  +:+ String.concat ", " ms)
  | (t, TOption o (Some v)) :: rest =>
      if is_help o then help_explicit p o v
      else if String.eqb v "--" then consume p rest ns (o :: without o empties) extras
      else match store_value p o v ns with
           | inl msg => UsageError msg
           | inr ns' => consume p rest ns' (without o empties) extras
           end
  | (t, TOption o None) :: rest =>
      if is_help o then HelpShown
      else match rest with
           | (v, TPositional) :: rest' =>
               match store_value p o v ns with
               | inl msg => UsageError msg
               | inr ns' => consume p rest' ns' (without o empties) extras
               end
           | _ => UsageError ("argument " +:+ o +:+ ": expected one argument")
           end
  end.

(** An ambiguous abbreviation is an error as soon as the tokens are
    classified, before any option acts. *)
Definition has_ambiguous (toks : list (string * tok_class))
  : option (string * list string) :=
  match List.find (fun tc => match snd tc with TAmbiguous _ => true | _ => false end)
                  toks with
  | Some (t, TAmbiguous ms) => Some (t, ms)
  | _ => None
  end.

Definition parse (p : parser) (argv : list string) : parse_result C :=
  let toks := classify_all (option_strings p) argv in
  match has_ambiguous toks with
  | Some (t, ms) =>
      UsageError ("ambiguous option: " +:+ t +:+ " could match "
                  +:+ String.concat ", " ms)
  | None => consume p toks (defaults p) [] []
  end.

(** [parser.parse_args()]: help ends the process with status 0, a
    usage error with status 2.  A namespace that holds an empty list is
    not followed further. *)
Definition parse_args (p : parser) (argv : list string) : M C :=
  match parse p argv with
  | Parsed ns => ret ns
  | HelpShown => fun s => (Raise (SystemExit 0), emit (Argparse "usage") s)
  | UsageError msg => fun s => (Raise (SystemExit 2), emit (Argparse ("error: " +:+ msg)) s)
  | EmptyListStored _ => fun s => (Unfollowed, s)
  end.
End Argparse.
Arguments argument C : clear implicits.
Arguments parser C : clear implicits.

(** [getattr(logging, name)] where it is a level; any other name makes
    [getattr] or [basicConfig] raise. *)
Definition logging_getattr (name : string) : option Z :=
  if String.eqb name "CRITICAL" || String.eqb name "FATAL" then Some 50
  else if String.eqb name "ERROR" then Some 40
  else if String.eqb name "WARNING" || String.eqb name "WARN" then Some 30
  else if String.eqb name "INFO" then Some 20
  else if String.eqb name "DEBUG" then Some 10
  else if String.eqb name "NOTSET" then Some 0
  else None.

(** * ___stage1/start-chromadb-server.py *)
Module StartServer.

Record args : Type := {
  host : string;
  port : Z;
  data_dir : option string;
  log_level : string
}.

Section Script.
Variable w : World.

(** [logging.basicConfig(level=getattr(logging, log_level.upper()), ...)]:
    with a level it configures the root logger, which the script never
    uses itself; without one it raises. *)
Definition logging_basicConfig (log_level : string) : M unit :=
  match logging_getattr (upper log_level) with
  | Some _ => ret tt
  | None => raise (Error ("module 'logging' has no attribute '"
                          +:+ upper log_level +:+ "'"))
  end.

(** The body of the [try] statement of [start_chromadb_server]. *)
Definition start_chromadb_server_body (host : string) (port : Z)
    (data_dir : option string) (log_level : string) : M unit :=
    (py_import w "chromadb" ;;
     py_import w "chromadb.config:Settings" ;;
     print ("🚀 Starting ChromaDB server v" +:+ chromadb_version w) ;;
     print ("📍 Host: " +:+ host) ;;
     print ("🔌 Port: " +:+ pretty port) ;;
     print ("💾 Data directory: " +:+ or_else data_dir "default") ;;
     settings <-
       (if truthy data_dir then
          let data_path := Path w (the data_dir) in
          Path_mkdir w true true data_path ;;
          print ("✅ Data directory created: " +:+ path_str w data_path) ;;
          ret [("persist_directory", path_str w data_path)]
        else ret []) ;;
     if has_run_server w then
       ext w (chromadb_run_server host port settings)
     else
       py_import w "chromadb.server.fastapi:app" ;;
       py_import w "uvicorn" ;;
       when (truthy data_dir)
         (setenv "CHROMA_DB_IMPL" "duckdb+parquet" ;;
          setenv "CHROMA_PERSIST_DIRECTORY" (the data_dir)) ;;
       print ("🌐 Starting server on http://" +:+ host +:+ ":" +:+ pretty port) ;;
       ext w (uvicorn_run chromadb_app host port (lower log_level) None)).

Definition start_chromadb_server (host : string) (port : Z)
    (data_dir : option string) (log_level : string) : M unit :=
  logging_basicConfig log_level ;;
  try_except
    (start_chromadb_server_body host port data_dir log_level)
    [ (is_ImportError, fun e =>
         print ("❌ ChromaDB not available: " +:+ str_exn e) ;;
         print "💡 Install with: pip install chromadb" ;;
         sys_exit 1);
      (is_Exception, fun e =>
         print ("❌ Server startup failed: " +:+ str_exn e) ;;
         sys_exit 1) ].

Definition set_host (v : string) (ns : args) : string + args :=
  inr {| host := v; port := port ns; data_dir := data_dir ns;
         log_level := log_level ns |}.

Definition set_port (v : string) (ns : args) : string + args :=
  match py_int w v with
  | Some n => inr {| host := host ns; port := n; data_dir := data_dir ns;
                     log_level := log_level ns |}
  | None => inl ("argument --port: invalid int value: " +:+ py_repr w v)
  end.

Definition set_data_dir (v : string) (ns : args) : string + args :=
  inr {| host := host ns; port := port ns; data_dir := Some v;
         log_level := log_level ns |}.

Definition log_level_choices : list string := ["DEBUG"; "INFO"; "WARNING"; "ERROR"].

Definition set_log_level (v : string) (ns : args) : string + args :=
  if str_in v log_level_choices then
    inr {| host := host ns; port := port ns; data_dir := data_dir ns;
           log_level := v |}
  else inl ("argument --log-level: invalid choice: " +:+ py_repr w v
            +:+ " (choose from 'DEBUG', 'INFO', 'WARNING', 'ERROR')").

Definition arg_parser : parser args :=
  {| defaults := {| host := "0.0.0.0"; port := 8000; data_dir := None;
                    log_level := "INFO" |};
     arguments := [ {| flag := "--host"; store := set_host |};
                    {| flag := "--port"; store := set_port |};
                    {| flag := "--data-dir"; store := set_data_dir |};
                    {| flag := "--log-level"; store := set_log_level |} ];
     repr := py_repr w |}.

Definition main (argv : list string) : M unit :=
  a <- parse_args arg_parser argv ;;
  print "🔧 ChromaDB Server for Forest Integration" ;;
  print (str_repeat "=" 50) ;;
  try_except
    (start_chromadb_server (host a) (port a) (data_dir a) (log_level a))
    [ (is_KeyboardInterrupt, fun _ =>
         print (nl +:+ "🛑 Server stopped by user"));
      (is_Exception, fun e =>
         print (nl +:+ "❌ Unexpected error: " +:+ str_exn e) ;;
         sys_exit 1) ].

(** The script run as a process with command line [argv]. *)
Definition script (argv : list string) (s : state) : status * state :=
  run_process (main argv) s.
End Script.
End StartServer.

(** * ___stage1/chromadb-simple-server.py *)
Module SimpleServer.

Record args : Type := {
  host : string;
  port : Z;
  data_dir : option string
}.

Inductive http_method : Type := GET | POST.

Definition method_name (m : http_method) : string :=
  match m with GET => "GET" | POST => "POST" end.

(** What a handler is called with: the JSON body ([request: dict]) or
    the path parameter. *)
Inductive handler : Type :=
| NoArg (h : M json)
| Body (h : gmap string json -> M json)
| PathParam (h : string -> M json).

Record route : Type := {
  route_method : http_method;
  route_path : string;
  route_handler : handler
}.

Section Script.
Variable w : World.

(** The four functions decorated with [@app.get] / [@app.post]; they
    close over [client]. *)
Definition heartbeat : M json :=
  ret (JObj [("nanosecond heartbeat", JInt (time_ns w))]).

Definition describe (c : collection) : json :=
  JObj [("name", JStr (col_name c)); ("id", JStr (col_id c))].

Definition list_collections : M json :=
  collections <- ext_val w client_list_collections (listed w) ;;
  ret (JList (map describe collections)).

Definition create_collection (request : gmap string json) : M json :=
  let name := default JNull (request !! "name") in
  let metadata := default (JObj []) (request !! "metadata") in
  c <- ext_val w (client_create_collection name metadata) (created w name metadata) ;;
  ret (describe c).

Definition get_collection (collection_name : string) : M json :=
  c <- ext_val w (client_get_collection collection_name) (got w collection_name) ;;
  ret (describe c).

(** The routes in the order the decorators register them. *)
Definition routes : list route :=
  [ {| route_method := GET; route_path := "/api/v1/heartbeat";
       route_handler := NoArg heartbeat |};
    {| route_method := GET; route_path := "/api/v1/collections";
       route_handler := NoArg list_collections |};
    {| route_method := POST; route_path := "/api/v1/collections";
       route_handler := Body create_collection |};
    {| route_method := GET; route_path := "/api/v1/collections/{collection_name}";
       route_handler := PathParam get_collection |} ].

(** The body of the outer [try] statement of [start_simple_server]; the
    result [None] is Python's [None]: the function fell off its end.
    Each decorated definition ([@app.get(path)] over [async def]) is one
    call into FastAPI, which registers the route; the four come in the
    order of [routes]. *)
Definition start_simple_server_body (host : string) (port : Z)
    (data_dir : option string) : M (option bool) :=
    (py_import w "chromadb" ;;
     print ("🚀 ChromaDB v" +:+ chromadb_version w) ;;
     when (truthy data_dir)
       (let data_path := Path w (the data_dir) in
        Path_mkdir w true true data_path ;;
        print ("📁 Data directory: " +:+ path_str w data_path) ;;
        setenv "CHROMA_DB_IMPL" "duckdb+parquet" ;;
        setenv "CHROMA_PERSIST_DIRECTORY" (path_str w data_path)) ;;
     print ("🌐 Starting server on http://" +:+ host +:+ ":" +:+ pretty port) ;;
     try_except
       (py_import w "fastapi:FastAPI" ;;
        py_import w "fastapi.middleware.cors:CORSMiddleware" ;;
        py_import w "uvicorn" ;;
        ext w (FastAPI_new "ChromaDB Simple Server") ;;
        ext w app_add_middleware ;;
        (if truthy data_dir then ext w (chromadb_PersistentClient (the data_dir))
         else ext w (chromadb_Client false)) ;;
        ext w (app_route "GET" "/api/v1/heartbeat") ;;
        ext w (app_route "GET" "/api/v1/collections") ;;
        ext w (app_route "POST" "/api/v1/collections") ;;
        ext w (app_route "GET" "/api/v1/collections/{collection_name}") ;;
        py_import w "time" ;;
        print "✅ Simple FastAPI server configured" ;;
        ext w (uvicorn_run simple_app host port "info" None) ;;
        ret None)
       [ (is_ImportError, fun _ =>
            print "❌ FastAPI or uvicorn not available" ;;
            print "💡 Install with: pip install fastapi uvicorn" ;;
            ret (Some false)) ]).

Definition start_simple_server (host : string) (port : Z)
    (data_dir : option string) : M (option bool) :=
  try_except
    (start_simple_server_body host port data_dir)
    [ (is_ImportError, fun _ =>
         print "❌ ChromaDB not available" ;;
         print "💡 Install with: pip install chromadb" ;;
         ret (Some false));
      (is_Exception, fun e =>
         print ("❌ Server error: " +:+ str_exn e) ;;
         ret (Some false)) ].

Definition set_host (v : string) (ns : args) : string + args :=
  inr {| host := v; port := port ns; data_dir := data_dir ns |}.

Definition set_port (v : string) (ns : args) : string + args :=
  match py_int w v with
  | Some n => inr {| host := host ns; port := n; data_dir := data_dir ns |}
  | None => inl ("argument --port: invalid int value: " +:+ py_repr w v)
  end.

Definition set_data_dir (v : string) (ns : args) : string + args :=
  inr {| host := host ns; port := port ns; data_dir := Some v |}.

Definition arg_parser : parser args :=
  {| defaults := {| host := "0.0.0.0"; port := 8000; data_dir := None |};
     arguments := [ {| flag := "--host"; store := set_host |};
                    {| flag := "--port"; store := set_port |};
                    {| flag := "--data-dir"; store := set_data_dir |} ];
     repr := py_repr w |}.

Definition main (argv : list string) : M unit :=
  a <- parse_args arg_parser argv ;;
  try_except
    (start_simple_server (host a) (port a) (data_dir a) ;; ret tt)
    [ (is_KeyboardInterrupt, fun _ => print (nl +:+ "🛑 Server stopped")) ].

Definition script (argv : list string) (s : state) : status * state :=
  run_process (main argv) s.
End Script.
End SimpleServer.

(** * start-local-chromadb-server.py *)
Module LocalServer.
Section Script.
Variable w : World.

Definition install_chromadb : M bool :=
  try_except
    (py_import w "chromadb" ;;
     logger_info ("ChromaDB already installed: " +:+ chromadb_version w) ;;
     ret true)
    [ (is_ImportError, fun _ =>
         logger_info "ChromaDB not found, installing..." ;;
         try_except
           (pip_install w "chromadb" ;;
            logger_info "ChromaDB installed successfully" ;;
            ret true)
           [ (is_CalledProcessError, fun e =>
                logger_error ("Failed to install ChromaDB: " +:+ str_exn e) ;;
                ret false) ]) ].

Definition settings_kw (chroma_data_dir : string) : list (string * json) :=
  [ ("chroma_db_impl", JStr "duckdb+parquet");
    ("persist_directory", JStr chroma_data_dir);
    ("chroma_server_host", JStr "localhost");
    ("chroma_server_http_port", JInt 8000);
    ("anonymized_telemetry", JBool false) ].

(** Reading [chromadb.server.fastapi.app] is taken as part of the
    import before it: both failures end in the same handler. *)
Definition start_chromadb_server_body : M (option bool) :=
    (py_import w "chromadb" ;;
     py_import w "chromadb.config:Settings" ;;
     py_import w "uvicorn" ;;
     let forest_data_dir := expanduser w "~/.forest-data" in
     let chroma_data_dir := path_join forest_data_dir ".chromadb" in
     Path_mkdir w false true (Path w forest_data_dir) ;;
     Path_mkdir w false true (Path w chroma_data_dir) ;;
     logger_info ("ChromaDB data directory: " +:+ chroma_data_dir) ;;
     ext w (Settings_new (settings_kw chroma_data_dir)) ;;
     ext w (chromadb_Client true) ;;
     logger_info "ChromaDB client created with persistence" ;;
     logger_info "Starting ChromaDB server on http://localhost:8000" ;;
     logger_info "Press Ctrl+C to stop the server" ;;
     try_except
       (py_import w "chromadb.server.fastapi" ;;
        ext w (uvicorn_run chromadb_app "0.0.0.0" 8000 "info" None))
       [ (is_Exception, fun server_error =>
            logger_error ("Server startup failed: " +:+ str_exn server_error) ;;
            logger_info "Trying alternative server method..." ;;
            py_import w "chromadb.server.fastapi:app" ;;
            py_import w "uvicorn" ;;
            ext w (uvicorn_run (app_import_string "chromadb.server.fastapi:app")
                     "localhost" 8000 "info" (Some false))) ] ;;
     ret None).

(** The body of the outer [try] is [start_chromadb_server_body]; falling
    off the end returns [None]. *)
Definition start_chromadb_server : M (option bool) :=
  try_except
    start_chromadb_server_body
    [ (is_ImportError, fun e =>
         logger_error ("ChromaDB import failed: " +:+ str_exn e) ;;
         logger_error "Try installing ChromaDB with: pip install chromadb" ;;
         ret (Some false));
      (is_Exception, fun e =>
         logger_error ("Failed to start ChromaDB server: " +:+ str_exn e) ;;
         ret (Some false)) ].

Definition main : M unit :=
  logger_info "🚀 Starting ChromaDB server for Forest MCP" ;;
  ok <- install_chromadb ;;
  when (negb ok)
    (logger_error "❌ Failed to install ChromaDB" ;;
     sys_exit 1) ;;
  try_except
    (start_chromadb_server ;; ret tt)
    [ (is_KeyboardInterrupt, fun _ =>
         logger_info "🛑 ChromaDB server stopped by user");
      (is_Exception, fun e =>
         logger_error ("❌ ChromaDB server failed: " +:+ str_exn e) ;;
         sys_exit 1) ].

Definition script (s : state) : status * state := run_process main s.
End Script.
End LocalServer.

(** * test-chromadb-simple.py *)
Module Diagnostic.
Section Script.
Variable w : World.

(** [[attr for attr in dir(chromadb) if not attr.startswith('_')]] *)
Definition public_attrs : list string :=
  List.filter (fun attr => negb (startswith "_" attr)) (dir_chromadb w).

(** [return True] stands after the [try] statement and is reached
    exactly when its body completes, so it closes the body here. *)
Definition test_chromadb : M bool :=
  try_except
    (py_import w "chromadb" ;;
     logger_info ("✅ ChromaDB version: " +:+ chromadb_version w) ;;
     try_except
       (py_import w "chromadb.server.fastapi:app" ;;
        logger_info "✅ FastAPI server module available")
       [ (is_ImportError, fun e =>
            logger_error ("❌ FastAPI server not available: " +:+ str_exn e)) ] ;;
     try_except
       (py_import w "uvicorn" ;;
        logger_info "✅ Uvicorn available")
       [ (is_ImportError, fun e =>
            logger_error ("❌ Uvicorn not available: " +:+ str_exn e) ;;
            logger_info "💡 Install with: pip install uvicorn") ] ;;
     try_except
       (ext w (chromadb_Client false) ;;
        logger_info "✅ Basic ChromaDB client created" ;;
        collections <- ext_val w client_list_collections (listed w) ;;
        logger_info ("✅ Collections listed: " +:+ pretty (length collections)
                     +:+ " found"))
       [ (is_Exception, fun e =>
            logger_error ("❌ Client creation failed: " +:+ str_exn e)) ] ;;
     logger_info "📦 ChromaDB module contents:" ;;
     let attrs := public_attrs in
     for_each (firstn 10 attrs) (fun attr => logger_info ("   - " +:+ attr)) ;;
     when (10 <? length attrs)%nat
       (logger_info ("   ... and " +:+ pretty (length attrs - 10)%nat +:+ " more")) ;;
     ret true)
    [ (is_ImportError, fun e =>
         logger_error ("❌ ChromaDB not available: " +:+ str_exn e) ;;
         ret false) ].

Definition script (s : state) : status * state := run_process test_chromadb s.
End Script.
End Diagnostic.

(** * Concrete worlds *)

Definition push_part (cur : string) (acc : path) : path :=
  if String.eqb cur "" || String.eqb cur "." then acc else cur :: acc.

Fixpoint parts_from (s cur : string) (acc : path) : path :=
  match s with
  | EmptyString => push_part cur acc
  | String c r =>
      if Ascii.eqb c "/" then parts_from r "" (push_part cur acc)
      else parts_from r (cur +:+ String c EmptyString) acc
  end.

(** The parts of a relative POSIX path, innermost first. *)
Definition posix_parts (s : string) : path := parts_from s "" [].

Definition posix_str (p : path) : string :=
  match p with
  | [] => "."
  | _ => String.concat "/" (rev p)
  end.

Fixpoint digits_value (s : string) (acc : Z) : option Z :=
  match s with
  | EmptyString => Some acc
  | String c r =>
      if is_digit c then digits_value r (10 * acc + Z.of_nat (nat_of_ascii c - 48))
      else None
  end.

(** [int(s)] on plain decimal numerals. *)
Definition decimal_int (s : string) : option Z :=
  match s with
  | EmptyString => None
  | String "-" r => if String.eqb r "" then None else option_map Z.opp (digits_value r 0)
  | _ => digits_value s 0
  end.

(** A world that differs only in what imports and calls answer. *)
Definition world_with (imp : bool -> string -> option string)
    (rz : call -> option exn) (run_server : bool) : World :=
  {| importable := imp;
     raises := rz;
     chromadb_version := "0.4.22";
     has_run_server := run_server;
     dir_chromadb := ["Client"; "PersistentClient"; "__version__"; "config"];
     listed := [];
     created := fun _ _ => {| col_name := "docs"; col_id := "c0ffee" |};
     got := fun n => {| col_name := n; col_id := "c0ffee" |};
     time_ns := 1700000000000000000;
     Path := posix_parts;
     path_str := posix_str;
     expanduser := fun p => "/home/forest" +:+ String.substring 1 (String.length p - 1) p;
     sys_executable := "/usr/bin/python3";
     py_int := decimal_int;
     py_repr := fun v => "'" +:+ v +:+ "'" |}.

Definition all_importable : bool -> string -> option string := fun _ _ => None.

(** chromadb is not installed, and pip does not make it importable. *)
Definition no_chromadb : bool -> string -> option string :=
  fun _ m => if startswith "chromadb" m then Some "No module named 'chromadb'" else None.

Definition never_raises : call -> option exn := fun _ => None.

Definition serving (c : call) : bool :=
  match c with
  | chromadb_run_server _ _ _ | uvicorn_run _ _ _ _ _ => true
  | _ => false
  end.

(** Serving ends in the exception [e]; every other call returns. *)
Definition serving_raises (e : exn) : call -> option exn :=
  fun c => if serving c then Some e else None.

(** A fresh process: nothing observed yet, an empty environment, and a
    file system that holds the home directory. *)
Definition boot : state :=
  {| trace := []; environ := ∅;
     fs := <[ ["forest"; "home"] := Dir ]> (<[ ["home"] := Dir ]> ∅);
     pip_done := false |}.

(** ** The events of one run *)

(** What happened between [s] and [s'], oldest first. *)
Definition events_since (s s' : state) : list event :=
  rev (firstn (length (trace s') - length (trace s)) (trace s')).

Fixpoint calls_of (evs : list event) : list call :=
  match evs with
  | [] => []
  | Call c :: r => c :: calls_of r
  | _ :: r => calls_of r
  end.

(** What a run enters of the calls [plan] that it makes in this order,
    going on after each that returns: the calls up to the first that
    raises, that one included. *)
Fixpoint entered (w : World) (plan : list call) : list call :=
  match plan with
  | [] => []
  | c :: rest =>
      c :: match raises w c with
           | None => entered w rest
           | Some _ => []
           end
  end.

(** The serving calls among the events, in order. *)
Definition serving_calls (evs : list event) : list call :=
  List.filter serving (calls_of evs).

(** What [start-chromadb-server.py] is to serve with, once its start-up
    has come as far as the choice: the primary API if chromadb has it,
    else the FastAPI application under uvicorn if both can be imported. *)
Definition start_server_plan (w : World) (pd : bool) (a : StartServer.args)
  : list call :=
  if has_run_server w then
    [chromadb_run_server (StartServer.host a) (StartServer.port a)
       (if truthy (StartServer.data_dir a)
        then [("persist_directory",
               path_str w (Path w (the (StartServer.data_dir a))))]
        else [])]
  else
    match importable w pd "chromadb.server.fastapi:app", importable w pd "uvicorn" with
    | None, None =>
        [uvicorn_run chromadb_app (StartServer.host a) (StartServer.port a)
           (lower (StartServer.log_level a)) None]
    | _, _ => []
    end.

Definition local_primary : call := uvicorn_run chromadb_app "0.0.0.0" 8000 "info" None.

Definition local_fallback : call :=
  uvicorn_run (app_import_string "chromadb.server.fastapi:app") "localhost" 8000 "info"
    (Some false).

(** What [start-local-chromadb-server.py] is to serve with, once its
    set-up is done: the application under uvicorn and, only if that attempt
    ends in an [Exception], the same application by its import string,
    once. *)
Definition local_server_plan (w : World) (pd : bool) : list call :=
  let fallback :=
    match importable w pd "chromadb.server.fastapi:app", importable w pd "uvicorn" with
    | None, None => [local_fallback]
    | _, _ => []
    end in
  match importable w pd "chromadb.server.fastapi" with
  | Some _ => fallback
  | None =>
      local_primary ::
      match raises w local_primary with
      | Some e => if is_Exception e then fallback else []
      | None => []
      end
  end.

(** ** What the diagnostic script is to report

    The report of [test-chromadb-simple.py] once [import chromadb] has
    succeeded, written down part by part. *)

Definition fastapi_report (w : World) (pd : bool) : list event :=
  match importable w pd "chromadb.server.fastapi:app" with
  | None => [Log LInfo "✅ FastAPI server module available"]
  | Some m => [Log LError ("❌ FastAPI server not available: " +:+ m)]
  end.

Definition uvicorn_report (w : World) (pd : bool) : list event :=
  match importable w pd "uvicorn" with
  | None => [Log LInfo "✅ Uvicorn available"]
  | Some m => [Log LError ("❌ Uvicorn not available: " +:+ m);
               Log LInfo "💡 Install with: pip install uvicorn"]
  end.

(** The client probe: its events, and the exception that ends the script
    there if it is not an [Exception]. *)
Definition client_report (w : World) : list event * option exn :=
  let failed e := Log LError ("❌ Client creation failed: " +:+ str_exn e) in
  match raises w (chromadb_Client false) with
  | Some e =>
      if is_Exception e then ([Call (chromadb_Client false); failed e], None)
      else ([Call (chromadb_Client false)], Some e)
  | None =>
      let created := [Call (chromadb_Client false);
                      Log LInfo "✅ Basic ChromaDB client created";
                      Call client_list_collections] in
      match raises w client_list_collections with
      | Some e =>
          if is_Exception e then (created ++ [failed e], None) else (created, Some e)
      | None =>
          (created ++ [Log LInfo ("✅ Collections listed: "
                                  +:+ pretty (length (listed w)) +:+ " found")],
           None)
      end
  end.

(** The listing of the module: a heading, at most ten names, and a count
    of the rest if there is a rest. *)
Definition contents_report (w : World) : list event :=
  let attrs := Diagnostic.public_attrs w in
  Log LInfo "📦 ChromaDB module contents:"
  :: map (fun attr => Log LInfo ("   - " +:+ attr)) (firstn 10 attrs)
  ++ (if (10 <? length attrs)%nat
      then [Log LInfo ("   ... and " +:+ pretty (length attrs - 10)%nat +:+ " more")]
      else []).

Definition diagnostic_report (w : World) (pd : bool) : list event :=
  Log LInfo ("✅ ChromaDB version: " +:+ chromadb_version w)
  :: fastapi_report w pd ++ uvicorn_report w pd ++ fst (client_report w)
  ++ match snd (client_report w) with
     | Some _ => []
     | None => contents_report w
     end.

(** [s] after the events [evs] (oldest first), everything else untouched. *)
Definition emits (evs : list event) (s : state) : state :=
  {| trace := rev evs ++ trace s; environ := environ s; fs := fs s;
     pip_done := pip_done s |}.

(** ** What [mkdir(parents=True, exist_ok=True)] is to achieve *)

(** Every entry lies in a directory. *)
Definition fs_ok (files : gmap (list string) node) : Prop :=
  forall q n, q <> [] -> files !! q = Some n -> node_at files (parent q) = Some Dir.

(** Neither [p] nor a directory above it is a regular file. *)
Definition no_file_above (files : gmap (list string) node) (p : path) : Prop :=
  forall q, q `suffix_of` p -> node_at files q <> Some File.

(** The file system [files], with [p] and the missing directories above
    it added. *)
Definition with_dirs (files : gmap (list string) node) (p q : path) : option node :=
  match node_at files q with
  | Some n => Some n
  | None => if bool_decide (q `suffix_of` p) then Some Dir else None
  end.

(** [p] and every directory above it exist in [after]; nothing else
    differs from [before], and nothing that existed has changed. *)
Definition made_dirs (before after : gmap (list string) node) (p : path) : Prop :=
  (forall q, q `suffix_of` p -> node_at after q = Some Dir)
  /\ (forall q, ~ q `suffix_of` p -> node_at after q = node_at before q)
  /\ (forall q n, node_at before q = Some n -> node_at after q = Some n).

(** What a handler does with the outcome of the one client call [c] it
    forwards to: the projection of the result, or the very exception. *)
Definition forwarded (w : World) (c : call) (result : json) (s : state)
  : res json * state :=
  (match raises w c with
   | None => Ret result
   | Some e => Raise e
   end, emit (Call c) s).

(** chromadb is there, its FastAPI server module and uvicorn are not. *)
Definition only_chromadb : bool -> string -> option string :=
  fun _ m =>
    if String.eqb m "chromadb" then None
    else Some ("No module named '" +:+ m +:+ "'").

(** * Facts about the model *)

(** ** argparse *)

Section ArgparseFacts.
Context {C : Type}.
Variable P : C -> Prop.
Variable p : parser C.
Hypothesis store_keeps :
  forall a v ns ns', In a (arguments p) -> P ns -> store a v ns = inr ns' -> P ns'.

Lemma store_value_keeps o v ns ns' :
  P ns -> store_value p o v ns = inr ns' -> P ns'.
Proof.
  unfold store_value, find_argument. intros HP.
  destruct (List.find _ _) as [a|] eqn:Hf; [|discriminate].
  apply List.find_some in Hf as [Hin _]. eauto.
Qed.

(** Consuming tokens keeps whatever every [store] keeps; the induction is
    on a bound of the number of tokens, since an option takes two. *)
Lemma help_explicit_not_parsed o v r : help_explicit p o v <> Parsed r.
Proof.
  unfold help_explicit.
  destruct (String.eqb o "-h" && negb (String.eqb v "")); [|discriminate].
  destruct (after_h v); discriminate.
Qed.

Lemma consume_keeps n :
  forall toks ns empties extras r,
    (length toks <= n)%nat -> P ns ->
    consume p toks ns empties extras = Parsed r -> P r.
Proof.
  induction n as [|n IH]; intros toks ns empties extras r Hlen HP Hc.
  - destruct toks; [|simpl in Hlen; lia].
    simpl in Hc. destruct extras; [|discriminate].
    destruct empties; congruence.
  - destruct toks as [|[t c] rest].
    + simpl in Hc. destruct extras; [|discriminate].
      destruct empties; congruence.
    + simpl in Hlen. simpl in Hc. destruct c as [| | o [v|] | | ms].
      * eapply IH; [|exact HP|exact Hc]. lia.
      * eapply IH; [|exact HP|exact Hc]. lia.
      * destruct (is_help o); [exfalso; exact (help_explicit_not_parsed _ _ _ Hc)|].
        destruct (String.eqb v "--").
        -- eapply IH; [|exact HP|exact Hc]. lia.
        -- destruct (store_value p o v ns) as [|ns'] eqn:Hs; [discriminate|].
           eapply IH; [| |exact Hc]; [lia|]. eapply store_value_keeps; eauto.
      * destruct (is_help o); [discriminate|].
        destruct rest as [|[v c'] rest']; [discriminate|].
        destruct c'; try discriminate.
        destruct (store_value p o v ns) as [|ns'] eqn:Hs; [discriminate|].
        eapply IH; [| |exact Hc]; [simpl in Hlen; lia|].
        eapply store_value_keeps; eauto.
      * eapply IH; [|exact HP|exact Hc]. lia.
      * discriminate.
Qed.

Lemma parse_keeps argv r : P (defaults p) -> parse p argv = Parsed r -> P r.
Proof.
  unfold parse. intros HP. destruct (has_ambiguous _) as [[t ms]|]; [discriminate|].
  intros Hc. eapply consume_keeps; eauto.
Qed.
End ArgparseFacts.

Lemma log_level_choice_cases l :
  str_in l StartServer.log_level_choices = true ->
  l = "DEBUG" \/ l = "INFO" \/ l = "WARNING" \/ l = "ERROR".
Proof.
  unfold str_in, StartServer.log_level_choices. simpl.
  rewrite !orb_true_iff, !String.eqb_eq. intuition (subst; auto); discriminate.
Qed.

Lemma parsed_log_level w argv a :
  parse (StartServer.arg_parser w) argv = Parsed a ->
  str_in (StartServer.log_level a) StartServer.log_level_choices = true.
Proof.
  apply (parse_keeps (fun ns => str_in (StartServer.log_level ns)
                                  StartServer.log_level_choices = true)).
  - intros x v ns ns' Hin HP Hs. simpl in Hin.
    destruct Hin as [ <- | [ <- | [ <- | [ <- | [] ] ] ] ]; simpl in Hs.
    + unfold StartServer.set_host in Hs. injection Hs as <-. exact HP.
    + unfold StartServer.set_port in Hs. destruct (py_int w v); [|discriminate].
      injection Hs as <-. exact HP.
    + unfold StartServer.set_data_dir in Hs. injection Hs as <-. exact HP.
    + unfold StartServer.set_log_level in Hs.
      destruct (str_in v _) eqn:Hv; [|discriminate]. injection Hs as <-. exact Hv.
  - reflexivity.
Qed.

(** Values that do not start with a dash are arguments. *)
Lemma not_dashed_not_separator (v : string) :
  startswith "-" v = false -> String.eqb v "--" = false.
Proof.
  destruct v as [|c v]; [reflexivity|].
  destruct (Ascii.eqb_spec c "-") as [->|Hne].
  - intros H. unfold startswith in H. cbn in H. destruct v; discriminate H.
  - intros _. cbn. apply Ascii.eqb_neq in Hne. rewrite Hne. reflexivity.
Qed.

Lemma not_dashed_positional (opts : list string) (v : string) :
  startswith "-" v = false -> classify opts v = TPositional.
Proof. intros Hv. unfold classify. rewrite Hv. reflexivity. Qed.

(** One option with its value on the command line. *)
Lemma parse_one_option {C : Type} (p : parser C) (o v : string) :
  str_in o (option_strings p) = true ->
  is_help o = false ->
  startswith "-" o = true ->
  String.eqb o "--" = false ->
  startswith "-" v = false ->
  parse p [o; v]
  = match store_value p o v (defaults p) with
    | inl msg => UsageError msg
    | inr ns => Parsed ns
    end.
Proof.
  intros Hin Hhelp Hdash Hsep Hv.
  unfold parse. cbn [classify_all]. rewrite Hsep.
  rewrite (not_dashed_not_separator v Hv). cbn [classify_all].
  rewrite (not_dashed_positional _ v Hv).
  assert (Hc : classify (option_strings p) o = TOption o None).
  { unfold classify. rewrite Hdash. cbn [negb]. rewrite Hin. reflexivity. }
  rewrite Hc. cbn [has_ambiguous List.find snd consume]. rewrite Hhelp.
  destruct (store_value p o v (defaults p)); reflexivity.
Qed.

(** An option and its value at the front of the command line. *)
Lemma classify_all_option_value (opts : list string) (o v : string)
    (rest : list string) :
  String.eqb o "--" = false ->
  startswith "-" v = false ->
  classify_all opts (o :: v :: rest)
  = (o, classify opts o) :: (v, TPositional) :: classify_all opts rest.
Proof.
  intros Ho Hv. cbn [classify_all]. rewrite Ho, (not_dashed_not_separator v Hv).
  rewrite (not_dashed_positional _ v Hv). reflexivity.
Qed.

Lemma consume_option_value {C : Type} (p : parser C) (o v : string)
    (toks : list (string * tok_class)) (ns : C) (empties extras : list string) :
  is_help o = false ->
  consume p ((o, TOption o None) :: (v, TPositional) :: toks) ns empties extras
  = match store_value p o v ns with
    | inl msg => UsageError msg
    | inr ns' => consume p toks ns' (without o empties) extras
    end.
Proof. intros Hhelp. cbn [consume]. rewrite Hhelp. reflexivity. Qed.

(** From [main], [logging.basicConfig] always finds its level. *)
Lemma basicConfig_returns w argv a s :
  parse (StartServer.arg_parser w) argv = Parsed a ->
  StartServer.logging_basicConfig (StartServer.log_level a) s = (Ret tt, s).
Proof.
  intros H. apply parsed_log_level, log_level_choice_cases in H.
  unfold StartServer.logging_basicConfig.
  destruct H as [ -> | [ -> | [ -> | -> ] ] ]; reflexivity.
Qed.

(** ** Running a script symbolically *)

(** Unfolds the monad and the primitives, and nothing of the strings. *)
Ltac py_unfold :=
  cbv beta iota zeta delta
    [bind ret raise try_except select_handler when print logger_info logger_error
     setenv sys_exit py_import ext ext_val pip_install Path_mkdir emit emits
     run_process is_ImportError is_Exception is_KeyboardInterrupt
     is_CalledProcessError parse_args negb];
  cbn [trace environ fs pip_done fst snd].

(** Branches on what the run waits for next: an answer of the world, a
    flag, the class of an exception.  A hypothesis that gives the answer is
    used instead. *)
Ltac py_case :=
  match goal with
  | H : ?x = _ |- context [match ?x with _ => _ end] => rewrite H
  | |- context [match ?x with _ => _ end] =>
      lazymatch x with
      | context [match _ with _ => _ end] => fail
      | _ => destruct x eqn:?
      end
  end.

Ltac py_run := repeat (py_unfold; try py_case).

(** The events of a finished run: its trace is the old one with the new
    events consed on. *)
Lemma events_since_app s evs env files pd :
  events_since s {| trace := rev evs ++ trace s; environ := env; fs := files;
                    pip_done := pd |} = evs.
Proof.
  unfold events_since. cbn [trace].
  rewrite length_app, Nat.add_sub, take_app_length. apply rev_involutive.
Qed.

Lemma events_since_refl s : events_since s s = [].
Proof. unfold events_since. rewrite Nat.sub_diag. reflexivity. Qed.

Ltac new_events t base :=
  lazymatch t with
  | base => constr:(@nil event)
  | (?e :: ?r)%list => let l := new_events r base in constr:((l ++ [e])%list)
  end.

(** Rewrites [events_since s s'] for a computed [s'] into the plain list
    of the events, in the goal and in the hypothesis [H]. *)
Ltac run_events :=
  rewrite ?events_since_refl;
  repeat match goal with
    | |- context [events_since ?s {| trace := ?t; environ := ?e; fs := ?f;
                                     pip_done := ?p |}] =>
        let l := new_events t (trace s) in
        let l' := eval cbn [app] in l in
        change (events_since s {| trace := t; environ := e; fs := f; pip_done := p |})
          with (events_since s {| trace := (rev l' ++ trace s)%list; environ := e; fs := f;
                                  pip_done := p |});
        rewrite events_since_app
    end.

Ltac run_events_in H :=
  rewrite ?events_since_refl in H;
  repeat match type of H with
    | context [events_since ?s {| trace := ?t; environ := ?e; fs := ?f;
                                  pip_done := ?p |}] =>
        let l := new_events t (trace s) in
        let l' := eval cbn [app] in l in
        change (events_since s {| trace := t; environ := e; fs := f; pip_done := p |})
          with (events_since s {| trace := (rev l' ++ trace s)%list; environ := e; fs := f;
                                  pip_done := p |}) in H;
        rewrite events_since_app in H
    end.

(** ** pathlib's mkdir *)

Lemma node_at_insert (files : gmap (list string) node) (p q : path) :
  p <> [] ->
  node_at (<[p := Dir]> files) q = if decide (p = q) then Some Dir else node_at files q.
Proof.
  intros Hp. destruct q as [|c q].
  - simpl. case_decide; [contradiction|reflexivity].
  - simpl. rewrite lookup_insert. repeat case_decide; congruence.
Qed.

(** In a tree, whatever exists has all its ancestors. *)
Lemma fs_ok_above (files : gmap (list string) node) (p : path) :
  fs_ok files -> node_at files p <> None ->
  forall q, q `suffix_of` p -> node_at files q <> None.
Proof.
  intros Hok. induction p as [|c up IH]; intros Hp q Hq.
  - apply suffix_nil_inv in Hq as ->. discriminate.
  - destruct (decide (q = c :: up)) as [->|Hne]; [exact Hp|].
    assert (Hup : q `suffix_of` up).
    { destruct Hq as [k Hk]. destruct k as [|x k]; simpl in Hk.
      - congruence.
      - injection Hk as _ ->. apply suffix_app_r. reflexivity. }
    apply IH; [|exact Hup].
    simpl in Hp. destruct (files !! (c :: up)) as [n|] eqn:Hn; [|contradiction].
    pose proof (Hok (c :: up) n ltac:(discriminate) Hn) as Hpar.
    cbn [parent tail] in Hpar. rewrite Hpar. discriminate.
Qed.

Lemma suffix_of_cons (q : path) (c : string) (up : path) :
  q `suffix_of` (c :: up) <-> q = c :: up \/ q `suffix_of` up.
Proof.
  split.
  - intros [k Hk]. destruct k as [|x k]; simpl in Hk.
    + left. congruence.
    + right. injection Hk as _ ->. apply suffix_app_r. reflexivity.
  - intros [->|H]; [reflexivity|]. apply suffix_cons_r. exact H.
Qed.

(** [mkdir(parents=True, exist_ok=True)] on a tree in which no regular
    file is in the way: it returns, the result is a tree again, and it is
    the old one with [p] and the missing directories above it added. *)
Lemma mkdir_parents_spec (p : path) :
  forall files,
    fs_ok files -> no_file_above files p ->
    exists files',
      mkdir_parents true p files = inr files'
      /\ fs_ok files'
      /\ forall q, node_at files' q = with_dirs files p q.
Proof.
  induction p as [|c up IH]; intros files Hok Hnf.
  - exists files. split; [reflexivity|]. split; [exact Hok|].
    intros q. unfold with_dirs. destruct (node_at files q) eqn:Hq; [reflexivity|].
    case_bool_decide as Hs; [|reflexivity].
    apply suffix_nil_inv in Hs as ->. discriminate.
  - cbn [mkdir_parents]. unfold os_mkdir. cbn [parent tail].
    destruct (node_at files (c :: up)) as [[|]|] eqn:Hp.
    + (* already a directory *)
      cbn. unfold is_dir. rewrite Hp. cbn.
      exists files. split; [reflexivity|]. split; [exact Hok|].
      intros q. unfold with_dirs. destruct (node_at files q) eqn:Hq; [reflexivity|].
      case_bool_decide as Hs; [|reflexivity].
      exfalso. eapply (fs_ok_above files (c :: up)); eauto. congruence.
    + (* a regular file *)
      exfalso. apply (Hnf (c :: up)); [reflexivity|exact Hp].
    + destruct (node_at files up) as [[|]|] eqn:Hup.
      * (* the parent is there *)
        exists (<[c :: up := Dir]> files). split; [reflexivity|]. split.
        { intros q n Hq Hl. rewrite node_at_insert by discriminate.
          case_decide; [reflexivity|].
          rewrite lookup_insert in Hl. case_decide as Hne; [subst q; exact Hup|].
          apply (Hok q n Hq Hl). }
        { intros q. rewrite node_at_insert by discriminate. unfold with_dirs.
          case_decide as Hne.
          - subst q. rewrite Hp. rewrite bool_decide_eq_true_2; reflexivity.
          - destruct (node_at files q) eqn:Hq; [reflexivity|].
            case_bool_decide as Hs; [|reflexivity].
            apply suffix_of_cons in Hs as [->|Hs]; [contradiction|].
            exfalso. eapply (fs_ok_above files up); eauto. congruence. }
      * exfalso. apply (Hnf up); [apply suffix_cons_r; reflexivity|exact Hup].
      * (* the parent is missing: create it first *)
        cbn.
        destruct (IH files Hok) as (files1 & Hrec & Hok1 & Hview).
        { intros q Hq. apply Hnf. apply suffix_cons_r. exact Hq. }
        rewrite Hrec. unfold mkdir_once, os_mkdir. cbn [parent tail].
        assert (Hp1 : node_at files1 (c :: up) = None).
        { rewrite Hview. unfold with_dirs. rewrite Hp.
          rewrite bool_decide_eq_false_2; [reflexivity|]. apply suffix_cons_not. }
        assert (Hup1 : node_at files1 up = Some Dir).
        { rewrite Hview. unfold with_dirs. rewrite Hup.
          rewrite bool_decide_eq_true_2; reflexivity. }
        rewrite Hp1, Hup1.
        exists (<[c :: up := Dir]> files1). split; [reflexivity|]. split.
        { intros q n Hq Hl. rewrite node_at_insert by discriminate.
          case_decide; [reflexivity|].
          rewrite lookup_insert in Hl. case_decide as Hne; [subst q; exact Hup1|].
          apply (Hok1 q n Hq Hl). }
        { intros q. rewrite node_at_insert by discriminate.
          case_decide as Hne.
          - subst q. unfold with_dirs. rewrite Hp.
            rewrite bool_decide_eq_true_2; reflexivity.
          - rewrite Hview. unfold with_dirs.
            destruct (node_at files q) eqn:Hq; [reflexivity|].
            rewrite (bool_decide_ext (q `suffix_of` up) (q `suffix_of` c :: up));
              [reflexivity|].
            rewrite suffix_of_cons. intuition congruence. }
Qed.

(** An existing directory is left alone. *)
Lemma mkdir_parents_exists (p : path) (files : gmap (list string) node) :
  is_dir files p = true -> mkdir_parents true p files = inr files.
Proof.
  destruct p as [|c up]; [reflexivity|].
  unfold is_dir. intros Hd.
  destruct (node_at files (c :: up)) as [[|]|] eqn:Hp; try discriminate.
  cbn [mkdir_parents]. unfold os_mkdir. rewrite Hp. cbn.
  unfold is_dir. rewrite Hp. reflexivity.
Qed.

(** [mkdir(exist_ok=True)] where only the last part is missing. *)
Lemma mkdir_once_new (p : path) (files : gmap (list string) node) :
  node_at files p = None -> node_at files (parent p) = Some Dir ->
  mkdir_once true p files = inr (<[p := Dir]> files).
Proof.
  intros Hp Hup. unfold mkdir_once, os_mkdir. rewrite Hp, Hup. reflexivity.
Qed.

(** ** The diagnostic script *)

(** A loop that only logs. *)
Lemma for_each_log (f : string -> string) (l : list string) :
  forall s,
    for_each l (fun a s0 =>
                  (Ret tt, {| trace := Log LInfo (f a) :: trace s0;
                              environ := environ s0; fs := fs s0;
                              pip_done := pip_done s0 |})) s
    = (Ret tt, {| trace := rev (map (fun a => Log LInfo (f a)) l) ++ trace s;
                  environ := environ s; fs := fs s; pip_done := pip_done s |}).
Proof.
  induction l as [|a l IH]; intros s.
  - destruct s; reflexivity.
  - cbn [for_each]. unfold bind at 1. rewrite IH. cbn [trace environ fs pip_done].
    cbn [map rev]. rewrite <- app_assoc. reflexivity.
Qed.

Ltac same_report :=
  unfold emits; f_equal; f_equal;
  cbn [app rev fst snd]; rewrite ?rev_app_distr; cbn [app rev];
  rewrite <- ?app_assoc; cbn [app]; reflexivity.

(** With chromadb importable, [test_chromadb] writes exactly
    [diagnostic_report] and returns [True], unless the client probe ends in
    something that is not an [Exception]. *)
Lemma test_chromadb_report (w : World) (s : state) :
  importable w (pip_done s) "chromadb" = None ->
  Diagnostic.test_chromadb w s
  = (match snd (client_report w) with
     | Some e => Raise e
     | None => Ret true
     end, emits (diagnostic_report w (pip_done s)) s).
Proof.
  intros Hchroma.
  unfold Diagnostic.test_chromadb, diagnostic_report, fastapi_report, uvicorn_report,
    client_report, contents_report.
  repeat (py_unfold;
          rewrite ?(for_each_log (fun attr => "   - " +:+ attr));
          try py_case).
  all: same_report.
Qed.

Lemma events_since_emits s evs : events_since s (emits evs s) = evs.
Proof. unfold emits. apply events_since_app. Qed.

(** The events of a run of [test_chromadb] that found chromadb. *)
Lemma test_chromadb_events (w : World) (s : state) :
  importable w (pip_done s) "chromadb" = None ->
  events_since s (snd (Diagnostic.test_chromadb w s))
  = diagnostic_report w (pip_done s).
Proof.
  intros H. rewrite (test_chromadb_report w s H). cbn [snd].
  apply events_since_emits.
Qed.


Lemma with_dirs_made (before after : gmap (list string) node) (p : path) :
  no_file_above before p ->
  (forall q, node_at after q = with_dirs before p q) ->
  made_dirs before after p.
Proof.
  intros Hnf Hview. repeat split.
  - intros q Hq. rewrite Hview. unfold with_dirs.
    destruct (node_at before q) as [[|]|] eqn:Hn.
    + reflexivity.
    + exfalso. exact (Hnf q Hq Hn).
    + rewrite bool_decide_eq_true_2; [reflexivity|exact Hq].
  - intros q Hq. rewrite Hview. unfold with_dirs.
    destruct (node_at before q); [reflexivity|].
    rewrite bool_decide_eq_false_2; [reflexivity|exact Hq].
  - intros q n Hn. rewrite Hview. unfold with_dirs. rewrite Hn. reflexivity.
Qed.

(** Once [mkdir] has returned, nothing the scripts do later touches the
    file system, and the directory is announced. *)
Lemma start_server_mkdir w argv a s X files' :
  parse (StartServer.arg_parser w) argv = Parsed a ->
  StartServer.data_dir a = Some X ->
  truthy (Some X) = true ->
  importable w (pip_done s) "chromadb" = None ->
  importable w (pip_done s) "chromadb.config:Settings" = None ->
  path_mkdir true true (Path w X) (fs s) = inr files' ->
  fs (snd (StartServer.script w argv s)) = files'
  /\ In (Print ("✅ Data directory created: " +:+ path_str w (Path w X)))
       (events_since s (snd (StartServer.script w argv s))).
Proof.
  intros Hargs Hdir HX Hchroma Hsettings Hmk.
  cut (let '(st, s') := StartServer.script w argv s in
       fs s' = files'
       /\ In (Print ("✅ Data directory created: " +:+ path_str w (Path w X)))
            (events_since s s')).
  { destruct (StartServer.script w argv s); auto. }
  unfold StartServer.script, StartServer.main. py_unfold. rewrite Hargs. py_unfold.
  unfold StartServer.start_chromadb_server, bind.
  rewrite (basicConfig_returns w argv a _ Hargs).
  unfold StartServer.start_chromadb_server_body. rewrite Hdir.
  change (the (Some X)) with X.
  py_run; (split; [reflexivity | run_events; cbn [In]; tauto]).
Qed.

Lemma simple_server_mkdir w argv a s X files' :
  parse (SimpleServer.arg_parser w) argv = Parsed a ->
  SimpleServer.data_dir a = Some X ->
  truthy (Some X) = true ->
  importable w (pip_done s) "chromadb" = None ->
  path_mkdir true true (Path w X) (fs s) = inr files' ->
  fs (snd (SimpleServer.script w argv s)) = files'
  /\ In (Print ("📁 Data directory: " +:+ path_str w (Path w X)))
       (events_since s (snd (SimpleServer.script w argv s))).
Proof.
  intros Hargs Hdir HX Hchroma Hmk.
  cut (let '(st, s') := SimpleServer.script w argv s in
       fs s' = files'
       /\ In (Print ("📁 Data directory: " +:+ path_str w (Path w X)))
            (events_since s s')).
  { destruct (SimpleServer.script w argv s); auto. }
  unfold SimpleServer.script, SimpleServer.main. py_unfold. rewrite Hargs. py_unfold.
  unfold SimpleServer.start_simple_server, SimpleServer.start_simple_server_body.
  rewrite Hdir. change (the (Some X)) with X.
  py_run; (split; [reflexivity | run_events; cbn [In]; tauto]).
Qed.

(** * The claims *)

(** ** A missing dependency *)

(** C1, as the spec has it, fails on [chromadb-simple-server.py]: with
    chromadb missing the script prints its guidance, [start_simple_server]
    returns [False], and the process ends with status 0, not 1. *)
Lemma C1_counterexample :
  importable (world_with no_chromadb never_raises true) (pip_done boot) "chromadb"
    = Some "No module named 'chromadb'"
  /\ SimpleServer.script (world_with no_chromadb never_raises true) [] boot
     = (Exited 0,
        emits [Print "❌ ChromaDB not available";
               Print "💡 Install with: pip install chromadb"] boot)
  /\ Exited 0 <> Exited 1.
Proof. split; [reflexivity|]. split; [reflexivity|]. discriminate. Qed.

(** C1 (amended). When [import chromadb] raises [ImportError], every
    bootstrap script reports it with a line that names the package
    [chromadb].  [start-chromadb-server.py] then exits with status 1.  In
    [chromadb-simple-server.py], [start_simple_server] returns [False] and
    the process ends with status 0.  In [start-local-chromadb-server.py],
    [start_chromadb_server] returns [False]; when the import already fails
    in [install_chromadb] and pip fails with [CalledProcessError], the
    process exits with status 1. *)
Theorem C1_missing_chromadb (w : World) (s : state) (msg : string)
    (Hmissing : importable w (pip_done s) "chromadb" = Some msg) :
  (forall argv a,
      parse (StartServer.arg_parser w) argv = Parsed a ->
      StartServer.script w argv s =
        (Exited 1,
         emits [Print "🔧 ChromaDB Server for Forest Integration";
                Print (str_repeat "=" 50);
                Print ("❌ ChromaDB not available: " +:+ msg);
                Print "💡 Install with: pip install chromadb"] s))
  /\ (forall argv a,
        parse (SimpleServer.arg_parser w) argv = Parsed a ->
        SimpleServer.start_simple_server w (SimpleServer.host a) (SimpleServer.port a)
          (SimpleServer.data_dir a) s =
          (Ret (Some false),
           emits [Print "❌ ChromaDB not available";
                  Print "💡 Install with: pip install chromadb"] s)
        /\ SimpleServer.script w argv s =
             (Exited 0,
              emits [Print "❌ ChromaDB not available";
                     Print "💡 Install with: pip install chromadb"] s))
  /\ LocalServer.start_chromadb_server w s =
       (Ret (Some false),
        emits [Log LError ("ChromaDB import failed: " +:+ msg);
               Log LError "Try installing ChromaDB with: pip install chromadb"] s)
  /\ (forall m,
        raises w (subprocess_check_call
                    [sys_executable w; "-m"; "pip"; "install"; "chromadb"])
          = Some (CalledProcessError m) ->
        LocalServer.script w s =
          (Exited 1,
           emits [Log LInfo "🚀 Starting ChromaDB server for Forest MCP";
                  Log LInfo "ChromaDB not found, installing...";
                  Call (subprocess_check_call
                          [sys_executable w; "-m"; "pip"; "install"; "chromadb"]);
                  Log LError ("Failed to install ChromaDB: " +:+ m);
                  Log LError "❌ Failed to install ChromaDB"] s))
  /\ contains "chromadb" "💡 Install with: pip install chromadb" = true
  /\ contains "chromadb" "Try installing ChromaDB with: pip install chromadb" = true.
Proof.
  split; [|split; [|split; [|split; [|split]]]].
  - intros argv a Hargs.
    unfold StartServer.script, StartServer.main, StartServer.start_chromadb_server,
      StartServer.start_chromadb_server_body.
    py_unfold. rewrite Hargs. py_unfold.
    rewrite (basicConfig_returns w argv a _ Hargs).
    py_unfold. rewrite Hmissing. reflexivity.
  - intros argv a Hargs. split.
    + unfold SimpleServer.start_simple_server, SimpleServer.start_simple_server_body.
      py_unfold. rewrite Hmissing. reflexivity.
    + unfold SimpleServer.script, SimpleServer.main, SimpleServer.start_simple_server,
        SimpleServer.start_simple_server_body.
      py_unfold. rewrite Hargs. py_unfold. rewrite Hmissing. reflexivity.
  - unfold LocalServer.start_chromadb_server, LocalServer.start_chromadb_server_body.
    py_unfold. rewrite Hmissing. reflexivity.
  - intros m Hpip.
    unfold LocalServer.script, LocalServer.main, LocalServer.install_chromadb.
    py_unfold. rewrite Hmissing. py_unfold. rewrite Hpip. reflexivity.
  - reflexivity.
  - reflexivity.
Qed.

Lemma C1_witness :
  fst (StartServer.script (world_with no_chromadb never_raises true) [] boot)
    = Exited 1
  /\ fst (LocalServer.start_chromadb_server (world_with no_chromadb never_raises true)
            boot) = Ret (Some false).
Proof.
  destruct (C1_missing_chromadb (world_with no_chromadb never_raises true) boot
              "No module named 'chromadb'" eq_refl) as (H1 & _ & H3 & _).
  split.
  - exact (f_equal fst
             (H1 [] {| StartServer.host := "0.0.0.0"; StartServer.port := 8000;
                       StartServer.data_dir := None;
                       StartServer.log_level := "INFO" |} eq_refl)).
  - exact (f_equal fst H3).
Defined.

(** ** Keyboard interrupts *)

(** Settles one path of a run in which the serving call [c] must have
    been entered: either the path never enters it, or what the world
    answered on the path contradicts the interrupt. *)
Ltac entered_call Hin :=
  run_events_in Hin; cbn [In] in Hin;
  repeat match type of Hin with
         | _ \/ _ => destruct Hin as [Hin|Hin]
         end;
  first [ discriminate Hin
        | exfalso; exact Hin
        | injection Hin as Hin; subst;
          try match goal with
              | H : serving _ = true |- _ => discriminate H
              end;
          try match goal with
              | H1 : raises ?w ?x = Some KeyboardInterrupt,
                H2 : raises ?w ?x = _ |- _ =>
                  rewrite H1 in H2; discriminate H2
              end ].

(** C2. In every script that serves, a [KeyboardInterrupt] raised by the
    serving call ([chromadb.run_server] or [uvicorn.run]) is caught in
    [main]: the stop message is the last thing the process writes, and its
    exit status is 0. *)
Theorem C2_keyboard_interrupt (w : World) (s : state) (c : call)
    (Hserving : serving c = true)
    (Hinterrupt : raises w c = Some KeyboardInterrupt) :
  (forall argv,
      In (Call c) (events_since s (snd (StartServer.script w argv s))) ->
      fst (StartServer.script w argv s) = Exited 0
      /\ last (events_since s (snd (StartServer.script w argv s)))
         = Some (Print (nl +:+ "🛑 Server stopped by user")))
  /\ (forall argv,
      In (Call c) (events_since s (snd (SimpleServer.script w argv s))) ->
      fst (SimpleServer.script w argv s) = Exited 0
      /\ last (events_since s (snd (SimpleServer.script w argv s)))
         = Some (Print (nl +:+ "🛑 Server stopped")))
  /\ (In (Call c) (events_since s (snd (LocalServer.script w s))) ->
      fst (LocalServer.script w s) = Exited 0
      /\ last (events_since s (snd (LocalServer.script w s)))
         = Some (Log LInfo "🛑 ChromaDB server stopped by user")).
Proof.
  split; [|split].
  - intros argv.
    cut (let '(st, s') := StartServer.script w argv s in
         In (Call c) (events_since s s') ->
         st = Exited 0 /\
         last (events_since s s') = Some (Print (nl +:+ "🛑 Server stopped by user"))).
    { destruct (StartServer.script w argv s); auto. }
    unfold StartServer.script, StartServer.main, StartServer.start_chromadb_server,
      StartServer.start_chromadb_server_body, StartServer.logging_basicConfig.
    py_run; intros Hin; entered_call Hin;
      (split; [reflexivity | run_events; reflexivity]).
  - intros argv.
    cut (let '(st, s') := SimpleServer.script w argv s in
         In (Call c) (events_since s s') ->
         st = Exited 0 /\
         last (events_since s s') = Some (Print (nl +:+ "🛑 Server stopped"))).
    { destruct (SimpleServer.script w argv s); auto. }
    unfold SimpleServer.script, SimpleServer.main, SimpleServer.start_simple_server,
      SimpleServer.start_simple_server_body.
    py_run; intros Hin; entered_call Hin;
      (split; [reflexivity | run_events; reflexivity]).
  - cut (let '(st, s') := LocalServer.script w s in
         In (Call c) (events_since s s') ->
         st = Exited 0 /\
         last (events_since s s')
         = Some (Log LInfo "🛑 ChromaDB server stopped by user")).
    { destruct (LocalServer.script w s); auto. }
    unfold LocalServer.script, LocalServer.main, LocalServer.install_chromadb,
      LocalServer.start_chromadb_server, LocalServer.start_chromadb_server_body.
    py_run; intros Hin; entered_call Hin;
      (split; [reflexivity | run_events; reflexivity]).
Qed.

Lemma C2_witness :
  fst (StartServer.script (world_with all_importable (serving_raises KeyboardInterrupt)
                             true) [] boot) = Exited 0
  /\ fst (SimpleServer.script (world_with all_importable
                                 (serving_raises KeyboardInterrupt) true) [] boot)
     = Exited 0
  /\ fst (LocalServer.script (world_with all_importable
                                (serving_raises KeyboardInterrupt) true) boot)
     = Exited 0.
Proof.
  split; [|split].
  - apply (proj1 (C2_keyboard_interrupt
                    (world_with all_importable (serving_raises KeyboardInterrupt) true)
                    boot (chromadb_run_server "0.0.0.0" 8000 [])
                    eq_refl eq_refl) []).
    vm_compute. repeat first [left; reflexivity | right].
  - apply (proj1 (proj2 (C2_keyboard_interrupt
                    (world_with all_importable (serving_raises KeyboardInterrupt) true)
                    boot (uvicorn_run simple_app "0.0.0.0" 8000 "info" None)
                    eq_refl eq_refl)) []).
    vm_compute. repeat first [left; reflexivity | right].
  - apply (proj2 (proj2 (C2_keyboard_interrupt
                    (world_with all_importable (serving_raises KeyboardInterrupt) true)
                    boot (uvicorn_run chromadb_app "0.0.0.0" 8000 "info" None)
                    eq_refl eq_refl))).
    vm_compute. repeat first [left; reflexivity | right].
Defined.

(** ** Other startup failures *)

(** C3, as the spec has it, fails on [chromadb-simple-server.py]: when
    [uvicorn.run] raises an ordinary exception, the script prints it,
    [start_simple_server] returns [False], and the process ends with
    status 0. *)
Lemma C3_counterexample :
  raises (world_with all_importable (serving_raises (Error "address already in use"))
            true)
    (uvicorn_run simple_app "0.0.0.0" 8000 "info" None)
    = Some (Error "address already in use")
  /\ SimpleServer.script
       (world_with all_importable (serving_raises (Error "address already in use"))
          true) [] boot
     = (Exited 0,
        emits [Print "🚀 ChromaDB v0.4.22";
               Print "🌐 Starting server on http://0.0.0.0:8000";
               Call (FastAPI_new "ChromaDB Simple Server");
               Call app_add_middleware;
               Call (chromadb_Client false);
               Call (app_route "GET" "/api/v1/heartbeat");
               Call (app_route "GET" "/api/v1/collections");
               Call (app_route "POST" "/api/v1/collections");
               Call (app_route "GET" "/api/v1/collections/{collection_name}");
               Print "✅ Simple FastAPI server configured";
               Call (uvicorn_run simple_app "0.0.0.0" 8000 "info" None);
               Print "❌ Server error: address already in use"] boot)
  /\ (forall code, Exited 0 = Exited code -> code = 0).
Proof.
  split; [reflexivity|]. split; [vm_compute; reflexivity|].
  intros code [= <-]. reflexivity.
Qed.

(** C3 (amended). An exception of class [Exception] other than
    [ImportError] that leaves the [try] block of the start function is
    reported.  [start-chromadb-server.py] prints it and exits with status 1.
    In [chromadb-simple-server.py] it is printed, [start_simple_server]
    returns [False] and the process ends with status 0.  In
    [start-local-chromadb-server.py] it is logged and
    [start_chromadb_server] returns [False]. *)
Theorem C3_startup_exception (w : World) (s s1 : state) (e : exn)
    (Hclass : is_Exception e = true)
    (Hother : is_ImportError e = false) :
  (forall argv a,
      parse (StartServer.arg_parser w) argv = Parsed a ->
      StartServer.start_chromadb_server_body w (StartServer.host a)
        (StartServer.port a) (StartServer.data_dir a) (StartServer.log_level a)
        (emits [Print "🔧 ChromaDB Server for Forest Integration";
                Print (str_repeat "=" 50)] s)
      = (Raise e, s1) ->
      StartServer.script w argv s
      = (Exited 1, emit (Print ("❌ Server startup failed: " +:+ str_exn e)) s1))
  /\ (forall argv a,
        parse (SimpleServer.arg_parser w) argv = Parsed a ->
        SimpleServer.start_simple_server_body w (SimpleServer.host a)
          (SimpleServer.port a) (SimpleServer.data_dir a) s
        = (Raise e, s1) ->
        SimpleServer.start_simple_server w (SimpleServer.host a) (SimpleServer.port a)
          (SimpleServer.data_dir a) s
        = (Ret (Some false), emit (Print ("❌ Server error: " +:+ str_exn e)) s1)
        /\ SimpleServer.script w argv s
           = (Exited 0, emit (Print ("❌ Server error: " +:+ str_exn e)) s1))
  /\ (LocalServer.start_chromadb_server_body w s = (Raise e, s1) ->
      LocalServer.start_chromadb_server w s
      = (Ret (Some false),
         emit (Log LError ("Failed to start ChromaDB server: " +:+ str_exn e)) s1)).
Proof.
  split; [|split].
  - intros argv a Hargs Hbody.
    unfold emits in Hbody. cbn [rev app] in Hbody.
    unfold StartServer.script, StartServer.main. py_unfold. rewrite Hargs. py_unfold.
    unfold StartServer.start_chromadb_server, bind.
    rewrite (basicConfig_returns w argv a _ Hargs).
    unfold try_except. rewrite Hbody. cbn [select_handler]. rewrite Hother, Hclass.
    reflexivity.
  - intros argv a Hargs Hbody.
    assert (Hstart :
      SimpleServer.start_simple_server w (SimpleServer.host a) (SimpleServer.port a)
        (SimpleServer.data_dir a) s
      = (Ret (Some false), emit (Print ("❌ Server error: " +:+ str_exn e)) s1)).
    { unfold SimpleServer.start_simple_server, try_except.
      rewrite Hbody. cbn [select_handler]. rewrite Hother, Hclass. reflexivity. }
    split; [exact Hstart|].
    unfold SimpleServer.script, SimpleServer.main. py_unfold. rewrite Hargs. py_unfold.
    rewrite Hstart. reflexivity.
  - intros Hbody. unfold LocalServer.start_chromadb_server, try_except.
    rewrite Hbody. cbn [select_handler]. rewrite Hother, Hclass. reflexivity.
Qed.

Lemma C3_witness :
  fst (StartServer.script
         (world_with all_importable (serving_raises (Error "address already in use"))
            true) ["--data-dir"; "data"] boot) = Exited 1
  /\ fst (LocalServer.start_chromadb_server
            (world_with all_importable (serving_raises (Error "address already in use"))
               true) boot) = Ret (Some false).
Proof.
  pose (w := world_with all_importable (serving_raises (Error "address already in use"))
               true).
  split.
  - destruct (C3_startup_exception w boot
                (snd (StartServer.start_chromadb_server_body w "0.0.0.0" 8000
                        (Some "data") "INFO"
                        (emits [Print "🔧 ChromaDB Server for Forest Integration";
                                Print (str_repeat "=" 50)] boot)))
                (Error "address already in use") eq_refl eq_refl) as (H1 & _).
    refine (f_equal fst (H1 ["--data-dir"; "data"]
              {| StartServer.host := "0.0.0.0"; StartServer.port := 8000;
                 StartServer.data_dir := Some "data"; StartServer.log_level := "INFO" |}
              eq_refl _)).
    vm_compute. reflexivity.
  - destruct (C3_startup_exception w boot
                (snd (LocalServer.start_chromadb_server_body w boot))
                (Error "address already in use") eq_refl eq_refl) as (_ & _ & H3).
    refine (f_equal fst (H3 _)).
    vm_compute. reflexivity.
Defined.

(** ** The data directory *)

(** C4. With [--data-dir X] (and chromadb importable, so that the start
    function gets as far as the directory), both stage-1 scripts call
    [Path(X).mkdir(parents=True, exist_ok=True)].  If [X] is a directory
    already, the file system is left as it was.  If [X] does not exist, in
    a file system where no regular file is in the way, [X] and every
    missing directory above it are created, and nothing else changes.  In
    both cases [mkdir] raises nothing: the run goes on to announce the
    directory. *)
Theorem C4_data_dir_created (w : World) (s : state) (X : string)
    (HX : X <> "")
    (Hchroma : importable w (pip_done s) "chromadb" = None)
    (Hfs : is_dir (fs s) (Path w X) = true
           \/ (node_at (fs s) (Path w X) = None
               /\ fs_ok (fs s) /\ no_file_above (fs s) (Path w X))) :
  (forall argv a,
      parse (StartServer.arg_parser w) argv = Parsed a ->
      StartServer.data_dir a = Some X ->
      importable w (pip_done s) "chromadb.config:Settings" = None ->
      let s' := snd (StartServer.script w argv s) in
      (is_dir (fs s) (Path w X) = true -> fs s' = fs s)
      /\ (node_at (fs s) (Path w X) = None -> made_dirs (fs s) (fs s') (Path w X))
      /\ In (Print ("✅ Data directory created: " +:+ path_str w (Path w X)))
           (events_since s s'))
  /\ (forall argv a,
        parse (SimpleServer.arg_parser w) argv = Parsed a ->
        SimpleServer.data_dir a = Some X ->
        let s' := snd (SimpleServer.script w argv s) in
        (is_dir (fs s) (Path w X) = true -> fs s' = fs s)
        /\ (node_at (fs s) (Path w X) = None -> made_dirs (fs s) (fs s') (Path w X))
        /\ In (Print ("📁 Data directory: " +:+ path_str w (Path w X)))
             (events_since s s')).
Proof.
  assert (Htruthy : truthy (Some X) = true).
  { unfold truthy. apply negb_true_iff, String.eqb_neq. exact HX. }
  assert (Hmk : exists files',
             path_mkdir true true (Path w X) (fs s) = inr files'
             /\ (is_dir (fs s) (Path w X) = true -> files' = fs s)
             /\ (node_at (fs s) (Path w X) = None
                 -> made_dirs (fs s) files' (Path w X))).
  { destruct Hfs as [Hdir | (Hnone & Hok & Hnf)].
    - exists (fs s). split; [apply mkdir_parents_exists; exact Hdir|].
      split; [reflexivity|]. intros Hnone. unfold is_dir in Hdir.
      rewrite Hnone in Hdir. discriminate.
    - destruct (mkdir_parents_spec (Path w X) (fs s) Hok Hnf)
        as (files' & Hmk & _ & Hview).
      exists files'. split; [exact Hmk|]. split.
      + intros Hdir. unfold is_dir in Hdir. rewrite Hnone in Hdir. discriminate.
      + intros _. apply (with_dirs_made (fs s) files' (Path w X) Hnf Hview). }
  destruct Hmk as (files' & Hmk & Hsame & Hmade).
  split.
  - intros argv a Hargs Hdir Hsettings s'. subst s'.
    destruct (start_server_mkdir w argv a s X files') as [H1 H2]; auto.
    rewrite H1. auto.
  - intros argv a Hargs Hdir s'. subst s'.
    destruct (simple_server_mkdir w argv a s X files') as [H1 H2]; auto.
    rewrite H1. auto.
Qed.

Lemma boot_fs_ok : fs_ok (fs boot).
Proof.
  intros q n Hq Hl. cbn [fs boot] in *.
  rewrite lookup_insert in Hl. case_decide as H1.
  - subst q. reflexivity.
  - rewrite lookup_insert in Hl. case_decide as H2.
    + subst q. reflexivity.
    + rewrite lookup_empty in Hl. discriminate.
Qed.

Lemma boot_no_file q : node_at (fs boot) q <> Some File.
Proof.
  destruct q as [|c q]; [discriminate|]. cbn [node_at fs boot].
  rewrite lookup_insert. case_decide; [discriminate|].
  rewrite lookup_insert. case_decide; [discriminate|].
  rewrite lookup_empty. discriminate.
Qed.

Lemma C4_witness :
  node_at (fs (snd (StartServer.script (world_with all_importable never_raises true)
                      ["--data-dir"; "data/chroma"] boot))) ["chroma"; "data"]
    = Some Dir
  /\ node_at (fs (snd (SimpleServer.script (world_with all_importable never_raises true)
                         ["--data-dir"; "data/chroma"] boot))) ["data"]
     = Some Dir
  /\ fs (snd (StartServer.script (world_with all_importable never_raises true)
                ["--data-dir"; "home/forest"] boot)) = fs boot.
Proof.
  pose (w := world_with all_importable never_raises true).
  assert (Hnone : node_at (fs boot) (Path w "data/chroma") = None).
  { vm_compute. reflexivity. }
  destruct (C4_data_dir_created w boot "data/chroma" ltac:(discriminate) eq_refl)
    as [Hnew1 Hnew2].
  { right. split; [exact Hnone|]. split; [exact boot_fs_ok|].
    intros q _. apply boot_no_file. }
  destruct (C4_data_dir_created w boot "home/forest" ltac:(discriminate) eq_refl)
    as [Hold _].
  { left. vm_compute. reflexivity. }
  split; [|split].
  - destruct (Hnew1 ["--data-dir"; "data/chroma"]
                {| StartServer.host := "0.0.0.0"; StartServer.port := 8000;
                   StartServer.data_dir := Some "data/chroma";
                   StartServer.log_level := "INFO" |} eq_refl eq_refl eq_refl)
      as (_ & Hmade & _).
    apply (proj1 (Hmade Hnone)). reflexivity.
  - destruct (Hnew2 ["--data-dir"; "data/chroma"]
                {| SimpleServer.host := "0.0.0.0"; SimpleServer.port := 8000;
                   SimpleServer.data_dir := Some "data/chroma" |} eq_refl eq_refl)
      as (_ & Hmade & _).
    apply (proj1 (Hmade Hnone)). exists ["chroma"]. reflexivity.
  - destruct (Hold ["--data-dir"; "home/forest"]
                {| StartServer.host := "0.0.0.0"; StartServer.port := 8000;
                   StartServer.data_dir := Some "home/forest";
                   StartServer.log_level := "INFO" |} eq_refl eq_refl eq_refl)
      as (Hsame & _).
    apply Hsame. vm_compute. reflexivity.
Defined.

(** ** The environment *)

Ltac no_setenv :=
  let k := fresh "k" in
  let v := fresh "v" in
  let Hin := fresh "Hin" in
  intros k v Hin; run_events_in Hin; cbn [In] in Hin;
  repeat match type of Hin with
         | _ \/ _ => destruct Hin as [Hin|Hin]; [discriminate Hin|]
         end;
  exact Hin.

(** C5. When [--data-dir] is not given ([data_dir] is [None]), neither
    stage-1 script writes to [os.environ]: no assignment happens during the
    run, so [CHROMA_DB_IMPL] and [CHROMA_PERSIST_DIRECTORY] in particular
    are what they were. *)
Theorem C5_no_data_dir_no_env (w : World) (s : state) :
  (forall argv a,
      parse (StartServer.arg_parser w) argv = Parsed a ->
      StartServer.data_dir a = None ->
      let s' := snd (StartServer.script w argv s) in
      environ s' = environ s
      /\ environ s' !! "CHROMA_DB_IMPL" = environ s !! "CHROMA_DB_IMPL"
      /\ environ s' !! "CHROMA_PERSIST_DIRECTORY"
         = environ s !! "CHROMA_PERSIST_DIRECTORY"
      /\ forall k v, ~ In (Setenv k v) (events_since s s'))
  /\ (forall argv a,
        parse (SimpleServer.arg_parser w) argv = Parsed a ->
        SimpleServer.data_dir a = None ->
        let s' := snd (SimpleServer.script w argv s) in
        environ s' = environ s
        /\ environ s' !! "CHROMA_DB_IMPL" = environ s !! "CHROMA_DB_IMPL"
        /\ environ s' !! "CHROMA_PERSIST_DIRECTORY"
           = environ s !! "CHROMA_PERSIST_DIRECTORY"
        /\ forall k v, ~ In (Setenv k v) (events_since s s')).
Proof.
  split.
  - intros argv a Hargs Hnone s'. subst s'.
    cut (let '(st, s') := StartServer.script w argv s in
         environ s' = environ s
         /\ forall k v, ~ In (Setenv k v) (events_since s s')).
    { destruct (StartServer.script w argv s) as [st s']. cbn [snd].
      intros [-> H]. auto. }
    unfold StartServer.script, StartServer.main. py_unfold. rewrite Hargs. py_unfold.
    unfold StartServer.start_chromadb_server, bind.
    rewrite (basicConfig_returns w argv a _ Hargs).
    unfold StartServer.start_chromadb_server_body. rewrite Hnone.
    change (truthy None) with false.
    py_run; (split; [reflexivity | no_setenv]).
  - intros argv a Hargs Hnone s'. subst s'.
    cut (let '(st, s') := SimpleServer.script w argv s in
         environ s' = environ s
         /\ forall k v, ~ In (Setenv k v) (events_since s s')).
    { destruct (SimpleServer.script w argv s) as [st s']. cbn [snd].
      intros [-> H]. auto. }
    unfold SimpleServer.script, SimpleServer.main. py_unfold. rewrite Hargs. py_unfold.
    unfold SimpleServer.start_simple_server, SimpleServer.start_simple_server_body.
    rewrite Hnone. change (truthy None) with false.
    py_run; (split; [reflexivity | no_setenv]).
Qed.

Lemma C5_witness :
  environ (snd (StartServer.script (world_with all_importable never_raises false)
                  ["--port"; "9000"] boot)) = environ boot
  /\ environ (snd (SimpleServer.script (world_with all_importable never_raises false)
                     ["--port"; "9000"] boot)) = environ boot.
Proof.
  destruct (C5_no_data_dir_no_env (world_with all_importable never_raises false) boot)
    as [H1 H2].
  split.
  - exact (proj1 (H1 ["--port"; "9000"]
                    {| StartServer.host := "0.0.0.0"; StartServer.port := 9000;
                       StartServer.data_dir := None;
                       StartServer.log_level := "INFO" |} eq_refl eq_refl)).
  - exact (proj1 (H2 ["--port"; "9000"]
                    {| SimpleServer.host := "0.0.0.0"; SimpleServer.port := 9000;
                       SimpleServer.data_dir := None |} eq_refl eq_refl)).
Defined.

(** ** Which server is started *)

(** C6, as the spec has it, fails on [start-local-chromadb-server.py]:
    chromadb has [run_server] here, and yet the script serves the FastAPI
    application with uvicorn; [run_server] is never called. *)
Lemma C6_counterexample :
  has_run_server (world_with all_importable never_raises true) = true
  /\ calls_of (events_since boot
                 (snd (LocalServer.script (world_with all_importable never_raises true)
                         boot)))
     = [ Settings_new (LocalServer.settings_kw "/home/forest/.forest-data/.chromadb");
         chromadb_Client true;
         uvicorn_run chromadb_app "0.0.0.0" 8000 "info" None ].
Proof. split; [reflexivity | vm_compute; reflexivity]. Qed.

Ltac never_run_server :=
  let h := fresh "h" in
  let p := fresh "p" in
  let st := fresh "st" in
  let Hin := fresh "Hin" in
  intros h p st Hin; run_events_in Hin; cbn [In] in Hin;
  repeat match type of Hin with
         | _ \/ _ => destruct Hin as [Hin|Hin]; [discriminate Hin|]
         end;
  exact Hin.

(** C6 (amended).  [start-chromadb-server.py]: once start-up has come as far
    as the choice (chromadb and its settings imported, the data directory
    made if one was asked for), the run makes exactly the serving calls of
    [start_server_plan]: [chromadb.run_server] if chromadb has that
    attribute, otherwise [uvicorn.run] on the imported FastAPI application,
    and nothing if the fallback cannot be imported.
    [start-local-chromadb-server.py] never calls [run_server]; once its
    set-up is done (imports, the two directories, settings and client) it
    makes exactly the serving calls of [local_server_plan]: [uvicorn.run] on
    the application and, only after an [Exception], one fallback
    [uvicorn.run] on the import string. *)
Theorem C6_server_construction (w : World) (s : state)
    (Hchroma : importable w (pip_done s) "chromadb" = None)
    (Hsettings : importable w (pip_done s) "chromadb.config:Settings" = None) :
  (forall argv a files,
      parse (StartServer.arg_parser w) argv = Parsed a ->
      truthy (StartServer.data_dir a) = false
      \/ path_mkdir true true (Path w (the (StartServer.data_dir a))) (fs s)
         = inr files ->
      serving_calls (events_since s (snd (StartServer.script w argv s)))
      = start_server_plan w (pip_done s) a)
  /\ (forall h p st,
        ~ In (Call (chromadb_run_server h p st))
            (events_since s (snd (LocalServer.script w s))))
  /\ (forall files1 files2,
        importable w (pip_done s) "uvicorn" = None ->
        path_mkdir false true (Path w (expanduser w "~/.forest-data")) (fs s)
        = inr files1 ->
        path_mkdir false true
          (Path w (path_join (expanduser w "~/.forest-data") ".chromadb")) files1
        = inr files2 ->
        raises w (Settings_new (LocalServer.settings_kw
                    (path_join (expanduser w "~/.forest-data") ".chromadb")))
        = None ->
        raises w (chromadb_Client true) = None ->
        serving_calls (events_since s (snd (LocalServer.script w s)))
        = local_server_plan w (pip_done s)).
Proof.
  split; [|split].
  - intros argv a files Hargs Hmkdir.
    cut (let '(st, s') := StartServer.script w argv s in
         serving_calls (events_since s s') = start_server_plan w (pip_done s) a).
    { destruct (StartServer.script w argv s); auto. }
    unfold StartServer.script, StartServer.main. py_unfold. rewrite Hargs. py_unfold.
    unfold StartServer.start_chromadb_server, bind.
    rewrite (basicConfig_returns w argv a _ Hargs).
    unfold StartServer.start_chromadb_server_body, start_server_plan.
    destruct (truthy (StartServer.data_dir a)) eqn:Htruthy.
    + destruct Hmkdir as [Hf|Hmkdir]; [discriminate Hf|].
      py_run; run_events; reflexivity.
    + py_run; run_events; reflexivity.
  - cut (let '(st, s') := LocalServer.script w s in
         forall h p st, ~ In (Call (chromadb_run_server h p st)) (events_since s s')).
    { destruct (LocalServer.script w s); auto. }
    unfold LocalServer.script, LocalServer.main, LocalServer.install_chromadb,
      LocalServer.start_chromadb_server, LocalServer.start_chromadb_server_body.
    py_run; never_run_server.
  - intros files1 files2 Huvicorn Hmkdir1 Hmkdir2 Hnew Hclient.
    cut (let '(st, s') := LocalServer.script w s in
         serving_calls (events_since s s') = local_server_plan w (pip_done s)).
    { destruct (LocalServer.script w s); auto. }
    unfold LocalServer.script, LocalServer.main, LocalServer.install_chromadb,
      LocalServer.start_chromadb_server, LocalServer.start_chromadb_server_body,
      local_server_plan, local_primary, local_fallback.
    py_run; run_events; reflexivity.
Qed.

Lemma C6_witness :
  serving_calls (events_since boot
                   (snd (StartServer.script
                           (world_with all_importable never_raises false) [] boot)))
    = [uvicorn_run chromadb_app "0.0.0.0" 8000 "info" None]
  /\ serving_calls (events_since boot
                      (snd (LocalServer.script
                              (world_with all_importable never_raises false) boot)))
     = [local_primary].
Proof.
  pose (w := world_with all_importable never_raises false).
  pose (p1 := Path w (expanduser w "~/.forest-data")).
  pose (p2 := Path w (path_join (expanduser w "~/.forest-data") ".chromadb")).
  destruct (C6_server_construction w boot eq_refl eq_refl) as (H1 & _ & H3).
  split.
  - exact (H1 [] {| StartServer.host := "0.0.0.0"; StartServer.port := 8000;
                    StartServer.data_dir := None; StartServer.log_level := "INFO" |}
              (fs boot) eq_refl (or_introl eq_refl)).
  - apply (H3 (<[p1 := Dir]> (fs boot)) (<[p2 := Dir]> (<[p1 := Dir]> (fs boot)))).
    + reflexivity.
    + apply (mkdir_once_new p1 (fs boot)); vm_compute; reflexivity.
    + apply (mkdir_once_new p2 (<[p1 := Dir]> (fs boot))); vm_compute; reflexivity.
    + reflexivity.
    + reflexivity.
Defined.

(** ** Command-line defaults *)

(** C7, as the spec has it, fails on [chromadb-simple-server.py]: its
    parser has no [--log-level] option, so its configuration holds no log
    level, and the documented default itself, given on the command line,
    is a usage error that ends the process with status 2. *)
Lemma C7_counterexample :
  option_strings (SimpleServer.arg_parser (world_with all_importable never_raises true))
    = ["-h"; "--help"; "--host"; "--port"; "--data-dir"]
  /\ parse (SimpleServer.arg_parser (world_with all_importable never_raises true))
       ["--log-level"; "INFO"]
     = UsageError "unrecognized arguments: --log-level INFO"
  /\ SimpleServer.script (world_with all_importable never_raises true)
       ["--log-level"; "INFO"] boot
     = (Exited 2, emit (Argparse "error: unrecognized arguments: --log-level INFO") boot).
Proof. split; [reflexivity|]. split; reflexivity. Qed.

Lemma not_choice (v : string) :
  ~ In v ["DEBUG"; "INFO"; "WARNING"; "ERROR"] ->
  str_in v StartServer.log_level_choices = false.
Proof.
  intros Hv. unfold str_in, StartServer.log_level_choices. cbn [existsb].
  repeat (apply orb_false_intro; [apply String.eqb_neq; intros ->; apply Hv; cbn [In]; repeat first [left; reflexivity | right]|]).
  reflexivity.
Qed.

(** C7 (amended). Without flags [start-chromadb-server.py] parses to host
    "0.0.0.0", port 8000, no data directory and log level "INFO", and
    [chromadb-simple-server.py] to the same host, port and data directory;
    the latter has no [--log-level] option and rejects the flag.  In
    [start-chromadb-server.py] the log level of a parsed namespace is one of
    DEBUG, INFO, WARNING, ERROR: each of these is accepted, and any other
    value that follows [--log-level] is a usage error.  The one way past
    the choices is the explicit argument [--]: for [--log-level=--]
    argparse stores the empty list, unchecked. *)
Theorem C7_defaults_and_log_level_choices (w : World) (argv : list string)
    (a : StartServer.args)
    (Hparsed : parse (StartServer.arg_parser w) argv = Parsed a) :
  parse (StartServer.arg_parser w) [] =
    Parsed {| StartServer.host := "0.0.0.0"; StartServer.port := 8000;
              StartServer.data_dir := None; StartServer.log_level := "INFO" |}
  /\ parse (SimpleServer.arg_parser w) [] =
       Parsed {| SimpleServer.host := "0.0.0.0"; SimpleServer.port := 8000;
                 SimpleServer.data_dir := None |}
  /\ In (StartServer.log_level a) ["DEBUG"; "INFO"; "WARNING"; "ERROR"]
  /\ (forall v, In v ["DEBUG"; "INFO"; "WARNING"; "ERROR"] ->
        parse (StartServer.arg_parser w) ["--log-level"; v] =
          Parsed {| StartServer.host := "0.0.0.0"; StartServer.port := 8000;
                    StartServer.data_dir := None; StartServer.log_level := v |})
  /\ (forall v, startswith "-" v = false ->
        ~ In v ["DEBUG"; "INFO"; "WARNING"; "ERROR"] ->
        parse (StartServer.arg_parser w) ["--log-level"; v] =
          UsageError ("argument --log-level: invalid choice: " +:+ py_repr w v
                      +:+ " (choose from 'DEBUG', 'INFO', 'WARNING', 'ERROR')"))
  /\ parse (StartServer.arg_parser w) ["--log-level=--"]
     = EmptyListStored ["--log-level"]
  /\ (forall v, startswith "-" v = false ->
        parse (SimpleServer.arg_parser w) ["--log-level"; v] =
          UsageError ("unrecognized arguments: --log-level " +:+ v)).
Proof.
  split; [reflexivity|]. split; [reflexivity|]. split; [|split; [|split; [|split]]].
  - apply parsed_log_level, log_level_choice_cases in Hparsed.
    simpl. intuition.
  - intros v Hv. simpl in Hv.
    destruct Hv as [ <- | [ <- | [ <- | [ <- | [] ] ] ] ]; reflexivity.
  - intros v Hdash Hv.
    rewrite parse_one_option by (reflexivity || exact Hdash).
    change (store_value (StartServer.arg_parser w) "--log-level" v
              (defaults (StartServer.arg_parser w)))
      with (StartServer.set_log_level w v (defaults (StartServer.arg_parser w))).
    unfold StartServer.set_log_level. rewrite (not_choice v Hv). reflexivity.
  - reflexivity.
  - intros v Hdash. unfold parse. cbn [classify_all].
    change (String.eqb "--log-level" "--") with false. cbv iota.
    rewrite (not_dashed_not_separator v Hdash). cbn [classify_all].
    rewrite (not_dashed_positional _ v Hdash).
    change (classify (option_strings (SimpleServer.arg_parser w)) "--log-level")
      with TUnknown.
    reflexivity.
Qed.

Lemma C7_witness :
  In "DEBUG" ["DEBUG"; "INFO"; "WARNING"; "ERROR"].
Proof.
  exact (proj1 (proj2 (proj2
    (C7_defaults_and_log_level_choices
       (world_with all_importable never_raises true)
       ["--port"; "9000"; "--log-level=DEBUG"]
       {| StartServer.host := "0.0.0.0"; StartServer.port := 9000;
          StartServer.data_dir := None; StartServer.log_level := "DEBUG" |}
       eq_refl)))).
Defined.
(** ** The HTTP surface of the simple server *)

(** C8, as the spec has it, fails on the heartbeat endpoint: its handler
    answers from the clock and enters no call of the chromadb client (or of
    anything else). *)
Lemma C8_counterexample :
  nth_error (SimpleServer.routes (world_with all_importable never_raises true)) 0
    = Some {| SimpleServer.route_method := SimpleServer.GET;
              SimpleServer.route_path := "/api/v1/heartbeat";
              SimpleServer.route_handler :=
                SimpleServer.NoArg
                  (SimpleServer.heartbeat (world_with all_importable never_raises true)) |}
  /\ SimpleServer.heartbeat (world_with all_importable never_raises true) boot
     = (Ret (JObj [("nanosecond heartbeat", JInt 1700000000000000000)]), boot)
  /\ calls_of (events_since boot
                 (snd (SimpleServer.heartbeat
                         (world_with all_importable never_raises true) boot))) = [].
Proof. repeat split. Qed.

(** C8 (amended). The simple server registers exactly four routes: GET
    heartbeat, GET collections, POST collections and GET collection by
    name.  The three collection handlers forward to exactly one call of the
    chromadb client, with the request's values as they came, and hand back
    the name and id of what the call returns or the exception it raises,
    untranslated.  The heartbeat handler calls nothing: it answers with the
    clock reading. *)
Theorem C8_four_routes (w : World) (s : state) (request : gmap string json)
    (collection_name : string) :
  map (fun r => (SimpleServer.route_method r, SimpleServer.route_path r))
      (SimpleServer.routes w)
    = [ (SimpleServer.GET, "/api/v1/heartbeat");
        (SimpleServer.GET, "/api/v1/collections");
        (SimpleServer.POST, "/api/v1/collections");
        (SimpleServer.GET, "/api/v1/collections/{collection_name}") ]
  /\ map SimpleServer.route_handler (SimpleServer.routes w)
     = [ SimpleServer.NoArg (SimpleServer.heartbeat w);
         SimpleServer.NoArg (SimpleServer.list_collections w);
         SimpleServer.Body (SimpleServer.create_collection w);
         SimpleServer.PathParam (SimpleServer.get_collection w) ]
  /\ SimpleServer.heartbeat w s
     = (Ret (JObj [("nanosecond heartbeat", JInt (time_ns w))]), s)
  /\ SimpleServer.list_collections w s
     = forwarded w client_list_collections
         (JList (map SimpleServer.describe (listed w))) s
  /\ SimpleServer.create_collection w request s
     = forwarded w
         (client_create_collection (default JNull (request !! "name"))
            (default (JObj []) (request !! "metadata")))
         (SimpleServer.describe
            (created w (default JNull (request !! "name"))
               (default (JObj []) (request !! "metadata")))) s
  /\ SimpleServer.get_collection w collection_name s
     = forwarded w (client_get_collection collection_name)
         (SimpleServer.describe (got w collection_name)) s.
Proof.
  repeat split.
  - unfold SimpleServer.list_collections, forwarded. py_unfold.
    destruct (raises w client_list_collections); reflexivity.
  - unfold SimpleServer.create_collection, forwarded. py_unfold.
    destruct (raises w _); reflexivity.
  - unfold SimpleServer.get_collection, forwarded. py_unfold.
    destruct (raises w _); reflexivity.
Qed.
(** ** The diagnostic script, claim by claim *)

(** C9. When the import of an optional companion module (the FastAPI
    server module, uvicorn) fails, the diagnostic script logs that it is not
    available and goes on with its next step: the uvicorn check after the
    FastAPI one, the client probe after the uvicorn one.  [test_chromadb]
    returns [False] exactly when [import chromadb] itself fails. *)
Theorem C9_optional_modules (w : World) (s : state) :
  (fst (Diagnostic.test_chromadb w s) = Ret false
   <-> exists m, importable w (pip_done s) "chromadb" = Some m)
  /\ (importable w (pip_done s) "chromadb" = None ->
      forall m,
        importable w (pip_done s) "chromadb.server.fastapi:app" = Some m ->
        let evs := events_since s (snd (Diagnostic.test_chromadb w s)) in
        In (Log LError ("❌ FastAPI server not available: " +:+ m)) evs
        /\ (In (Log LInfo "✅ Uvicorn available") evs
            \/ exists m', In (Log LError ("❌ Uvicorn not available: " +:+ m')) evs))
  /\ (importable w (pip_done s) "chromadb" = None ->
      forall m,
        importable w (pip_done s) "uvicorn" = Some m ->
        let evs := events_since s (snd (Diagnostic.test_chromadb w s)) in
        In (Log LError ("❌ Uvicorn not available: " +:+ m)) evs
        /\ In (Log LInfo "💡 Install with: pip install uvicorn") evs
        /\ In (Call (chromadb_Client false)) evs).
Proof.
  split; [|split].
  - destruct (importable w (pip_done s) "chromadb") as [m|] eqn:Hchroma.
    + split; [eauto|]. intros _.
      unfold Diagnostic.test_chromadb. py_unfold. rewrite Hchroma. reflexivity.
    + rewrite (test_chromadb_report w s Hchroma). cbn [fst].
      split.
      * destruct (snd (client_report w)); discriminate.
      * intros [m Hm]. discriminate Hm.
  - intros Hchroma m Hfast evs. subst evs.
    rewrite (test_chromadb_events w s Hchroma).
    unfold diagnostic_report, fastapi_report, uvicorn_report. rewrite Hfast.
    split.
    + right. left. reflexivity.
    + destruct (importable w (pip_done s) "uvicorn") as [m'|].
      * right. exists m'. right. right. left. reflexivity.
      * left. right. right. left. reflexivity.
  - intros Hchroma m Huvi evs. subst evs.
    rewrite (test_chromadb_events w s Hchroma).
    unfold diagnostic_report, uvicorn_report. rewrite Huvi.
    assert (Hcall : In (Call (chromadb_Client false)) (fst (client_report w))).
    { unfold client_report.
      destruct (raises w (chromadb_Client false)) as [e|].
      - destruct (is_Exception e); left; reflexivity.
      - destruct (raises w client_list_collections) as [e|];
          [destruct (is_Exception e)|]; left; reflexivity. }
    repeat split.
    + right. apply in_or_app. right. left. reflexivity.
    + right. apply in_or_app. right. right. left. reflexivity.
    + right. apply in_or_app. right. apply in_or_app. right.
      apply in_or_app. left. exact Hcall.
Qed.

Lemma C9_witness :
  In (Log LError "❌ FastAPI server not available: No module named 'chromadb.server.fastapi:app'")
     (events_since boot
        (snd (Diagnostic.test_chromadb (world_with only_chromadb never_raises true) boot)))
  /\ In (Call (chromadb_Client false))
       (events_since boot
          (snd (Diagnostic.test_chromadb (world_with only_chromadb never_raises true)
                  boot))).
Proof.
  destruct (C9_optional_modules (world_with only_chromadb never_raises true) boot)
    as (_ & Hfast & Huvi).
  split.
  - exact (proj1 (Hfast eq_refl _ eq_refl)).
  - exact (proj2 (proj2 (Huvi eq_refl _ eq_refl))).
Defined.

(** C10. When [import chromadb] succeeds, [test_chromadb] returns [True]
    whether or not creating the client or listing the collections raises
    (an [Exception]); such a failure is logged.  The listing that ends the
    report names the first ten public attributes at most (those not
    starting with an underscore) and gives only the number of the rest. *)
Theorem C10_returns_true_and_lists_ten (w : World) (s : state)
    (Hchroma : importable w (pip_done s) "chromadb" = None)
    (Hclient : forall e, raises w (chromadb_Client false) = Some e ->
                         is_Exception e = true)
    (Hlist : forall e, raises w client_list_collections = Some e ->
                       is_Exception e = true) :
  let evs := events_since s (snd (Diagnostic.test_chromadb w s)) in
  let attrs := List.filter (fun attr => negb (startswith "_" attr)) (dir_chromadb w) in
  fst (Diagnostic.test_chromadb w s) = Ret true
  /\ (forall e, raises w (chromadb_Client false) = Some e ->
        In (Log LError ("❌ Client creation failed: " +:+ str_exn e)) evs)
  /\ (forall e, raises w (chromadb_Client false) = None ->
        raises w client_list_collections = Some e ->
        In (Log LError ("❌ Client creation failed: " +:+ str_exn e)) evs)
  /\ (exists before,
        evs = before
              ++ Log LInfo "📦 ChromaDB module contents:"
              :: map (fun attr => Log LInfo ("   - " +:+ attr)) (firstn 10 attrs)
              ++ (if (10 <? length attrs)%nat
                  then [Log LInfo ("   ... and " +:+ pretty (length attrs - 10)%nat
                                   +:+ " more")]
                  else []))
  /\ (length (firstn 10 attrs) <= 10)%nat.
Proof.
  intros evs attrs. subst evs.
  rewrite (test_chromadb_events w s Hchroma), (test_chromadb_report w s Hchroma).
  assert (Hgoes : snd (client_report w) = None).
  { unfold client_report.
    destruct (raises w (chromadb_Client false)) as [e|] eqn:Hc.
    - rewrite (Hclient e eq_refl). reflexivity.
    - destruct (raises w client_list_collections) as [e|] eqn:Hl; [|reflexivity].
      rewrite (Hlist e eq_refl). reflexivity. }
  cbn [fst]. unfold diagnostic_report. rewrite Hgoes.
  split; [reflexivity|]. split; [|split; [|split]].
  - intros e He. right. apply in_or_app. right. apply in_or_app. right.
    apply in_or_app. left. unfold client_report. rewrite He, (Hclient e He).
    right. left. reflexivity.
  - intros e Hnone He. right. apply in_or_app. right. apply in_or_app. right.
    apply in_or_app. left. unfold client_report. rewrite Hnone, He, (Hlist e He).
    cbn [fst]. apply in_or_app. right. left. reflexivity.
  - exists (Log LInfo ("✅ ChromaDB version: " +:+ chromadb_version w)
            :: fastapi_report w (pip_done s) ++ uvicorn_report w (pip_done s)
            ++ fst (client_report w)).
    unfold contents_report, Diagnostic.public_attrs. fold attrs.
    cbn [app]. rewrite <- !app_assoc. reflexivity.
  - apply firstn_le_length.
Qed.

Lemma C10_witness :
  fst (Diagnostic.test_chromadb
         (world_with all_importable
            (fun c => match c with
                      | chromadb_Client _ => Some (Error "no default tenant")
                      | _ => None
                      end) true) boot) = Ret true.
Proof.
  apply (C10_returns_true_and_lists_ten
           (world_with all_importable
              (fun c => match c with
                        | chromadb_Client _ => Some (Error "no default tenant")
                        | _ => None
                        end) true) boot eq_refl).
  - intros e He. injection He as <-. reflexivity.
  - intros e He. discriminate He.
Defined.

(** * Further properties of the scripts *)

(** ** start-local-chromadb-server.py: installing the dependency *)

(** [install_chromadb], case by case. *)
Lemma install_cases (w : World) (s : state) :
  LocalServer.install_chromadb w s
  = match importable w (pip_done s) "chromadb" with
    | None =>
        (Ret true, emit (Log LInfo ("ChromaDB already installed: " +:+ chromadb_version w)) s)
    | Some _ =>
        let pip := subprocess_check_call
                     [sys_executable w; "-m"; "pip"; "install"; "chromadb"] in
        let s1 := emits [Log LInfo "ChromaDB not found, installing..."; Call pip] s in
        match raises w pip with
        | None =>
            (Ret true,
             {| trace := trace (emit (Log LInfo "ChromaDB installed successfully") s1);
                environ := environ s; fs := fs s; pip_done := true |})
        | Some e =>
            if is_CalledProcessError e
            then (Ret false,
                  emit (Log LError ("Failed to install ChromaDB: " +:+ str_exn e)) s1)
            else (Raise e, s1)
        end
    end.
Proof.
  unfold LocalServer.install_chromadb.
  py_unfold.
  destruct (importable w (pip_done s) "chromadb") as [m|]; [|reflexivity].
  py_unfold.
  destruct (raises w _) as [e|]; [|reflexivity].
  destruct e; reflexivity.
Qed.

(** X1. [install_chromadb] runs pip only when [import chromadb] fails, and
    then once, as [sys.executable -m pip install chromadb].  It returns
    [True] exactly when the import worked or pip returned, [False] exactly
    when pip ended in [CalledProcessError]; any other exception of pip is
    passed on.  It touches neither the environment nor the file system. *)
Theorem X1_install_chromadb (w : World) (s : state) :
  let pip := subprocess_check_call [sys_executable w; "-m"; "pip"; "install"; "chromadb"] in
  let r := fst (LocalServer.install_chromadb w s) in
  let s' := snd (LocalServer.install_chromadb w s) in
  calls_of (events_since s s')
    = match importable w (pip_done s) "chromadb" with
      | None => []
      | Some _ => [pip]
      end
  /\ (r = Ret true
      <-> importable w (pip_done s) "chromadb" = None \/ raises w pip = None)
  /\ (r = Ret false
      <-> importable w (pip_done s) "chromadb" <> None
          /\ exists m, raises w pip = Some (CalledProcessError m))
  /\ (forall e, r = Raise e
                -> raises w pip = Some e /\ is_CalledProcessError e = false)
  /\ environ s' = environ s
  /\ fs s' = fs s
  /\ (pip_done s' = true <-> pip_done s = true
                             \/ (importable w (pip_done s) "chromadb" <> None
                                 /\ raises w pip = None)).
Proof.
  intros pip r s'. subst pip r s'. rewrite install_cases.
  destruct (importable w (pip_done s) "chromadb") as [m|] eqn:Himp.
  - cbv zeta.
    destruct (raises w (subprocess_check_call _)) as [e|] eqn:Hpip.
    + destruct (is_CalledProcessError e) eqn:Hclass; cbn [fst snd];
        unfold emits, emit; cbn [trace environ fs pip_done rev app];
        run_events; cbn [calls_of].
      * split; [reflexivity|]. split; [split; [discriminate|intros [H|H]; discriminate H]|].
        split.
        { split; [|reflexivity]. intros _. split; [discriminate|].
          destruct e; try discriminate Hclass. eauto. }
        split; [discriminate|]. split; [reflexivity|]. split; [reflexivity|].
        split; [auto|]. intros [H|[_ H]]; [exact H|discriminate H].
      * split; [reflexivity|]. split; [split; [discriminate|intros [H|H]; discriminate H]|].
        split.
        { split; [discriminate|]. intros [_ [m' H]]. injection H as ->.
          discriminate Hclass. }
        split; [intros e' [= <-]; split; [reflexivity|exact Hclass]|].
        split; [reflexivity|]. split; [reflexivity|].
        split; [auto|]. intros [H|[_ H]]; [exact H|discriminate H].
    + cbn [fst snd]. unfold emits, emit. cbn [trace environ fs pip_done rev app].
      run_events. cbn [calls_of].
      split; [reflexivity|]. split; [split; [auto|reflexivity]|].
      split; [split; [discriminate|intros [_ [m' H]]; discriminate H]|].
      split; [discriminate|]. split; [reflexivity|]. split; [reflexivity|].
      split; [|reflexivity]. intros _. right. split; [discriminate|reflexivity].
  - cbn [fst snd]. unfold emit. cbn [trace environ fs pip_done].
    run_events. cbn [calls_of].
    split; [reflexivity|]. split; [split; [auto|reflexivity]|].
    split; [split; [discriminate|intros [H _]; contradiction]|].
    split; [discriminate|]. split; [reflexivity|]. split; [reflexivity|].
    split; [auto|]. intros [H|[H _]]; [exact H|contradiction].
Qed.

(** ** start-local-chromadb-server.py: what the start function lets out *)



(** Refutes that an event is among the events of a finished run, none of
    which has its shape. *)
Ltac not_in_log Hin :=
  run_events_in Hin; cbn [In] in Hin;
  repeat match type of Hin with
         | _ \/ _ => destruct Hin as [Hin|Hin]; [discriminate Hin|]
         end;
  exact Hin.

(** Settles one path of a run that must have entered the call [c] of
    which [Hraise] says what it raises: the path never enters it, or what
    the world answered there is at odds with [Hraise], or it is the answer
    of [Hraise]. *)
Ltac entered_raising Hin Hraise :=
  run_events_in Hin; cbn [In] in Hin;
  repeat match type of Hin with
         | _ \/ _ => destruct Hin as [Hin|Hin]
         end;
  first [ discriminate Hin
        | exfalso; exact Hin
        | injection Hin as Hin; subst;
          match goal with
          | H2 : raises _ _ = _ |- _ =>
              lazymatch H2 with
              | Hraise => fail
              | _ => rewrite Hraise in H2;
                     first [ discriminate H2 | injection H2 as ?; subst | clear H2 ]
              end
          end ].



(** X3. When pip itself fails, the local script starts nothing: no
    directory is made, the environment is untouched and pip is the only
    external call.  A [KeyboardInterrupt] during the installation is not
    caught (it happens before the [try] of [main]): the process dies of it
    without a stop message.  An [Exception] ends the process with
    status 1. *)
Theorem X3_local_pip_fails (w : World) (s : state) (m : string) (e : exn)
    (Hmissing : importable w (pip_done s) "chromadb" = Some m)
    (Hpip : raises w (subprocess_check_call
                        [sys_executable w; "-m"; "pip"; "install"; "chromadb"])
            = Some e) :
  let s' := snd (LocalServer.script w s) in
  fs s' = fs s
  /\ environ s' = environ s
  /\ calls_of (events_since s s')
     = [subprocess_check_call [sys_executable w; "-m"; "pip"; "install"; "chromadb"]]
  /\ (e = KeyboardInterrupt ->
      fst (LocalServer.script w s) = Interrupted
      /\ last (events_since s s') = Some (Traceback KeyboardInterrupt))
  /\ (is_Exception e = true -> fst (LocalServer.script w s) = Exited 1).
Proof.
  intros s'. subst s'.
  unfold LocalServer.script, LocalServer.main. py_unfold. rewrite install_cases.
  cbn [pip_done]. rewrite Hmissing. cbv zeta. rewrite Hpip.
  destruct e; py_unfold; cbn [rev app]; run_events; cbn [calls_of].
  all: split; [reflexivity|]; split; [reflexivity|]; split; [reflexivity|].
  all: split; intros H; try discriminate H; try reflexivity.
  split; reflexivity.
Qed.

Lemma X3_witness :
  fst (LocalServer.script
         (world_with no_chromadb (fun _ => Some KeyboardInterrupt) true) boot)
    = Interrupted.
Proof.
  exact (proj1 (proj1 (proj2 (proj2 (proj2
    (X3_local_pip_fails (world_with no_chromadb (fun _ => Some KeyboardInterrupt) true)
       boot "No module named 'chromadb'" KeyboardInterrupt eq_refl eq_refl)))) eq_refl)).
Defined.

(** X4. After pip has installed chromadb, [start_chromadb_server] imports
    it afresh.  If it still cannot be imported, the script logs its
    guidance and ends with status 0, having started nothing; if it can,
    and the set-up goes through, the script serves as in
    [local_server_plan]. *)
Theorem X4_local_import_after_install (w : World) (s : state) (m : string)
    (Hmissing : importable w (pip_done s) "chromadb" = Some m)
    (Hpip : raises w (subprocess_check_call
                        [sys_executable w; "-m"; "pip"; "install"; "chromadb"])
            = None) :
  (forall m',
      importable w true "chromadb" = Some m' ->
      LocalServer.script w s
      = (Exited 0,
         {| trace :=
              rev [Log LInfo "🚀 Starting ChromaDB server for Forest MCP";
                   Log LInfo "ChromaDB not found, installing...";
                   Call (subprocess_check_call
                           [sys_executable w; "-m"; "pip"; "install"; "chromadb"]);
                   Log LInfo "ChromaDB installed successfully";
                   Log LError ("ChromaDB import failed: " +:+ m');
                   Log LError "Try installing ChromaDB with: pip install chromadb"]
              ++ trace s;
            environ := environ s; fs := fs s; pip_done := true |}))
  /\ (forall files1 files2,
        importable w true "chromadb" = None ->
        importable w true "chromadb.config:Settings" = None ->
        importable w true "uvicorn" = None ->
        path_mkdir false true (Path w (expanduser w "~/.forest-data")) (fs s)
        = inr files1 ->
        path_mkdir false true
          (Path w (path_join (expanduser w "~/.forest-data") ".chromadb")) files1
        = inr files2 ->
        raises w (Settings_new (LocalServer.settings_kw
                    (path_join (expanduser w "~/.forest-data") ".chromadb")))
        = None ->
        raises w (chromadb_Client true) = None ->
        serving_calls (events_since s (snd (LocalServer.script w s)))
        = local_server_plan w true
        /\ fs (snd (LocalServer.script w s)) = files2).
Proof.
  split.
  - intros m' Hstill.
    unfold LocalServer.script, LocalServer.main. py_unfold. rewrite install_cases.
    cbn [pip_done]. rewrite Hmissing. cbv zeta. rewrite Hpip. py_unfold.
    unfold LocalServer.start_chromadb_server, LocalServer.start_chromadb_server_body.
    py_unfold. rewrite Hstill. reflexivity.
  - intros files1 files2 Hchroma Hsettings Huvicorn Hmk1 Hmk2 Hnew Hclient.
    cut (let '(st, s') := LocalServer.script w s in
         serving_calls (events_since s s') = local_server_plan w true
         /\ fs s' = files2).
    { destruct (LocalServer.script w s); auto. }
    unfold LocalServer.script, LocalServer.main. py_unfold. rewrite install_cases.
    cbn [pip_done]. rewrite Hmissing. cbv zeta. rewrite Hpip. py_unfold.
    unfold LocalServer.start_chromadb_server, LocalServer.start_chromadb_server_body,
      local_server_plan, local_primary, local_fallback.
    cbn [rev app].
    py_run; (split; [run_events; reflexivity | reflexivity]).
Qed.

(** pip makes chromadb importable. *)
Lemma X4_witness :
  serving_calls
    (events_since boot
       (snd (LocalServer.script
               (world_with (fun installed m => if installed then None
                                               else no_chromadb installed m)
                  never_raises true) boot)))
  = [local_primary].
Proof.
  pose (w := world_with (fun installed m => if installed then None
                                            else no_chromadb installed m)
               never_raises true).
  pose (p1 := Path w (expanduser w "~/.forest-data")).
  pose (p2 := Path w (path_join (expanduser w "~/.forest-data") ".chromadb")).
  refine (proj1 (proj2 (X4_local_import_after_install w boot
                          "No module named 'chromadb'" eq_refl eq_refl)
                   (<[p1 := Dir]> (fs boot)) (<[p2 := Dir]> (<[p1 := Dir]> (fs boot)))
                   eq_refl eq_refl eq_refl _ _ eq_refl eq_refl)).
  - apply (mkdir_once_new p1 (fs boot)); vm_compute; reflexivity.
  - apply (mkdir_once_new p2 (<[p1 := Dir]> (fs boot))); vm_compute; reflexivity.
Defined.

(** ** start-local-chromadb-server.py: its directories *)

(** Once both [mkdir] calls have returned, nothing the local start
    function does later touches the file system. *)
Lemma local_start_fs (w : World) (s : state) (files1 files2 : gmap (list string) node) :
  importable w (pip_done s) "chromadb" = None ->
  importable w (pip_done s) "chromadb.config:Settings" = None ->
  importable w (pip_done s) "uvicorn" = None ->
  path_mkdir false true (Path w (expanduser w "~/.forest-data")) (fs s) = inr files1 ->
  path_mkdir false true
    (Path w (path_join (expanduser w "~/.forest-data") ".chromadb")) files1
  = inr files2 ->
  fs (snd (LocalServer.start_chromadb_server w s)) = files2.
Proof.
  intros Hchroma Hsettings Huvicorn Hmk1 Hmk2.
  cut (let '(r, s') := LocalServer.start_chromadb_server w s in fs s' = files2).
  { destruct (LocalServer.start_chromadb_server w s); auto. }
  unfold LocalServer.start_chromadb_server, LocalServer.start_chromadb_server_body.
  py_run; reflexivity.
Qed.

(** X5. The local script makes [~/.forest-data] and [.chromadb] inside it
    with [mkdir(exist_ok=True)], without [parents]: where the directory
    that is to hold [~/.forest-data] does not exist, nothing is created,
    the error is logged and [start_chromadb_server] returns [False] before
    any external call; where it exists, both directories are there
    afterwards and nothing else has changed; and where both exist already,
    the file system is left as it was. *)
Theorem X5_local_directories (w : World) (s : state)
    (Hchroma : importable w (pip_done s) "chromadb" = None)
    (Hsettings : importable w (pip_done s) "chromadb.config:Settings" = None)
    (Huvicorn : importable w (pip_done s) "uvicorn" = None) :
  let p1 := Path w (expanduser w "~/.forest-data") in
  let p2 := Path w (path_join (expanduser w "~/.forest-data") ".chromadb") in
  (node_at (fs s) p1 = None ->
   node_at (fs s) (parent p1) = None ->
   LocalServer.start_chromadb_server w s
   = (Ret (Some false),
      emit (Log LError ("Failed to start ChromaDB server: "
                        +:+ ENOENT +:+ ": '" +:+ path_str w p1 +:+ "'")) s))
  /\ (node_at (fs s) p1 = None ->
      node_at (fs s) (parent p1) = Some Dir ->
      node_at (fs s) p2 = None ->
      parent p2 = p1 ->
      fs (snd (LocalServer.start_chromadb_server w s))
      = <[p2 := Dir]> (<[p1 := Dir]> (fs s)))
  /\ (is_dir (fs s) p1 = true ->
      is_dir (fs s) p2 = true ->
      fs (snd (LocalServer.start_chromadb_server w s)) = fs s).
Proof.
  intros p1 p2. split; [|split].
  - intros Hnone Hup.
    assert (Hmk : path_mkdir false true p1 (fs s) = inl ENOENT).
    { unfold path_mkdir, mkdir_once, os_mkdir. rewrite Hnone, Hup. reflexivity. }
    unfold LocalServer.start_chromadb_server, LocalServer.start_chromadb_server_body.
    py_unfold. rewrite Hchroma. py_unfold. rewrite Hsettings. py_unfold.
    rewrite Huvicorn. py_unfold. fold p1. rewrite Hmk. reflexivity.
  - intros Hnone Hup Hnone2 Hpar.
    assert (Hp1 : p1 <> []).
    { intros H. rewrite H in Hnone. discriminate Hnone. }
    assert (Hp2 : p2 <> p1).
    { intros H. rewrite H in Hpar. destruct p1; [contradiction|].
      cbn in Hpar. apply (f_equal (@length string)) in Hpar. cbn in Hpar. lia. }
    apply (local_start_fs w s (<[p1 := Dir]> (fs s))); auto.
    + apply mkdir_once_new; assumption.
    + apply mkdir_once_new.
      * rewrite node_at_insert by exact Hp1. case_decide; [congruence|exact Hnone2].
      * rewrite Hpar, node_at_insert by exact Hp1. case_decide; [reflexivity|contradiction].
  - intros Hd1 Hd2.
    assert (Hex : forall p, is_dir (fs s) p = true -> path_mkdir false true p (fs s) = inr (fs s)).
    { intros p Hd. unfold path_mkdir, mkdir_once, os_mkdir.
      unfold is_dir in Hd. destruct (node_at (fs s) p) as [[|]|] eqn:Hp; try discriminate.
      cbn. unfold is_dir. rewrite Hp. reflexivity. }
    apply (local_start_fs w s (fs s)); auto.
Qed.

Lemma X5_witness :
  fs (snd (LocalServer.start_chromadb_server
             (world_with all_importable never_raises true) boot))
  = <[ [".chromadb"; ".forest-data"; "forest"; "home"] := Dir ]>
      (<[ [".forest-data"; "forest"; "home"] := Dir ]> (fs boot)).
Proof.
  refine (proj1 (proj2 (X5_local_directories
                          (world_with all_importable never_raises true) boot
                          eq_refl eq_refl eq_refl)) _ _ _ _);
    vm_compute; reflexivity.
Defined.

(** ** chromadb-simple-server.py: persistence, client and serving *)

(** X6. With [--data-dir X] the simple server writes both persistence
    variables once the directory is made: [CHROMA_DB_IMPL] is
    "duckdb+parquet" and [CHROMA_PERSIST_DIRECTORY] is [str(Path(X))], and
    they stay so whatever happens later in the run.  If [mkdir] raises, the
    error is printed, the environment is left untouched, nothing is called
    and the process ends with status 0. *)
Theorem X6_simple_persistence (w : World) (s : state) (X : string)
    (argv : list string) (a : SimpleServer.args)
    (HX : X <> "")
    (Hargs : parse (SimpleServer.arg_parser w) argv = Parsed a)
    (Hdir : SimpleServer.data_dir a = Some X)
    (Hchroma : importable w (pip_done s) "chromadb" = None) :
  (forall files,
      path_mkdir true true (Path w X) (fs s) = inr files ->
      environ (snd (SimpleServer.script w argv s))
      = <["CHROMA_PERSIST_DIRECTORY" := path_str w (Path w X)]>
          (<["CHROMA_DB_IMPL" := "duckdb+parquet"]> (environ s)))
  /\ (forall err,
        path_mkdir true true (Path w X) (fs s) = inl err ->
        SimpleServer.script w argv s
        = (Exited 0,
           emits [Print ("🚀 ChromaDB v" +:+ chromadb_version w);
                  Print ("❌ Server error: " +:+ err +:+ ": '"
                         +:+ path_str w (Path w X) +:+ "'")] s)).
Proof.
  assert (Htruthy : truthy (Some X) = true).
  { unfold truthy. apply negb_true_iff, String.eqb_neq. exact HX. }
  split.
  - intros files Hmk.
    cut (let '(st, s') := SimpleServer.script w argv s in
         environ s'
         = <["CHROMA_PERSIST_DIRECTORY" := path_str w (Path w X)]>
             (<["CHROMA_DB_IMPL" := "duckdb+parquet"]> (environ s))).
    { destruct (SimpleServer.script w argv s); auto. }
    unfold SimpleServer.script, SimpleServer.main. py_unfold. rewrite Hargs. py_unfold.
    unfold SimpleServer.start_simple_server, SimpleServer.start_simple_server_body.
    rewrite Hdir. change (the (Some X)) with X.
    py_run; reflexivity.
  - intros err Hmk.
    unfold SimpleServer.script, SimpleServer.main. py_unfold. rewrite Hargs. py_unfold.
    unfold SimpleServer.start_simple_server, SimpleServer.start_simple_server_body.
    rewrite Hdir. change (the (Some X)) with X.
    py_unfold. rewrite Hchroma. py_unfold. rewrite Htruthy. py_unfold.
    rewrite Hmk. reflexivity.
Qed.

Lemma X6_witness :
  environ (snd (SimpleServer.script (world_with all_importable never_raises true)
                  ["--data-dir"; "data/chroma"] boot))
    !! "CHROMA_PERSIST_DIRECTORY" = Some "data/chroma".
Proof.
  pose (w := world_with all_importable never_raises true).
  destruct (mkdir_parents_spec (Path w "data/chroma") (fs boot) boot_fs_ok)
    as (files & Hmk & _).
  { intros q _. apply boot_no_file. }
  pose proof (proj1 (X6_simple_persistence w boot "data/chroma"
                       ["--data-dir"; "data/chroma"]
                       {| SimpleServer.host := "0.0.0.0"; SimpleServer.port := 8000;
                          SimpleServer.data_dir := Some "data/chroma" |}
                       ltac:(discriminate) eq_refl eq_refl eq_refl) files Hmk) as H.
  unfold w in H. rewrite H. apply lookup_insert_eq.
Defined.

(** X7. Once its imports have worked and the data directory is dealt
    with, the simple server makes its external calls in one order and
    stops at the first that raises: the FastAPI application, its CORS
    middleware, one client ([PersistentClient(path=data_dir)] exactly when
    a data directory was given, else [Client()]), the four routes in the
    order of [routes], and then [uvicorn.run] on the application with the
    host and port of the command line and log level "info".  The host and
    the port are those typed after [--host] and [--port]. *)
Theorem X7_simple_calls (w : World) (s : state) (argv : list string)
    (a : SimpleServer.args)
    (Hargs : parse (SimpleServer.arg_parser w) argv = Parsed a)
    (Hchroma : importable w (pip_done s) "chromadb" = None)
    (Hdir : truthy (SimpleServer.data_dir a) = false
            \/ exists files,
                 path_mkdir true true (Path w (the (SimpleServer.data_dir a))) (fs s)
                 = inr files)
    (Hfastapi : importable w (pip_done s) "fastapi:FastAPI" = None)
    (Hcors : importable w (pip_done s) "fastapi.middleware.cors:CORSMiddleware" = None)
    (Huvicorn : importable w (pip_done s) "uvicorn" = None)
    (Htime : importable w (pip_done s) "time" = None) :
  calls_of (events_since s (snd (SimpleServer.script w argv s)))
  = entered w
      ([ FastAPI_new "ChromaDB Simple Server";
         app_add_middleware;
         (if truthy (SimpleServer.data_dir a)
          then chromadb_PersistentClient (the (SimpleServer.data_dir a))
          else chromadb_Client false) ]
       ++ map (fun r => app_route (SimpleServer.method_name (SimpleServer.route_method r))
                          (SimpleServer.route_path r))
            (SimpleServer.routes w)
       ++ [ uvicorn_run simple_app (SimpleServer.host a) (SimpleServer.port a) "info"
              None ])
  /\ (forall h v n,
        startswith "-" h = false ->
        startswith "-" v = false ->
        py_int w v = Some n ->
        parse (SimpleServer.arg_parser w) ["--host"; h; "--port"; v]
        = Parsed {| SimpleServer.host := h; SimpleServer.port := n;
                    SimpleServer.data_dir := None |}).
Proof.
  split.
  - cut (let '(st, s') := SimpleServer.script w argv s in
         calls_of (events_since s s')
         = entered w
             ([ FastAPI_new "ChromaDB Simple Server";
                app_add_middleware;
                (if truthy (SimpleServer.data_dir a)
                 then chromadb_PersistentClient (the (SimpleServer.data_dir a))
                 else chromadb_Client false) ]
              ++ map (fun r => app_route
                                 (SimpleServer.method_name (SimpleServer.route_method r))
                                 (SimpleServer.route_path r))
                   (SimpleServer.routes w)
              ++ [ uvicorn_run simple_app (SimpleServer.host a) (SimpleServer.port a)
                     "info" None ])).
    { destruct (SimpleServer.script w argv s); auto. }
    cbn [app map entered SimpleServer.routes SimpleServer.method_name
         SimpleServer.route_method SimpleServer.route_path].
    unfold SimpleServer.script, SimpleServer.main. py_unfold. rewrite Hargs. py_unfold.
    unfold SimpleServer.start_simple_server, SimpleServer.start_simple_server_body.
    destruct (truthy (SimpleServer.data_dir a)) eqn:Htruthy;
      [destruct Hdir as [Hf|[files Hmk]]; [discriminate Hf|]|];
      py_run; run_events; reflexivity.
  - intros h v n Hh Hv Hint. unfold parse.
    rewrite (classify_all_option_value _ "--host" h) by (reflexivity || assumption).
    rewrite (classify_all_option_value _ "--port" v) by (reflexivity || assumption).
    change (classify (option_strings (SimpleServer.arg_parser w)) "--host")
      with (TOption "--host" None).
    change (classify (option_strings (SimpleServer.arg_parser w)) "--port")
      with (TOption "--port" None).
    cbn [classify_all has_ambiguous List.find snd].
    rewrite consume_option_value by reflexivity.
    change (store_value (SimpleServer.arg_parser w) "--host" h
              (defaults (SimpleServer.arg_parser w)))
      with (SimpleServer.set_host h (defaults (SimpleServer.arg_parser w))).
    unfold SimpleServer.set_host. rewrite consume_option_value by reflexivity.
    match goal with
    | |- context [store_value ?p "--port" v ?ns] =>
        change (store_value p "--port" v ns) with (SimpleServer.set_port w v ns)
    end.
    unfold SimpleServer.set_port. rewrite Hint. reflexivity.
Qed.

Lemma X7_witness :
  calls_of (events_since boot
              (snd (SimpleServer.script
                      (world_with all_importable
                         (fun c => match c with
                                   | app_route "POST" _ => Some (Error "duplicate route")
                                   | _ => None
                                   end) true)
                      ["--host"; "127.0.0.1"; "--port"; "8001"] boot)))
  = [ FastAPI_new "ChromaDB Simple Server"; app_add_middleware; chromadb_Client false;
      app_route "GET" "/api/v1/heartbeat"; app_route "GET" "/api/v1/collections";
      app_route "POST" "/api/v1/collections" ].
Proof.
  exact (proj1 (X7_simple_calls
                  (world_with all_importable
                     (fun c => match c with
                               | app_route "POST" _ => Some (Error "duplicate route")
                               | _ => None
                               end) true)
                  boot ["--host"; "127.0.0.1"; "--port"; "8001"]
                  {| SimpleServer.host := "127.0.0.1"; SimpleServer.port := 8001;
                     SimpleServer.data_dir := None |}
                  eq_refl eq_refl (or_introl eq_refl) eq_refl eq_refl eq_refl eq_refl)).
Defined.

(** Finds an event in a list of events that is written out. *)
Ltac in_events := cbn [In]; repeat first [left; reflexivity | right].

(** X8. When FastAPI, its CORS middleware or uvicorn cannot be imported,
    the simple server prints its guidance, [start_simple_server] returns
    [False] and the process ends with status 0 without one external call.
    This is found out only after the data directory has been dealt with:
    with [--data-dir] the persistence variables are set by then. *)
Theorem X8_simple_missing_fastapi (w : World) (s : state) (argv : list string)
    (a : SimpleServer.args) (m : string) (files : gmap (list string) node)
    (Hargs : parse (SimpleServer.arg_parser w) argv = Parsed a)
    (Hchroma : importable w (pip_done s) "chromadb" = None)
    (Hdir : truthy (SimpleServer.data_dir a) = false
            \/ path_mkdir true true (Path w (the (SimpleServer.data_dir a))) (fs s)
               = inr files)
    (Hmissing : importable w (pip_done s) "fastapi:FastAPI" = Some m
                \/ importable w (pip_done s) "fastapi.middleware.cors:CORSMiddleware"
                   = Some m
                \/ importable w (pip_done s) "uvicorn" = Some m) :
  let s' := snd (SimpleServer.script w argv s) in
  fst (SimpleServer.start_simple_server w (SimpleServer.host a) (SimpleServer.port a)
         (SimpleServer.data_dir a) s) = Ret (Some false)
  /\ fst (SimpleServer.script w argv s) = Exited 0
  /\ calls_of (events_since s s') = []
  /\ last (events_since s s')
     = Some (Print "💡 Install with: pip install fastapi uvicorn")
  /\ In (Print "❌ FastAPI or uvicorn not available") (events_since s s')
  /\ (truthy (SimpleServer.data_dir a) = true ->
      environ s' !! "CHROMA_DB_IMPL" = Some "duckdb+parquet").
Proof.
  intros s'. subst s'.
  cut (let '(r, _) := SimpleServer.start_simple_server w (SimpleServer.host a)
                        (SimpleServer.port a) (SimpleServer.data_dir a) s in
       r = Ret (Some false)).
  2:{ unfold SimpleServer.start_simple_server, SimpleServer.start_simple_server_body.
      destruct (truthy (SimpleServer.data_dir a)) eqn:Htruthy;
        [destruct Hdir as [Hf|Hmk]; [discriminate Hf|]|];
        destruct Hmissing as [Hm|[Hm|Hm]]; py_run; reflexivity. }
  intros Hstart. split.
  { destruct (SimpleServer.start_simple_server _ _ _ _ _); exact Hstart. }
  clear Hstart.
  cut (let '(st, s') := SimpleServer.script w argv s in
       st = Exited 0
       /\ calls_of (events_since s s') = []
       /\ last (events_since s s')
          = Some (Print "💡 Install with: pip install fastapi uvicorn")
       /\ In (Print "❌ FastAPI or uvicorn not available") (events_since s s')
       /\ (truthy (SimpleServer.data_dir a) = true ->
           environ s' !! "CHROMA_DB_IMPL" = Some "duckdb+parquet")).
  { destruct (SimpleServer.script w argv s); auto. }
  unfold SimpleServer.script, SimpleServer.main. py_unfold. rewrite Hargs. py_unfold.
  unfold SimpleServer.start_simple_server, SimpleServer.start_simple_server_body.
  destruct (truthy (SimpleServer.data_dir a)) eqn:Htruthy;
    [destruct Hdir as [Hf|Hmk]; [discriminate Hf|]|];
    destruct Hmissing as [Hm|[Hm|Hm]]; py_run; run_events; cbn [calls_of].
  all: split; [reflexivity|]; split; [reflexivity|]; split; [reflexivity|].
  all: split; [in_events|].
  all: intros H; try discriminate H.
  all: rewrite lookup_insert_ne by discriminate; apply lookup_insert_eq.
Qed.

Lemma X8_witness :
  fst (SimpleServer.script
         (world_with (fun _ m => if String.eqb m "uvicorn"
                                 then Some "No module named 'uvicorn'" else None)
            never_raises true) [] boot) = Exited 0.
Proof.
  refine (proj1 (proj2 (X8_simple_missing_fastapi
            (world_with (fun _ m => if String.eqb m "uvicorn"
                                    then Some "No module named 'uvicorn'" else None)
               never_raises true) boot []
            {| SimpleServer.host := "0.0.0.0"; SimpleServer.port := 8000;
               SimpleServer.data_dir := None |}
            "No module named 'uvicorn'" (fs boot) eq_refl eq_refl (or_introl eq_refl)
            (or_intror (or_intror eq_refl))))).
Defined.

(** X9. An [ImportError] that an external call raises is taken for a
    missing package.  In [start-chromadb-server.py], if [run_server] or
    [uvicorn.run] raises one, the script reports that ChromaDB is not
    available and exits with status 1; in [chromadb-simple-server.py], if
    a call of the inner [try] raises one, the script reports that FastAPI
    or uvicorn is not available and ends with status 0. *)
Theorem X9_import_error_from_call (w : World) (s : state) (c : call) (m : string)
    (Hraise : raises w c = Some (ImportError m)) :
  (forall argv,
      In (Call c) (events_since s (snd (StartServer.script w argv s))) ->
      fst (StartServer.script w argv s) = Exited 1
      /\ In (Print ("❌ ChromaDB not available: " +:+ m))
           (events_since s (snd (StartServer.script w argv s)))
      /\ last (events_since s (snd (StartServer.script w argv s)))
         = Some (Print "💡 Install with: pip install chromadb"))
  /\ (forall argv,
        In (Call c) (events_since s (snd (SimpleServer.script w argv s))) ->
        fst (SimpleServer.script w argv s) = Exited 0
        /\ In (Print "❌ FastAPI or uvicorn not available")
             (events_since s (snd (SimpleServer.script w argv s)))
        /\ last (events_since s (snd (SimpleServer.script w argv s)))
           = Some (Print "💡 Install with: pip install fastapi uvicorn")).
Proof.
  split.
  - intros argv.
    cut (let '(st, s') := StartServer.script w argv s in
         In (Call c) (events_since s s') ->
         st = Exited 1
         /\ In (Print ("❌ ChromaDB not available: " +:+ m)) (events_since s s')
         /\ last (events_since s s')
            = Some (Print "💡 Install with: pip install chromadb")).
    { destruct (StartServer.script w argv s); auto. }
    unfold StartServer.script, StartServer.main, StartServer.start_chromadb_server,
      StartServer.start_chromadb_server_body, StartServer.logging_basicConfig.
    py_run; intros Hin; entered_raising Hin Hraise;
      (split; [reflexivity|]; run_events; cbn [str_exn]; split; [in_events|reflexivity]).
  - intros argv.
    cut (let '(st, s') := SimpleServer.script w argv s in
         In (Call c) (events_since s s') ->
         st = Exited 0
         /\ In (Print "❌ FastAPI or uvicorn not available") (events_since s s')
         /\ last (events_since s s')
            = Some (Print "💡 Install with: pip install fastapi uvicorn")).
    { destruct (SimpleServer.script w argv s); auto. }
    unfold SimpleServer.script, SimpleServer.main, SimpleServer.start_simple_server,
      SimpleServer.start_simple_server_body.
    py_run; intros Hin; entered_raising Hin Hraise;
      (split; [reflexivity|]; run_events; split; [in_events|reflexivity]).
Qed.

Lemma X9_witness :
  fst (StartServer.script
         (world_with all_importable
            (serving_raises (ImportError "No module named 'hnswlib'")) true) [] boot)
    = Exited 1
  /\ fst (SimpleServer.script
            (world_with all_importable
               (serving_raises (ImportError "No module named 'hnswlib'")) true) []
            boot) = Exited 0.
Proof.
  split.
  - apply (proj1 (X9_import_error_from_call
                    (world_with all_importable
                       (serving_raises (ImportError "No module named 'hnswlib'")) true)
                    boot (chromadb_run_server "0.0.0.0" 8000 [])
                    "No module named 'hnswlib'" eq_refl) []).
    vm_compute. repeat first [left; reflexivity | right].
  - apply (proj2 (X9_import_error_from_call
                    (world_with all_importable
                       (serving_raises (ImportError "No module named 'hnswlib'")) true)
                    boot (uvicorn_run simple_app "0.0.0.0" 8000 "info" None)
                    "No module named 'hnswlib'" eq_refl) []).
    vm_compute. repeat first [left; reflexivity | right].
Defined.

(** ** The stage-1 scripts: how they end *)

(** X10. How a stage-1 script ends when an external call it has entered
    raises is fixed by the class of the exception.  A
    [KeyboardInterrupt] gives status 0 and a [SystemExit] its code, both
    without a traceback.  An [Exception] gives status 1 in
    [start-chromadb-server.py] and status 0 in [chromadb-simple-server.py],
    again without a traceback.  Any other exception is caught nowhere: the
    interpreter reports it and the status is 1. *)
Theorem X10_stage1_exit_status (w : World) (s : state) (c : call) (e : exn)
    (Hraise : raises w c = Some e) :
  (forall argv,
      let st := fst (StartServer.script w argv s) in
      let evs := events_since s (snd (StartServer.script w argv s)) in
      In (Call c) evs ->
      match e with
      | KeyboardInterrupt => st = Exited 0 /\ forall tb, ~ In (Traceback tb) evs
      | SystemExit code => st = Exited code /\ forall tb, ~ In (Traceback tb) evs
      | OtherBaseException _ => st = Exited 1 /\ last evs = Some (Traceback e)
      | _ => st = Exited 1 /\ forall tb, ~ In (Traceback tb) evs
      end)
  /\ (forall argv,
        let st := fst (SimpleServer.script w argv s) in
        let evs := events_since s (snd (SimpleServer.script w argv s)) in
        In (Call c) evs ->
        match e with
        | KeyboardInterrupt => st = Exited 0 /\ forall tb, ~ In (Traceback tb) evs
        | SystemExit code => st = Exited code /\ forall tb, ~ In (Traceback tb) evs
        | OtherBaseException _ => st = Exited 1 /\ last evs = Some (Traceback e)
        | _ => st = Exited 0 /\ forall tb, ~ In (Traceback tb) evs
        end).
Proof.
  pose (start_end := fun (st : status) (evs : list event) =>
          match e with
          | KeyboardInterrupt => st = Exited 0 /\ forall tb, ~ In (Traceback tb) evs
          | SystemExit code => st = Exited code /\ forall tb, ~ In (Traceback tb) evs
          | OtherBaseException _ => st = Exited 1 /\ last evs = Some (Traceback e)
          | _ => st = Exited 1 /\ forall tb, ~ In (Traceback tb) evs
          end).
  pose (simple_end := fun (st : status) (evs : list event) =>
          match e with
          | KeyboardInterrupt => st = Exited 0 /\ forall tb, ~ In (Traceback tb) evs
          | SystemExit code => st = Exited code /\ forall tb, ~ In (Traceback tb) evs
          | OtherBaseException _ => st = Exited 1 /\ last evs = Some (Traceback e)
          | _ => st = Exited 0 /\ forall tb, ~ In (Traceback tb) evs
          end).
  split.
  - intros argv st evs. subst st evs.
    cut (let '(st, s') := StartServer.script w argv s in
         In (Call c) (events_since s s') -> start_end st (events_since s s')).
    { destruct (StartServer.script w argv s); auto. }
    unfold StartServer.script, StartServer.main, StartServer.start_chromadb_server,
      StartServer.start_chromadb_server_body, StartServer.logging_basicConfig.
    py_run; intros Hin; entered_raising Hin Hraise; subst start_end; cbv beta iota;
      (split; [reflexivity|]);
      first [ run_events; reflexivity
            | let tb := fresh "tb" in let Htb := fresh "Htb" in
              intros tb Htb; not_in_log Htb ].
  - intros argv st evs. subst st evs.
    cut (let '(st, s') := SimpleServer.script w argv s in
         In (Call c) (events_since s s') -> simple_end st (events_since s s')).
    { destruct (SimpleServer.script w argv s); auto. }
    unfold SimpleServer.script, SimpleServer.main, SimpleServer.start_simple_server,
      SimpleServer.start_simple_server_body.
    py_run; intros Hin; entered_raising Hin Hraise; subst simple_end; cbv beta iota;
      (split; [reflexivity|]);
      first [ run_events; reflexivity
            | let tb := fresh "tb" in let Htb := fresh "Htb" in
              intros tb Htb; not_in_log Htb ].
Qed.

Lemma X10_witness :
  fst (StartServer.script
         (world_with all_importable (serving_raises (OtherBaseException "cancelled"))
            true) [] boot) = Exited 1
  /\ fst (SimpleServer.script
            (world_with all_importable (serving_raises (Error "port in use")) true) []
            boot) = Exited 0.
Proof.
  split.
  - apply (proj1 (X10_stage1_exit_status
                    (world_with all_importable
                       (serving_raises (OtherBaseException "cancelled")) true)
                    boot (chromadb_run_server "0.0.0.0" 8000 [])
                    (OtherBaseException "cancelled") eq_refl) []).
    vm_compute. repeat first [left; reflexivity | right].
  - apply (proj2 (X10_stage1_exit_status
                    (world_with all_importable (serving_raises (Error "port in use"))
                       true)
                    boot (uvicorn_run simple_app "0.0.0.0" 8000 "info" None)
                    (Error "port in use") eq_refl) []).
    vm_compute. repeat first [left; reflexivity | right].
Defined.
(** ** start-chromadb-server.py: persistence and the fallback *)

(** X11. [start-chromadb-server.py] writes the persistence variables only
    on its fallback path.  When chromadb has [run_server], the environment
    is never written, with or without [--data-dir] (the directory travels
    as the [persist_directory] setting).  On the fallback path they are
    written after both fallback imports: if one of these fails, the
    environment is untouched; if both succeed and [--data-dir X] was given,
    [CHROMA_DB_IMPL] is "duckdb+parquet" and [CHROMA_PERSIST_DIRECTORY] is
    [X] as it was typed. *)
Theorem X11_start_server_environment (w : World) (s : state) (argv : list string)
    (a : StartServer.args)
    (Hargs : parse (StartServer.arg_parser w) argv = Parsed a) :
  let s' := snd (StartServer.script w argv s) in
  (has_run_server w = true ->
   environ s' = environ s /\ forall k v, ~ In (Setenv k v) (events_since s s'))
  /\ (has_run_server w = false ->
      importable w (pip_done s) "chromadb.server.fastapi:app" <> None
      \/ importable w (pip_done s) "uvicorn" <> None ->
      environ s' = environ s /\ forall k v, ~ In (Setenv k v) (events_since s s'))
  /\ (forall X files,
        has_run_server w = false ->
        StartServer.data_dir a = Some X ->
        X <> "" ->
        importable w (pip_done s) "chromadb" = None ->
        importable w (pip_done s) "chromadb.config:Settings" = None ->
        importable w (pip_done s) "chromadb.server.fastapi:app" = None ->
        importable w (pip_done s) "uvicorn" = None ->
        path_mkdir true true (Path w X) (fs s) = inr files ->
        environ s'
        = <["CHROMA_PERSIST_DIRECTORY" := X]>
            (<["CHROMA_DB_IMPL" := "duckdb+parquet"]> (environ s))).
Proof.
  intros s'. subst s'. split; [|split].
  - intros Hrun.
    cut (let '(st, s') := StartServer.script w argv s in
         environ s' = environ s /\ forall k v, ~ In (Setenv k v) (events_since s s')).
    { destruct (StartServer.script w argv s); auto. }
    unfold StartServer.script, StartServer.main. py_unfold. rewrite Hargs. py_unfold.
    unfold StartServer.start_chromadb_server, bind.
    rewrite (basicConfig_returns w argv a _ Hargs).
    unfold StartServer.start_chromadb_server_body.
    py_run; (split; [reflexivity | no_setenv]).
  - intros Hrun Hmissing.
    cut (let '(st, s') := StartServer.script w argv s in
         environ s' = environ s /\ forall k v, ~ In (Setenv k v) (events_since s s')).
    { destruct (StartServer.script w argv s); auto. }
    unfold StartServer.script, StartServer.main. py_unfold. rewrite Hargs. py_unfold.
    unfold StartServer.start_chromadb_server, bind.
    rewrite (basicConfig_returns w argv a _ Hargs).
    unfold StartServer.start_chromadb_server_body.
    py_run; try (split; [reflexivity | no_setenv]).
    all: exfalso; destruct Hmissing as [H|H]; apply H; reflexivity.
  - intros X files Hrun Hdir HX Hchroma Hsettings Happ Huvicorn Hmk.
    assert (Htruthy : truthy (Some X) = true).
    { unfold truthy. apply negb_true_iff, String.eqb_neq. exact HX. }
    cut (let '(st, s') := StartServer.script w argv s in
         environ s'
         = <["CHROMA_PERSIST_DIRECTORY" := X]>
             (<["CHROMA_DB_IMPL" := "duckdb+parquet"]> (environ s))).
    { destruct (StartServer.script w argv s); auto. }
    unfold StartServer.script, StartServer.main. py_unfold. rewrite Hargs. py_unfold.
    unfold StartServer.start_chromadb_server, bind.
    rewrite (basicConfig_returns w argv a _ Hargs).
    unfold StartServer.start_chromadb_server_body. rewrite Hdir.
    change (the (Some X)) with X.
    py_run; reflexivity.
Qed.

Lemma X11_witness :
  environ (snd (StartServer.script (world_with all_importable never_raises true)
                  ["--data-dir"; "data/chroma"] boot)) = environ boot
  /\ environ (snd (StartServer.script (world_with all_importable never_raises false)
                     ["--data-dir"; "data/chroma"] boot))
     !! "CHROMA_PERSIST_DIRECTORY" = Some "data/chroma".
Proof.
  split.
  - exact (proj1 (proj1 (X11_start_server_environment
                           (world_with all_importable never_raises true) boot
                           ["--data-dir"; "data/chroma"]
                           {| StartServer.host := "0.0.0.0"; StartServer.port := 8000;
                              StartServer.data_dir := Some "data/chroma";
                              StartServer.log_level := "INFO" |} eq_refl) eq_refl)).
  - pose (w := world_with all_importable never_raises false).
    destruct (mkdir_parents_spec (Path w "data/chroma") (fs boot) boot_fs_ok)
      as (files & Hmk & _).
    { intros q _. apply boot_no_file. }
    pose proof (proj2 (proj2 (X11_start_server_environment w boot
                                ["--data-dir"; "data/chroma"]
                                {| StartServer.host := "0.0.0.0";
                                   StartServer.port := 8000;
                                   StartServer.data_dir := Some "data/chroma";
                                   StartServer.log_level := "INFO" |} eq_refl))
                  "data/chroma" files eq_refl eq_refl ltac:(discriminate)
                  eq_refl eq_refl eq_refl eq_refl Hmk) as H.
    unfold w in H. rewrite H. apply lookup_insert_eq.
Defined.

(** X12. On the fallback path of [start-chromadb-server.py], a failing
    import of the FastAPI application or of uvicorn is reported as ChromaDB
    not being available, with the advice to install chromadb, and ends the
    process with status 1 before any external call.  The data directory of
    [--data-dir] has been made by then. *)
Theorem X12_start_server_fallback_missing (w : World) (s : state)
    (argv : list string) (a : StartServer.args) (m : string)
    (files : gmap (list string) node)
    (Hargs : parse (StartServer.arg_parser w) argv = Parsed a)
    (Hrun : has_run_server w = false)
    (Hchroma : importable w (pip_done s) "chromadb" = None)
    (Hsettings : importable w (pip_done s) "chromadb.config:Settings" = None)
    (Hdir : (truthy (StartServer.data_dir a) = false /\ files = fs s)
            \/ (truthy (StartServer.data_dir a) = true
                /\ path_mkdir true true (Path w (the (StartServer.data_dir a))) (fs s)
                   = inr files))
    (Hmissing : importable w (pip_done s) "chromadb.server.fastapi:app" = Some m
                \/ (importable w (pip_done s) "chromadb.server.fastapi:app" = None
                    /\ importable w (pip_done s) "uvicorn" = Some m)) :
  let s' := snd (StartServer.script w argv s) in
  fst (StartServer.script w argv s) = Exited 1
  /\ In (Print ("❌ ChromaDB not available: " +:+ m)) (events_since s s')
  /\ last (events_since s s') = Some (Print "💡 Install with: pip install chromadb")
  /\ calls_of (events_since s s') = []
  /\ fs s' = files
  /\ environ s' = environ s.
Proof.
  intros s'. subst s'.
  cut (let '(st, s') := StartServer.script w argv s in
       st = Exited 1
       /\ In (Print ("❌ ChromaDB not available: " +:+ m)) (events_since s s')
       /\ last (events_since s s')
          = Some (Print "💡 Install with: pip install chromadb")
       /\ calls_of (events_since s s') = []
       /\ fs s' = files
       /\ environ s' = environ s).
  { destruct (StartServer.script w argv s); auto. }
  unfold StartServer.script, StartServer.main. py_unfold. rewrite Hargs. py_unfold.
  unfold StartServer.start_chromadb_server, bind.
  rewrite (basicConfig_returns w argv a _ Hargs).
  unfold StartServer.start_chromadb_server_body.
  destruct Hdir as [[Htruthy ->]|[Htruthy Hmk]];
    destruct Hmissing as [Happ|[Happ Huvicorn]];
    py_run; run_events; cbn [calls_of str_exn];
    (split; [reflexivity|]; split; [in_events|]; repeat split).
Qed.

Lemma X12_witness :
  fst (StartServer.script
         (world_with (fun _ m => if String.eqb m "uvicorn"
                                 then Some "No module named 'uvicorn'" else None)
            never_raises false) [] boot) = Exited 1.
Proof.
  refine (proj1 (X12_start_server_fallback_missing
            (world_with (fun _ m => if String.eqb m "uvicorn"
                                    then Some "No module named 'uvicorn'" else None)
               never_raises false) boot []
            {| StartServer.host := "0.0.0.0"; StartServer.port := 8000;
               StartServer.data_dir := None; StartServer.log_level := "INFO" |}
            "No module named 'uvicorn'" (fs boot) eq_refl eq_refl eq_refl eq_refl
            (or_introl (conj eq_refl eq_refl))
            (or_intror (conj eq_refl eq_refl)))).
Defined.

(** ** The data directory: what is in the way, and running again *)

(** A regular file where the directory is to be, or where its parent is
    to be, makes [mkdir(parents=True, exist_ok=True)] raise. *)
Lemma mkdir_parents_file (p : path) (files : gmap (list string) node) :
  node_at files p = Some File
  \/ (node_at files p = None /\ node_at files (parent p) = Some File) ->
  path_mkdir true true p files
  = inl (match node_at files p with Some _ => EEXIST | None => ENOTDIR end).
Proof.
  intros [Hp|[Hp Hup]]; rewrite Hp.
  - destruct p as [|c up]; [discriminate Hp|].
    cbn [path_mkdir mkdir_parents]. unfold os_mkdir. rewrite Hp. cbn.
    unfold is_dir. rewrite Hp. reflexivity.
  - destruct p as [|c up]; [discriminate Hp|].
    cbn [path_mkdir mkdir_parents]. unfold os_mkdir. rewrite Hp, Hup. cbn.
    unfold is_dir. rewrite Hp. reflexivity.
Qed.

(** X13. When [--data-dir X] names a regular file, or a place inside a
    regular file, [mkdir] raises ([FileExistsError], [NotADirectoryError]).
    [start-chromadb-server.py] prints the error as a start-up failure and
    exits with status 1; [chromadb-simple-server.py] prints it and ends with
    status 0.  Neither changes the file system or the environment, and
    neither enters an external call. *)
Theorem X13_data_dir_is_a_file (w : World) (s : state) (X : string)
    (HX : X <> "")
    (Hchroma : importable w (pip_done s) "chromadb" = None)
    (Hfile : node_at (fs s) (Path w X) = Some File
             \/ (node_at (fs s) (Path w X) = None
                 /\ node_at (fs s) (parent (Path w X)) = Some File)) :
  let err := match node_at (fs s) (Path w X) with
             | Some _ => EEXIST
             | None => ENOTDIR
             end +:+ ": '" +:+ path_str w (Path w X) +:+ "'" in
  (forall argv a,
      parse (StartServer.arg_parser w) argv = Parsed a ->
      StartServer.data_dir a = Some X ->
      importable w (pip_done s) "chromadb.config:Settings" = None ->
      StartServer.script w argv s
      = (Exited 1,
         emits [Print "🔧 ChromaDB Server for Forest Integration";
                Print (str_repeat "=" 50);
                Print ("🚀 Starting ChromaDB server v" +:+ chromadb_version w);
                Print ("📍 Host: " +:+ StartServer.host a);
                Print ("🔌 Port: " +:+ pretty (StartServer.port a));
                Print ("💾 Data directory: " +:+ X);
                Print ("❌ Server startup failed: " +:+ err)] s))
  /\ (forall argv a,
        parse (SimpleServer.arg_parser w) argv = Parsed a ->
        SimpleServer.data_dir a = Some X ->
        SimpleServer.script w argv s
        = (Exited 0,
           emits [Print ("🚀 ChromaDB v" +:+ chromadb_version w);
                  Print ("❌ Server error: " +:+ err)] s)).
Proof.
  intros err. subst err.
  assert (Htruthy : truthy (Some X) = true).
  { unfold truthy. apply negb_true_iff, String.eqb_neq. exact HX. }
  pose proof (mkdir_parents_file (Path w X) (fs s) Hfile) as Hmk.
  split.
  - intros argv a Hargs Hdir Hsettings.
    unfold StartServer.script, StartServer.main. py_unfold. rewrite Hargs. py_unfold.
    unfold StartServer.start_chromadb_server, bind.
    rewrite (basicConfig_returns w argv a _ Hargs).
    unfold StartServer.start_chromadb_server_body. rewrite Hdir.
    change (the (Some X)) with X.
    assert (Hor : or_else (Some X) "default" = X).
    { unfold or_else. rewrite Htruthy. reflexivity. }
    rewrite Hor.
    py_unfold. rewrite Hchroma. py_unfold. rewrite Hsettings. py_unfold.
    rewrite Htruthy. py_unfold. rewrite Hmk. reflexivity.
  - intros argv a Hargs Hdir.
    unfold SimpleServer.script, SimpleServer.main. py_unfold. rewrite Hargs. py_unfold.
    unfold SimpleServer.start_simple_server, SimpleServer.start_simple_server_body.
    rewrite Hdir. change (the (Some X)) with X.
    py_unfold. rewrite Hchroma. py_unfold. rewrite Htruthy. py_unfold.
    rewrite Hmk. reflexivity.
Qed.

Lemma X13_witness :
  fst (StartServer.script (world_with all_importable never_raises true)
         ["--data-dir"; "notes.txt/db"]
         {| trace := []; environ := ∅; fs := <[ ["notes.txt"] := File ]> ∅;
            pip_done := false |}) = Exited 1.
Proof.
  pose (s := {| trace := []; environ := ∅;
                fs := <[ ["notes.txt"] := File ]> (∅ : gmap (list string) node);
                pip_done := false |}).
  refine (f_equal fst
            (proj1 (X13_data_dir_is_a_file (world_with all_importable never_raises true)
                      s "notes.txt/db" ltac:(discriminate) eq_refl _)
               ["--data-dir"; "notes.txt/db"]
               {| StartServer.host := "0.0.0.0"; StartServer.port := 8000;
                  StartServer.data_dir := Some "notes.txt/db";
                  StartServer.log_level := "INFO" |} eq_refl eq_refl eq_refl)).
  right. split; vm_compute; reflexivity.
Defined.

(** What [mkdir(parents=True, exist_ok=True)] has made is a directory. *)
Lemma mkdir_parents_is_dir (p : path) (files files' : gmap (list string) node) :
  fs_ok files -> no_file_above files p ->
  path_mkdir true true p files = inr files' ->
  is_dir files' p = true.
Proof.
  intros Hok Hnf Hmk.
  destruct (mkdir_parents_spec p files Hok Hnf) as (files2 & Hmk2 & _ & Hview).
  cbn [path_mkdir] in Hmk. rewrite Hmk2 in Hmk. injection Hmk as <-.
  unfold is_dir. rewrite Hview. unfold with_dirs.
  destruct (node_at files p) as [[|]|] eqn:Hp.
  - reflexivity.
  - exfalso. apply (Hnf p); [reflexivity|exact Hp].
  - rewrite bool_decide_eq_true_2; reflexivity.
Qed.

(** X14. Running a stage-1 script a second time with the same
    [--data-dir X] leaves the file system as the first run left it: the
    directory the first run made is found and kept. *)
Theorem X14_second_run_keeps_directory (w : World) (s : state) (X : string)
    (HX : X <> "")
    (Hchroma : forall installed, importable w installed "chromadb" = None)
    (Hok : fs_ok (fs s))
    (Hnf : no_file_above (fs s) (Path w X)) :
  (forall argv a,
      parse (StartServer.arg_parser w) argv = Parsed a ->
      StartServer.data_dir a = Some X ->
      (forall installed, importable w installed "chromadb.config:Settings" = None) ->
      let s1 := snd (StartServer.script w argv s) in
      is_dir (fs s1) (Path w X) = true
      /\ fs (snd (StartServer.script w argv s1)) = fs s1)
  /\ (forall argv a,
        parse (SimpleServer.arg_parser w) argv = Parsed a ->
        SimpleServer.data_dir a = Some X ->
        let s1 := snd (SimpleServer.script w argv s) in
        is_dir (fs s1) (Path w X) = true
        /\ fs (snd (SimpleServer.script w argv s1)) = fs s1).
Proof.
  assert (Htruthy : truthy (Some X) = true).
  { unfold truthy. apply negb_true_iff, String.eqb_neq. exact HX. }
  destruct (mkdir_parents_spec (Path w X) (fs s) Hok Hnf) as (files & Hmk & _ & _).
  assert (Hdir : is_dir files (Path w X) = true).
  { apply (mkdir_parents_is_dir (Path w X) (fs s)); assumption. }
  split.
  - intros argv a Hargs Hd Hsettings s1. subst s1.
    destruct (start_server_mkdir w argv a s X files) as [H1 _]; auto.
    rewrite H1. split; [exact Hdir|].
    destruct (start_server_mkdir w argv a (snd (StartServer.script w argv s)) X files)
      as [H2 _]; auto.
    rewrite H1. apply mkdir_parents_exists. exact Hdir.
  - intros argv a Hargs Hd s1. subst s1.
    destruct (simple_server_mkdir w argv a s X files) as [H1 _]; auto.
    rewrite H1. split; [exact Hdir|].
    destruct (simple_server_mkdir w argv a (snd (SimpleServer.script w argv s)) X files)
      as [H2 _]; auto.
    rewrite H1. apply mkdir_parents_exists. exact Hdir.
Qed.

Lemma X14_witness :
  is_dir (fs (snd (StartServer.script (world_with all_importable never_raises true)
                     ["--data-dir"; "data/chroma"] boot))) ["chroma"; "data"] = true.
Proof.
  refine (proj1 (proj1 (X14_second_run_keeps_directory
                          (world_with all_importable never_raises true) boot
                          "data/chroma" ltac:(discriminate) (fun _ => eq_refl)
                          boot_fs_ok (fun q _ => boot_no_file q))
                   ["--data-dir"; "data/chroma"]
                   {| StartServer.host := "0.0.0.0"; StartServer.port := 8000;
                      StartServer.data_dir := Some "data/chroma";
                      StartServer.log_level := "INFO" |}
                   eq_refl eq_refl (fun _ => eq_refl))).
Defined.

(** ** The command line *)

(** X15. The stage-1 scripts parse the command line before anything
    else, so what argparse refuses never starts anything: a usage error
    ends the process with status 2 and the help with status 0, with
    argparse's text as the only output, nothing imported, created or
    called.  A value that follows [--port] as an argument of its own (it
    does not start with a dash) is the port if [int] accepts it, and a
    usage error if not. *)
Theorem X15_command_line_validation (w : World) (s : state) (v : string)
    (Hvalue : startswith "-" v = false) :
  (forall argv msg,
      parse (StartServer.arg_parser w) argv = UsageError msg ->
      StartServer.script w argv s = (Exited 2, emit (Argparse ("error: " +:+ msg)) s))
  /\ (forall argv msg,
        parse (SimpleServer.arg_parser w) argv = UsageError msg ->
        SimpleServer.script w argv s
        = (Exited 2, emit (Argparse ("error: " +:+ msg)) s))
  /\ (forall argv,
        parse (StartServer.arg_parser w) argv = HelpShown ->
        StartServer.script w argv s = (Exited 0, emit (Argparse "usage") s))
  /\ (forall argv,
        parse (SimpleServer.arg_parser w) argv = HelpShown ->
        SimpleServer.script w argv s = (Exited 0, emit (Argparse "usage") s))
  /\ (py_int w v = None ->
      StartServer.script w ["--port"; v] s
      = (Exited 2, emit (Argparse ("error: argument --port: invalid int value: "
                                   +:+ py_repr w v)) s)
      /\ SimpleServer.script w ["--port"; v] s
         = (Exited 2, emit (Argparse ("error: argument --port: invalid int value: "
                                      +:+ py_repr w v)) s))
  /\ (forall n,
        py_int w v = Some n ->
        parse (StartServer.arg_parser w) ["--port"; v]
        = Parsed {| StartServer.host := "0.0.0.0"; StartServer.port := n;
                    StartServer.data_dir := None; StartServer.log_level := "INFO" |}
        /\ parse (SimpleServer.arg_parser w) ["--port"; v]
           = Parsed {| SimpleServer.host := "0.0.0.0"; SimpleServer.port := n;
                       SimpleServer.data_dir := None |}).
Proof.
  assert (Hstart : forall argv msg,
             parse (StartServer.arg_parser w) argv = UsageError msg ->
             StartServer.script w argv s
             = (Exited 2, emit (Argparse ("error: " +:+ msg)) s)).
  { intros argv msg Hparse.
    unfold StartServer.script, StartServer.main. py_unfold. rewrite Hparse.
    reflexivity. }
  assert (Hsimple : forall argv msg,
             parse (SimpleServer.arg_parser w) argv = UsageError msg ->
             SimpleServer.script w argv s
             = (Exited 2, emit (Argparse ("error: " +:+ msg)) s)).
  { intros argv msg Hparse.
    unfold SimpleServer.script, SimpleServer.main. py_unfold. rewrite Hparse.
    reflexivity. }
  assert (Hp1 : parse (StartServer.arg_parser w) ["--port"; v]
                = match StartServer.set_port w v (defaults (StartServer.arg_parser w)) with
                  | inl msg => UsageError msg
                  | inr ns => Parsed ns
                  end).
  { rewrite parse_one_option by (reflexivity || exact Hvalue). reflexivity. }
  assert (Hp2 : parse (SimpleServer.arg_parser w) ["--port"; v]
                = match SimpleServer.set_port w v (defaults (SimpleServer.arg_parser w))
                  with
                  | inl msg => UsageError msg
                  | inr ns => Parsed ns
                  end).
  { rewrite parse_one_option by (reflexivity || exact Hvalue). reflexivity. }
  unfold StartServer.set_port in Hp1. unfold SimpleServer.set_port in Hp2.
  split; [exact Hstart|]. split; [exact Hsimple|]. split; [|split; [|split]].
  - intros argv Hparse.
    unfold StartServer.script, StartServer.main. py_unfold. rewrite Hparse.
    reflexivity.
  - intros argv Hparse.
    unfold SimpleServer.script, SimpleServer.main. py_unfold. rewrite Hparse.
    reflexivity.
  - intros Hint. rewrite Hint in Hp1, Hp2.
    split; [apply Hstart, Hp1 | apply Hsimple, Hp2].
  - intros n Hint. rewrite Hint in Hp1, Hp2. split; [exact Hp1 | exact Hp2].
Qed.

Lemma X15_witness :
  StartServer.script (world_with all_importable never_raises true) ["--port"; "80a"] boot
  = (Exited 2,
     emit (Argparse "error: argument --port: invalid int value: '80a'") boot).
Proof.
  exact (proj1 (proj1 (proj2 (proj2 (proj2 (proj2
    (X15_command_line_validation (world_with all_importable never_raises true) boot
       "80a" eq_refl))))) eq_refl)).
Defined.
(** ** start-chromadb-server.py: the log level *)

Lemma choice_lower (l : string) :
  str_in l StartServer.log_level_choices = true ->
  In (lower l) ["debug"; "info"; "warning"; "error"].
Proof.
  intros H. apply log_level_choice_cases in H.
  destruct H as [ -> | [ -> | [ -> | -> ] ] ]; in_events.
Qed.

(** X16. In [start-chromadb-server.py] the log level of a parsed
    namespace is one of argparse's four choices, all of which [logging]
    knows: [getattr(logging, log_level.upper())] finds a level, and
    [logging.basicConfig], the one statement of [start_chromadb_server]
    outside its [try], returns.  When [uvicorn.run] is entered it serves
    the chromadb app (the run is on the fallback path: chromadb has no
    [run_server]) with the host and the port of the namespace and its log
    level in lower case, one of debug, info, warning and error. *)
Theorem X16_log_level_from_command_line (w : World) (s : state) (argv : list string) :
  let s' := snd (StartServer.script w argv s) in
  (forall a,
      parse (StartServer.arg_parser w) argv = Parsed a ->
      logging_getattr (upper (StartServer.log_level a)) <> None
      /\ forall s0, StartServer.logging_basicConfig (StartServer.log_level a) s0
                    = (Ret tt, s0))
  /\ (forall app h p lvl o,
        In (Call (uvicorn_run app h p lvl o)) (events_since s s') ->
        exists a,
          parse (StartServer.arg_parser w) argv = Parsed a
          /\ app = chromadb_app
          /\ h = StartServer.host a
          /\ p = StartServer.port a
          /\ lvl = lower (StartServer.log_level a)
          /\ In lvl ["debug"; "info"; "warning"; "error"]
          /\ o = None
          /\ has_run_server w = false).
Proof.
  intros s'. subst s'. split.
  { intros a Hparse. split; [|intros s0; exact (basicConfig_returns _ _ _ s0 Hparse)].
    apply parsed_log_level, log_level_choice_cases in Hparse.
    destruct Hparse as [ -> | [ -> | [ -> | -> ] ] ]; discriminate. }
  cut (let '(_, s') := StartServer.script w argv s in
       forall app h p lvl o,
         In (Call (uvicorn_run app h p lvl o)) (events_since s s') ->
         exists a,
           parse (StartServer.arg_parser w) argv = Parsed a
           /\ app = chromadb_app
           /\ h = StartServer.host a
           /\ p = StartServer.port a
           /\ lvl = lower (StartServer.log_level a)
           /\ In lvl ["debug"; "info"; "warning"; "error"]
           /\ o = None
           /\ has_run_server w = false).
  { destruct (StartServer.script w argv s); auto. }
  unfold StartServer.script, StartServer.main. py_unfold.
  destruct (parse (StartServer.arg_parser w) argv) as [a| | |] eqn:Hparse.
  2,3,4: intros app h p lvl o Hin; exfalso; not_in_log Hin.
  pose proof (parsed_log_level _ _ _ Hparse) as Hchoice.
  unfold StartServer.start_chromadb_server. py_unfold.
  rewrite (basicConfig_returns _ _ _ _ Hparse).
  unfold StartServer.start_chromadb_server_body.
  py_run.
  all: intros app h p lvl o Hin; run_events_in Hin; cbn [In] in Hin.
  all: repeat match type of Hin with
              | _ \/ _ => destruct Hin as [Hin|Hin]; [try discriminate Hin|]
              end.
  all: try (exfalso; exact Hin).
  all: injection Hin as <- <- <- <- <-; exists a.
  all: repeat split; try reflexivity; try assumption; apply choice_lower, Hchoice.
Qed.
(** ** test-chromadb-simple.py as a process *)

Lemma calls_of_app (l1 l2 : list event) :
  calls_of (l1 ++ l2) = calls_of l1 ++ calls_of l2.
Proof.
  induction l1 as [|ev l1 IH]; [reflexivity|].
  destruct ev; cbn [app calls_of]; rewrite IH; reflexivity.
Qed.

Lemma events_since_emit_emits (s : state) (ev : event) (evs : list event) :
  events_since s (emit ev (emits evs s)) = evs ++ [ev].
Proof.
  unfold emit, emits. cbn [trace environ fs pip_done].
  replace (ev :: rev evs ++ trace s) with (rev (evs ++ [ev]) ++ trace s)
    by (rewrite rev_unit; reflexivity).
  apply events_since_app.
Qed.

(** The client probe enters at most its two calls, in order; what ends
    the script there is not an [Exception] and was raised by one of them. *)
Lemma client_report_calls (w : World) :
  calls_of (fst (client_report w))
    `prefix_of` [chromadb_Client false; client_list_collections]
  /\ (forall e, ~ In (Traceback e) (fst (client_report w)))
  /\ (forall e, snd (client_report w) = Some e ->
        is_Exception e = false
        /\ exists c, In (Call c) (fst (client_report w)) /\ raises w c = Some e).
Proof.
  unfold client_report.
  destruct (raises w (chromadb_Client false)) as [e1|] eqn:Hclient;
    [destruct (is_Exception e1) eqn:Hclass
    |destruct (raises w client_list_collections) as [e2|] eqn:Hlist;
       [destruct (is_Exception e2) eqn:Hclass|]];
    cbn [fst snd app calls_of].
  all: split; [first [ exists [client_list_collections]; reflexivity
                     | exists []; reflexivity ]|].
  all: split; [intros e Hin; cbn [In] in Hin;
               repeat (destruct Hin as [Hin|Hin]; [discriminate Hin|]); exact Hin|].
  all: intros e He; try discriminate He; injection He as <-.
  all: split; [exact Hclass|].
  - exists (chromadb_Client false). split; [left; reflexivity|exact Hclient].
  - exists client_list_collections. split; [in_events|exact Hlist].
Qed.

(** The report holds the calls of the client probe and no others, and no
    traceback. *)
Lemma diagnostic_report_calls (w : World) (pd : bool) :
  calls_of (diagnostic_report w pd) = calls_of (fst (client_report w))
  /\ forall e, ~ In (Traceback e) (diagnostic_report w pd).
Proof.
  assert (Hlisting : calls_of (contents_report w) = []
                     /\ forall e, ~ In (Traceback e) (contents_report w)).
  { unfold contents_report. generalize (Diagnostic.public_attrs w). intros attrs.
    cbn [calls_of In]. split.
    - rewrite calls_of_app.
      replace (calls_of (map (fun attr => Log LInfo ("   - " +:+ attr)) (firstn 10 attrs)))
        with (@nil call)
        by (induction (firstn 10 attrs) as [|a l IH]; [reflexivity|exact IH]).
      destruct (10 <? length attrs)%nat; reflexivity.
    - intros e [Hin|Hin]; [discriminate Hin|].
      apply in_app_or in Hin as [Hin|Hin].
      + apply in_map_iff in Hin as (a & Ha & _). discriminate Ha.
      + destruct (10 <? length attrs)%nat; [destruct Hin as [Hin|[]]; discriminate Hin
                                           |destruct Hin]. }
  destruct Hlisting as [Hnone Hno].
  pose proof (client_report_calls w) as (_ & Hprobe & _).
  unfold diagnostic_report, fastapi_report, uvicorn_report.
  destruct (importable w pd "chromadb.server.fastapi:app"),
    (importable w pd "uvicorn"), (snd (client_report w));
    cbn [app calls_of]; rewrite ?calls_of_app, ?Hnone, ?app_nil_r.
  all: split; [reflexivity|].
  all: intros tb Hin; cbn [In] in Hin.
  all: repeat match type of Hin with
              | (_ = _) \/ _ => destruct Hin as [Hin|Hin]; [discriminate Hin|]
              end.
  all: try (apply in_app_or in Hin as [Hin|Hin]; [|exact (Hno tb Hin)]).
  all: exact (Hprobe tb Hin).
Qed.

(** The script as a process, path by path. *)
Lemma diagnostic_script_cases (w : World) (s : state) :
  Diagnostic.script w s
  = match importable w (pip_done s) "chromadb" with
    | Some m => (Exited 0, emit (Log LError ("❌ ChromaDB not available: " +:+ m)) s)
    | None =>
        let s' := emits (diagnostic_report w (pip_done s)) s in
        match snd (client_report w) with
        | None => (Exited 0, s')
        | Some (SystemExit code) => (Exited code, s')
        | Some KeyboardInterrupt => (Interrupted, emit (Traceback KeyboardInterrupt) s')
        | Some e => (Exited 1, emit (Traceback e) s')
        end
    end.
Proof.
  unfold Diagnostic.script, run_process.
  destruct (importable w (pip_done s) "chromadb") as [m|] eqn:Hchroma.
  - unfold Diagnostic.test_chromadb. py_unfold. rewrite Hchroma. reflexivity.
  - rewrite (test_chromadb_report w s Hchroma).
    destruct (snd (client_report w)) as [[]|]; reflexivity.
Qed.

Lemma in_calls_of (l : list event) (c : call) : In (Call c) l <-> In c (calls_of l).
Proof.
  induction l as [|ev l IH]; [reflexivity|].
  destruct ev; cbn [calls_of In]; rewrite IH;
    (split; [intros [H|H]; [try discriminate H; injection H as <-; left; reflexivity
                           |first [right; exact H | exact H]]
            |intros H; first [ destruct H as [ <- |H]; [left; reflexivity|right; exact H]
                             | right; exact H ]]).
Qed.

(** What a call of the client probe raises decides how the probe ends. *)
Lemma client_report_raised (w : World) (c : call) (e : exn) :
  In (Call c) (fst (client_report w)) ->
  raises w c = Some e ->
  snd (client_report w) = if is_Exception e then None else Some e.
Proof.
  unfold client_report.
  destruct (raises w (chromadb_Client false)) as [e1|] eqn:Hclient;
    [destruct (is_Exception e1) eqn:Hclass
    |destruct (raises w client_list_collections) as [e2|] eqn:Hlist;
       [destruct (is_Exception e2) eqn:Hclass|]];
    cbn [fst snd app In]; intros Hin Hraise.
  all: repeat match type of Hin with
              | _ \/ _ => destruct Hin as [Hin|Hin]
              end.
  all: try discriminate Hin; try (exfalso; exact Hin).
  all: injection Hin as <-.
  all: first [ rewrite Hclient in Hraise | rewrite Hlist in Hraise ].
  all: try discriminate Hraise; injection Hraise as <-.
  all: rewrite Hclass; reflexivity.
Qed.

(** X17. [test-chromadb-simple.py] only looks: it leaves the environment
    and the file system as they are, installs nothing, and enters at most
    [chromadb.Client()] and then [list_collections()].  The result of
    [test_chromadb] is not made the exit status: when [import chromadb]
    raises [ImportError], the script logs the one error line and still ends
    with status 0.  When one of its two calls raises, an [Exception] is
    logged and the script ends with status 0; nothing catches anything
    else: a [SystemExit] ends the script with its code, a
    [KeyboardInterrupt] kills it, and any other exception gives status 1,
    the last two after a traceback. *)
Theorem X17_diagnostic_process (w : World) (s : state) :
  let st := fst (Diagnostic.script w s) in
  let s' := snd (Diagnostic.script w s) in
  let evs := events_since s s' in
  environ s' = environ s /\ fs s' = fs s /\ pip_done s' = pip_done s
  /\ calls_of evs `prefix_of` [chromadb_Client false; client_list_collections]
  /\ (forall m, importable w (pip_done s) "chromadb" = Some m ->
        st = Exited 0 /\ evs = [Log LError ("❌ ChromaDB not available: " +:+ m)])
  /\ (forall c e,
        In (Call c) evs ->
        raises w c = Some e ->
        match e with
        | KeyboardInterrupt => st = Interrupted /\ last evs = Some (Traceback e)
        | SystemExit code => st = Exited code
        | OtherBaseException _ => st = Exited 1 /\ last evs = Some (Traceback e)
        | _ => st = Exited 0
               /\ In (Log LError ("❌ Client creation failed: " +:+ str_exn e)) evs
        end).
Proof.
  intros st s' evs. subst st s' evs.
  rewrite (diagnostic_script_cases w s).
  pose proof (client_report_calls w) as (Hprefix & _ & Hraised).
  pose proof (diagnostic_report_calls w (pip_done s)) as (Hcalls & Hno).
  destruct (importable w (pip_done s) "chromadb") as [m|] eqn:Hchroma.
  - cbn [fst snd]. change (emit ?ev s) with (emits [ev] s).
    rewrite events_since_emits.
    repeat (split; [reflexivity|]).
    split; [exists [chromadb_Client false; client_list_collections]; reflexivity|].
    split.
    + intros m' Hm'. injection Hm' as <-. split; reflexivity.
    + intros c e [Hin|[]]. discriminate Hin.
  - cbv zeta.
    assert (Hprobe : forall c, In (Call c) (diagnostic_report w (pip_done s)) ->
                               In (Call c) (fst (client_report w))).
    { intros c Hin. apply in_calls_of. rewrite <- Hcalls. apply in_calls_of, Hin. }
    assert (Hlogged : forall e, In (Log LError ("❌ Client creation failed: "
                                                 +:+ str_exn e))
                                   (fst (client_report w)) ->
                                In (Log LError ("❌ Client creation failed: "
                                                 +:+ str_exn e))
                                   (diagnostic_report w (pip_done s))).
    { intros e Hin. unfold diagnostic_report. right.
      apply in_or_app. right. apply in_or_app. right.
      apply in_or_app. left. exact Hin. }
    destruct (snd (client_report w)) as [e'|] eqn:Hends.
    + destruct (Hraised e' eq_refl) as (Hclass & _).
      destruct e'; try discriminate Hclass; cbn [fst snd];
        rewrite ?events_since_emit_emits, ?events_since_emits,
          ?calls_of_app, ?app_nil_r, Hcalls.
      all: repeat (split; [reflexivity|]).
      all: split; [exact Hprefix|].
      all: split; [intros m' Hm'; discriminate Hm'|].
      all: intros c e Hin Hraise.
      all: try (apply in_app_or in Hin as [Hin|Hin];
                [|destruct Hin as [Hin|[]]; discriminate Hin]).
      all: apply Hprobe in Hin.
      all: pose proof (client_report_raised w c e Hin Hraise) as Hsame.
      all: rewrite Hends in Hsame.
      all: destruct (is_Exception e); [discriminate Hsame|].
      all: injection Hsame as <-.
      all: first [ reflexivity | split; [reflexivity | apply last_snoc] ].
    + cbn [fst snd]. rewrite events_since_emits, Hcalls.
      repeat (split; [reflexivity|]).
      split; [exact Hprefix|].
      split; [intros m' Hm'; discriminate Hm'|].
      intros c e Hin Hraise. apply Hprobe in Hin.
      pose proof (client_report_raised w c e Hin Hraise) as Hsame.
      rewrite Hends in Hsame.
      assert (Hfailed : In (Log LError ("❌ Client creation failed: " +:+ str_exn e))
                           (fst (client_report w))).
      { revert Hin Hsame. clear -Hraise. unfold client_report.
        destruct (raises w (chromadb_Client false)) as [e1|] eqn:Hclient;
          [destruct (is_Exception e1) eqn:Hclass
          |destruct (raises w client_list_collections) as [e2|] eqn:Hlist;
             [destruct (is_Exception e2) eqn:Hclass|]];
          cbn [fst snd app In]; intros Hin Hsame.
        all: repeat match type of Hin with
                    | _ \/ _ => destruct Hin as [Hin|Hin]
                    end.
        all: try discriminate Hin; try (exfalso; exact Hin).
        all: injection Hin as <-.
        all: first [ rewrite Hclient in Hraise | rewrite Hlist in Hraise ].
        all: try discriminate Hraise; injection Hraise as <-.
        all: try (rewrite Hclass in Hsame; discriminate Hsame).
        all: repeat first [left; reflexivity | right]. }
      destruct e; try discriminate Hsame.
      all: split; [reflexivity | exact (Hlogged _ Hfailed)].
Qed.
(** ** An empty data directory *)

(** X18. Both stage-1 scripts test the data directory for truth, so an
    empty [--data-dir] value is as good as none: argparse stores the empty
    string, and the start functions then do what they do without a data
    directory, in every state and whatever the world answers (the
    directory is reported as default, nothing is created, no persistence
    variable is set, the clients and servers get no path). *)
Theorem X18_empty_data_dir (w : World) (s : state) :
  parse (StartServer.arg_parser w) ["--data-dir"; ""]
  = Parsed {| StartServer.host := "0.0.0.0"; StartServer.port := 8000;
              StartServer.data_dir := Some ""; StartServer.log_level := "INFO" |}
  /\ parse (SimpleServer.arg_parser w) ["--data-dir"; ""]
     = Parsed {| SimpleServer.host := "0.0.0.0"; SimpleServer.port := 8000;
                 SimpleServer.data_dir := Some "" |}
  /\ (forall host port log_level,
        StartServer.start_chromadb_server w host port (Some "") log_level s
        = StartServer.start_chromadb_server w host port None log_level s)
  /\ (forall host port,
        SimpleServer.start_simple_server w host port (Some "") s
        = SimpleServer.start_simple_server w host port None s)
  /\ StartServer.script w ["--data-dir"; ""] s = StartServer.script w [] s
  /\ SimpleServer.script w ["--data-dir"; ""] s = SimpleServer.script w [] s.
Proof.
  assert (Hstart : forall host port log_level,
             StartServer.start_chromadb_server w host port (Some "") log_level
             = StartServer.start_chromadb_server w host port None log_level).
  { intros host port log_level.
    unfold StartServer.start_chromadb_server, StartServer.start_chromadb_server_body,
      or_else.
    change (truthy (Some "")) with false. change (truthy None) with false.
    reflexivity. }
  assert (Hsimple : forall host port,
             SimpleServer.start_simple_server w host port (Some "")
             = SimpleServer.start_simple_server w host port None).
  { intros host port.
    unfold SimpleServer.start_simple_server, SimpleServer.start_simple_server_body.
    change (truthy (Some "")) with false. change (truthy None) with false.
    reflexivity. }
  assert (Hp1 : parse (StartServer.arg_parser w) ["--data-dir"; ""]
                = Parsed {| StartServer.host := "0.0.0.0"; StartServer.port := 8000;
                            StartServer.data_dir := Some "";
                            StartServer.log_level := "INFO" |}) by reflexivity.
  assert (Hp2 : parse (SimpleServer.arg_parser w) ["--data-dir"; ""]
                = Parsed {| SimpleServer.host := "0.0.0.0"; SimpleServer.port := 8000;
                            SimpleServer.data_dir := Some "" |}) by reflexivity.
  split; [exact Hp1|]. split; [exact Hp2|].
  split; [intros host port log_level; rewrite Hstart; reflexivity|].
  split; [intros host port; rewrite Hsimple; reflexivity|].
  split.
  - unfold StartServer.script, StartServer.main, parse_args. rewrite Hp1.
    change (parse (StartServer.arg_parser w) [])
      with (Parsed (defaults (StartServer.arg_parser w))).
    py_unfold.
    cbn [StartServer.host StartServer.port StartServer.data_dir StartServer.log_level
         defaults StartServer.arg_parser].
    rewrite Hstart. reflexivity.
  - unfold SimpleServer.script, SimpleServer.main, parse_args. rewrite Hp2.
    change (parse (SimpleServer.arg_parser w) [])
      with (Parsed (defaults (SimpleServer.arg_parser w))).
    py_unfold.
    cbn [SimpleServer.host SimpleServer.port SimpleServer.data_dir
         defaults SimpleServer.arg_parser].
    rewrite Hsimple. reflexivity.
Qed.

(** ** The listing of the module *)

(** Where a line of the report can come from: every part but the listing
    is a handful of fixed lines. *)
Ltac in_report Hin :=
  unfold diagnostic_report, fastapi_report, uvicorn_report, client_report in Hin;
  repeat match type of Hin with
         | context [match ?x with _ => _ end] =>
             lazymatch x with
             | context [match _ with _ => _ end] => fail
             | _ => destruct x
             end
         end;
  cbn [app In fst snd] in Hin;
  repeat match type of Hin with
         | (_ = _) \/ _ => destruct Hin as [Hin|Hin]; [discriminate Hin|]
         end;
  try (exfalso; exact Hin).

Lemma listed_line (w : World) (pd : bool) (name : string) :
  In (Log LInfo ("   - " +:+ name)) (diagnostic_report w pd) ->
  In name (firstn 10 (Diagnostic.public_attrs w)).
Proof.
  intros Hin. in_report Hin.
  all: unfold contents_report in Hin; cbn [In] in Hin.
  all: destruct Hin as [Hin|Hin]; [discriminate Hin|].
  all: apply in_app_or in Hin as [Hin|Hin].
  all: try (destruct (10 <? length (Diagnostic.public_attrs w))%nat;
            [destruct Hin as [Hin|[]]; discriminate Hin|destruct Hin]).
  all: apply in_map_iff in Hin as (a & Ha & Hin).
  all: injection Ha as Ha; unfold String.append in Ha; subst a; exact Hin.
Qed.

Lemma count_line (w : World) (pd : bool) (rest : string) :
  In (Log LInfo ("   ... and " +:+ rest)) (diagnostic_report w pd) ->
  (10 < length (Diagnostic.public_attrs w))%nat.
Proof.
  intros Hin. in_report Hin.
  all: unfold contents_report in Hin; cbn [In] in Hin.
  all: destruct Hin as [Hin|Hin]; [discriminate Hin|].
  all: apply in_app_or in Hin as [Hin|Hin].
  all: try (apply in_map_iff in Hin as (a & Ha & _); discriminate Ha).
  all: destruct (10 <? length (Diagnostic.public_attrs w))%nat eqn:Hmore;
    [apply Nat.ltb_lt; exact Hmore|destruct Hin].
Qed.

(** X19. What the diagnostic script lists of the chromadb module: a
    listed name is an attribute of the module that does not start with an
    underscore, whatever else the run reports.  When the client probe lets
    the script go on, a module with at most ten public attributes is listed
    completely and without a count line, and with more than ten the report
    ends with the count of those beyond the tenth. *)
Theorem X19_listing_is_public (w : World) (s : state)
    (Hchroma : importable w (pip_done s) "chromadb" = None) :
  let evs := events_since s (snd (Diagnostic.test_chromadb w s)) in
  let public := Diagnostic.public_attrs w in
  (forall name, In (Log LInfo ("   - " +:+ name)) evs ->
     In name (dir_chromadb w) /\ startswith "_" name = false)
  /\ (forall rest, In (Log LInfo ("   ... and " +:+ rest)) evs ->
        (10 < length public)%nat)
  /\ (fst (Diagnostic.test_chromadb w s) = Ret true ->
      ((length public <= 10)%nat ->
       forall name, In name public -> In (Log LInfo ("   - " +:+ name)) evs)
      /\ ((10 < length public)%nat ->
          last evs = Some (Log LInfo ("   ... and "
                                      +:+ pretty (length public - 10)%nat
                                      +:+ " more")))).
Proof.
  intros evs public. subst evs public.
  rewrite (test_chromadb_events w s Hchroma), (test_chromadb_report w s Hchroma).
  cbn [fst].
  split; [|split].
  - intros name Hin. apply listed_line in Hin.
    assert (Hpublic : In name (Diagnostic.public_attrs w)).
    { rewrite <- (firstn_skipn 10 (Diagnostic.public_attrs w)).
      apply in_or_app. left. exact Hin. }
    unfold Diagnostic.public_attrs in Hpublic.
    apply filter_In in Hpublic as [Hdir Hname].
    split; [exact Hdir|]. apply negb_true_iff. exact Hname.
  - intros rest Hin. exact (count_line w _ rest Hin).
  - intros Hgoes.
    assert (Hends : snd (client_report w) = None).
    { destruct (snd (client_report w)); [discriminate Hgoes|reflexivity]. }
    unfold diagnostic_report. rewrite Hends.
    assert (Hlisting : forall before,
               last (before ++ contents_report w) = last (contents_report w)).
    { intros before. unfold contents_report. rewrite last_app. cbn [last]. 
      destruct (last _) eqn:Hl; [reflexivity|].
      apply last_None in Hl. discriminate Hl. }
    split.
    + intros Hfew name Hname.
      right. apply in_or_app. right. apply in_or_app. right. apply in_or_app. right.
      unfold contents_report. right. apply in_or_app. left.
      rewrite firstn_all2 by exact Hfew.
      apply (in_map (fun attr => Log LInfo ("   - " +:+ attr))). exact Hname.
    + intros Hmore.
      change (?a :: ?l1 ++ ?l2 ++ ?l3 ++ contents_report w)
        with ((a :: l1) ++ l2 ++ l3 ++ contents_report w).
      rewrite !app_assoc, Hlisting.
      unfold contents_report. apply Nat.ltb_lt in Hmore. rewrite Hmore.
      change (?a :: ?l ++ [?x]) with ((a :: l) ++ [x]).
      apply last_snoc.
Qed.

Lemma X19_witness :
  In (Log LInfo "   - config")
     (events_since boot
        (snd (Diagnostic.test_chromadb (world_with all_importable never_raises true)
                boot))).
Proof.
  apply (proj1 (proj2 (proj2 (X19_listing_is_public
                                (world_with all_importable never_raises true) boot
                                eq_refl)) eq_refl)).
  - cbv. lia.
  - cbv. right. right. left. reflexivity.
Defined.
